(** * A shallow embedding of the WeChat-channel video uploader

    The uploader reads a list of upload jobs from a spreadsheet
    (part_000), opens one authenticated browser context and hands the
    jobs to a sequential or a concurrent dispatcher
    (video_upload_process.go); every job drives a form in the browser,
    waits for the upload and for the final action by polling, and picks
    a publication date in a calendar widget (part_002).

    The browser is not part of the program: what the page shows and how
    it answers a click is an input of every definition below, either as
    a record of observations or as a transition function chosen by the
    caller.  Go values are modelled as follows.
    - [int] is a [Z]; where the code computes with it ([selectSpecificMonth])
      the 64-bit wrap-around is written out.
    - [string] is a [string] of bytes, so the Chinese literals of the
      source are their UTF-8 encodings.
    - [error] is an [option string]: [None] is [nil], [Some msg] an error
      whose [Error()] is [msg].
    - a slice is a [list]; reading or writing past its end is the Go
      runtime panic, made explicit by the [run] type. *)

From Stdlib Require Import ZArith Lia Ascii String.
From stdpp Require Import base numbers list strings gmap pretty.

(** ** Runtime panics *)

Inductive GoPanic : Type :=
| IndexOutOfRange (index : Z) (len : Z)
| NilPointerDereference.

Inductive run (A : Type) : Type :=
| Returns (a : A)
| Panics (p : GoPanic).
Arguments Returns {A} a.
Arguments Panics {A} p.

#[global] Instance run_ret : MRet run := fun A a => Returns a.
#[global] Instance run_bind : MBind run := fun A B f m =>
  match m with
  | Returns a => f a
  | Panics p => Panics p
  end.

(** [s[i]] as an expression and [s[i] = x] as a statement. *)
Definition index_get {A} (s : list A) (i : nat) : run A :=
  match s !! i with
  | Some x => Returns x
  | None => Panics (IndexOutOfRange (Z.of_nat i) (Z.of_nat (length s)))
  end.

Definition index_set {A} (s : list A) (i : nat) (x : A) : run (list A) :=
  if decide (i < length s)%nat then Returns (<[i:=x]> s)
  else Panics (IndexOutOfRange (Z.of_nat i) (Z.of_nat (length s))).

(** ** The functions of Go's [strings], [strconv] and [fmt] the program calls *)

Module GoStrings.

(** A Go result pair [(value, error)]. *)
Inductive res (A : Type) : Type :=
| Ok (a : A)
| Err (e : string).
Arguments Ok {A} a.
Arguments Err {A} e.

Definition bytes (l : list nat) : string :=
  string_of_list_ascii (map ascii_of_nat l).

Fixpoint dropBytes (n : nat) (s : string) : string :=
  match n, s with
  | S k, String _ rest => dropBytes k rest
  | _, _ => s
  end.

Definition HasPrefix (s prefix : string) : bool := String.prefix prefix s.

Definition HasSuffix (s suffix : string) : bool :=
  String.prefix (String.rev suffix) (String.rev s).

Definition TrimSuffix (s suffix : string) : string :=
  if HasSuffix s suffix
  then substring 0 (String.length s - String.length suffix) s
  else s.

Fixpoint Contains (s substr : string) : bool :=
  String.prefix substr s ||
  match s with
  | EmptyString => false
  | String _ rest => Contains rest substr
  end.

(** The UTF-8 encodings of the runes [unicode.IsSpace] accepts: the six
    ASCII ones, U+0085, U+00A0, U+1680, U+2000 to U+200A, U+2028,
    U+2029, U+202F, U+205F and U+3000. *)
Definition whiteSpace : list string :=
  map bytes
    [[9]; [10]; [11]; [12]; [13]; [32]; [194; 133]; [194; 160]; [225; 154; 128];
     [226; 128; 128]; [226; 128; 129]; [226; 128; 130]; [226; 128; 131];
     [226; 128; 132]; [226; 128; 133]; [226; 128; 134]; [226; 128; 135];
     [226; 128; 136]; [226; 128; 137]; [226; 128; 138]; [226; 128; 168];
     [226; 128; 169]; [226; 128; 175]; [226; 129; 159]; [227; 128; 128]]%nat.

Fixpoint dropRune (runes : list string) (s : string) : option string :=
  match runes with
  | [] => None
  | r :: rest =>
      if String.prefix r s then Some (dropBytes (String.length r) s)
      else dropRune rest s
  end.

Fixpoint trimLeft (runes : list string) (fuel : nat) (s : string) : string :=
  match fuel with
  | O => s
  | S k =>
      match dropRune runes s with
      | Some s' => trimLeft runes k s'
      | None => s
      end
  end.

Definition TrimSpace (s : string) : string :=
  let s := trimLeft whiteSpace (String.length s) s in
  String.rev (trimLeft (map String.rev whiteSpace) (String.length s) (String.rev s)).

Definition digit (c : ascii) : option Z :=
  let n := nat_of_ascii c in
  if (48 <=? n)%nat && (n <=? 57)%nat then Some (Z.of_nat n - 48)%Z else None.

Fixpoint digits (s : string) (acc : Z) : option Z :=
  match s with
  | EmptyString => Some acc
  | String c rest =>
      match digit c with
      | Some d => digits rest (10 * acc + d)%Z
      | None => None
      end
  end.

Definition minInt : Z := (- 2 ^ 63)%Z.
Definition maxInt : Z := (2 ^ 63 - 1)%Z.

(** [strconv.Atoi]: an optional sign and one or more decimal digits, in
    the range of [int]. *)
Definition Atoi (s : string) : res Z :=
  let quoted := bytes [34%nat] +:+ s +:+ bytes [34%nat] in
  let syntax := Err ("strconv.Atoi: parsing " +:+ quoted +:+ ": invalid syntax") in
  let range := Err ("strconv.Atoi: parsing " +:+ quoted +:+ ": value out of range") in
  match s with
  | EmptyString => syntax
  | String c rest =>
      let '(negative, body) :=
        if Ascii.eqb c "-" then (true, rest)
        else if Ascii.eqb c "+" then (false, rest)
        else (false, s) in
      match body with
      | EmptyString => syntax
      | _ =>
          match digits body 0 with
          | None => syntax
          | Some n =>
              let v := if negative then (- n)%Z else n in
              if (minInt <=? v)%Z && (v <=? maxInt)%Z then Ok v else range
          end
      end
  end.

(** [strconv.Itoa], and the verb [%d] of [fmt]. *)
Definition Itoa (n : Z) : string := pretty n.

(** Arithmetic of [int]: the result wraps around at 64 bits. *)
Definition wrap (z : Z) : Z := ((z - minInt) mod 2 ^ 64 + minInt)%Z.
Definition int_sub (a b : Z) : Z := wrap (a - b).
Definition int_add (a b : Z) : Z := wrap (a + b).

End GoStrings.

(** ** Jobs and their validation (part_000) *)

Module Task.
Import GoStrings.

(** A [*playwright.Page]: [None] is the nil pointer. *)
Definition PageRef : Type := nat.

Record VideoCreateTask : Type := mkTask {
  Description : string;
  Location : string;
  Collection : string;
  Link : string;
  Activity : string;
  Schedule : bool;
  ScheduleTime : string;
  ShortTitle : string;
  Action : string;
  VideoPath : string;
  RowIndex : Z;
  Page : option PageRef;
  ChannelName : string;
  Success : bool;
  Error : string
}.

(** The zero value [VideoCreateTask{}]. *)
Definition zeroTask : VideoCreateTask :=
  mkTask "" "" "" "" "" false "" "" "" "" 0 None "" false "".

(** Assignments to one field. *)
Definition set_Description (t : VideoCreateTask) (v : string) : VideoCreateTask :=
  mkTask v (Location t) (Collection t) (Link t) (Activity t)
    (Schedule t) (ScheduleTime t) (ShortTitle t) (Action t) (VideoPath t)
    (RowIndex t) (Page t) (ChannelName t) (Success t) (Error t).

Definition set_Location (t : VideoCreateTask) (v : string) : VideoCreateTask :=
  mkTask (Description t) v (Collection t) (Link t) (Activity t)
    (Schedule t) (ScheduleTime t) (ShortTitle t) (Action t) (VideoPath t)
    (RowIndex t) (Page t) (ChannelName t) (Success t) (Error t).

Definition set_Collection (t : VideoCreateTask) (v : string) : VideoCreateTask :=
  mkTask (Description t) (Location t) v (Link t) (Activity t)
    (Schedule t) (ScheduleTime t) (ShortTitle t) (Action t) (VideoPath t)
    (RowIndex t) (Page t) (ChannelName t) (Success t) (Error t).

Definition set_Link (t : VideoCreateTask) (v : string) : VideoCreateTask :=
  mkTask (Description t) (Location t) (Collection t) v (Activity t)
    (Schedule t) (ScheduleTime t) (ShortTitle t) (Action t) (VideoPath t)
    (RowIndex t) (Page t) (ChannelName t) (Success t) (Error t).

Definition set_Activity (t : VideoCreateTask) (v : string) : VideoCreateTask :=
  mkTask (Description t) (Location t) (Collection t) (Link t) v
    (Schedule t) (ScheduleTime t) (ShortTitle t) (Action t) (VideoPath t)
    (RowIndex t) (Page t) (ChannelName t) (Success t) (Error t).

Definition set_Schedule (t : VideoCreateTask) (v : bool) : VideoCreateTask :=
  mkTask (Description t) (Location t) (Collection t) (Link t) (Activity t)
    v (ScheduleTime t) (ShortTitle t) (Action t) (VideoPath t)
    (RowIndex t) (Page t) (ChannelName t) (Success t) (Error t).

Definition set_ScheduleTime (t : VideoCreateTask) (v : string) : VideoCreateTask :=
  mkTask (Description t) (Location t) (Collection t) (Link t) (Activity t)
    (Schedule t) v (ShortTitle t) (Action t) (VideoPath t)
    (RowIndex t) (Page t) (ChannelName t) (Success t) (Error t).

Definition set_ShortTitle (t : VideoCreateTask) (v : string) : VideoCreateTask :=
  mkTask (Description t) (Location t) (Collection t) (Link t) (Activity t)
    (Schedule t) (ScheduleTime t) v (Action t) (VideoPath t)
    (RowIndex t) (Page t) (ChannelName t) (Success t) (Error t).

Definition set_Action (t : VideoCreateTask) (v : string) : VideoCreateTask :=
  mkTask (Description t) (Location t) (Collection t) (Link t) (Activity t)
    (Schedule t) (ScheduleTime t) (ShortTitle t) v (VideoPath t)
    (RowIndex t) (Page t) (ChannelName t) (Success t) (Error t).

Definition set_VideoPath (t : VideoCreateTask) (v : string) : VideoCreateTask :=
  mkTask (Description t) (Location t) (Collection t) (Link t) (Activity t)
    (Schedule t) (ScheduleTime t) (ShortTitle t) (Action t) v
    (RowIndex t) (Page t) (ChannelName t) (Success t) (Error t).

Definition set_RowIndex (t : VideoCreateTask) (v : Z) : VideoCreateTask :=
  mkTask (Description t) (Location t) (Collection t) (Link t) (Activity t)
    (Schedule t) (ScheduleTime t) (ShortTitle t) (Action t) (VideoPath t)
    v (Page t) (ChannelName t) (Success t) (Error t).

Definition set_Page (t : VideoCreateTask) (v : option PageRef) : VideoCreateTask :=
  mkTask (Description t) (Location t) (Collection t) (Link t) (Activity t)
    (Schedule t) (ScheduleTime t) (ShortTitle t) (Action t) (VideoPath t)
    (RowIndex t) v (ChannelName t) (Success t) (Error t).

Definition set_ChannelName (t : VideoCreateTask) (v : string) : VideoCreateTask :=
  mkTask (Description t) (Location t) (Collection t) (Link t) (Activity t)
    (Schedule t) (ScheduleTime t) (ShortTitle t) (Action t) (VideoPath t)
    (RowIndex t) (Page t) v (Success t) (Error t).

Definition set_Success (t : VideoCreateTask) (v : bool) : VideoCreateTask :=
  mkTask (Description t) (Location t) (Collection t) (Link t) (Activity t)
    (Schedule t) (ScheduleTime t) (ShortTitle t) (Action t) (VideoPath t)
    (RowIndex t) (Page t) (ChannelName t) v (Error t).

Definition set_Error (t : VideoCreateTask) (v : string) : VideoCreateTask :=
  mkTask (Description t) (Location t) (Collection t) (Link t) (Activity t)
    (Schedule t) (ScheduleTime t) (ShortTitle t) (Action t) (VideoPath t)
    (RowIndex t) (Page t) (ChannelName t) (Success t) v.

(** What [parseTaskFromRow] asks of the machine it runs on:
    [time.Parse] with the layout 2006/01/2 15:04 (the instant in
    nanoseconds, [None] for a parse error), [time.Now()], and
    [checkFileExists(path, empty extension)] ([None] when it answers
    true, the text of its error otherwise). *)
Record Host : Type := mkHost {
  parseTime : string -> option Z;
  now : Z;
  checkFileExists : string -> option string
}.

(** How a function body that returns [(task, error)] goes on: to the
    next statement with a value, out through [return task, err], or
    into a runtime panic. *)
Inductive flow (A : Type) : Type :=
| Next (a : A)
| Reject (task : VideoCreateTask) (err : string)
| Abort (p : GoPanic).
Arguments Next {A} a.
Arguments Reject {A} task err.
Arguments Abort {A} p.

#[global] Instance flow_ret : MRet flow := fun A a => Next a.
#[global] Instance flow_bind : MBind flow := fun A B f m =>
  match m with
  | Next a => f a
  | Reject t e => Reject t e
  | Abort p => Abort p
  end.

(** The expression [row[i]]. *)
Definition cell (row : list string) (i : nat) : flow string :=
  match index_get row i with
  | Returns c => Next c
  | Panics p => Abort p
  end.

(** [if len(row) > i { task.F = strings.TrimSpace(row[i]) }] *)
Definition optionalColumn (row : list string) (i : nat)
    (assign : VideoCreateTask -> string -> VideoCreateTask)
    (task : VideoCreateTask) : flow VideoCreateTask :=
  if decide (i < length row)%nat
  then c ← cell row i; mret (assign task (TrimSpace c))
  else mret task.

Definition thirtyDays : Z := (30 * 24 * 3600 * 1000000000)%Z.

Definition parseTaskFromRow (host : Host) (row : list string) : flow VideoCreateTask :=
  let task := zeroTask in
  task ← optionalColumn row 0 set_Description task;
  task ← optionalColumn row 1 set_Location task;
  task ← optionalColumn row 2 set_Collection task;
  task ← optionalColumn row 3 set_Link task;
  task ← optionalColumn row 4 set_Activity task;
  task ← (if decide (5 < length row)%nat
          then c ← cell row 5;
               mret (set_Schedule task (String.eqb (TrimSpace c) "定时"))
          else mret task);
  c5 ← cell row 5;
  noTime ← (if String.eqb c5 "定时"
            then c6 ← cell row 6; mret (String.eqb c6 "")
            else mret false);
  if noTime : bool then Reject task "定时发表时定时时间不能为空" else
  task ← (if decide (6 < length row)%nat
          then
            c6 ← cell row 6;
            let task := set_ScheduleTime task (TrimSpace c6) in
            c5 ← cell row 5;
            if String.eqb c5 "定时" && negb (String.eqb (ScheduleTime task) "")
            then
              match parseTime host (ScheduleTime task) with
              | None => Reject task "时间格式错误"
              | Some targetTime =>
                  if (targetTime <? now host)%Z || (now host + thirtyDays <? targetTime)%Z
                  then Reject task "定时时间需要大于当前时间且在一个月内"
                  else mret task
              end
            else mret task
          else mret task);
  task ← optionalColumn row 7 set_ShortTitle task;
  task ← (if decide (8 < length row)%nat
          then
            c8 ← cell row 8;
            let action := TrimSpace c8 in
            c5 ← cell row 5;
            draft ← (if String.eqb c5 "定时"
                     then c8 ← cell row 8; mret (String.eqb c8 "保存草稿")
                     else mret false);
            if draft : bool then Reject task "定时发表方式必须以发表方式保存" else
            if String.eqb action "保存草稿" then mret (set_Action task "save_draft")
            else if String.eqb action "手机预览" then mret (set_Action task "preview")
            else if String.eqb action "发表" then mret (set_Action task "publish")
            else Reject task ("不支持的保存方式: " +:+ action)
          else Reject task "缺少保存方式");
  task ← (if decide (9 < length row)%nat
          then
            c9 ← cell row 9;
            let videoPath := TrimSpace c9 in
            if String.eqb videoPath "" then Reject task "视频位置不能为空" else
            match checkFileExists host videoPath with
            | Some e => Reject task ("视频文件不存在: " +:+ videoPath +:+ ", " +:+ e)
            | None => mret (set_VideoPath task videoPath)
            end
          else Reject task "缺少视频位置");
  mret task.

End Task.

(** ** The upload pipeline (part_002): waiting by polling *)

Module Uploader.
Import GoStrings.

Record VideoUploadOptions : Type := mkOptions {
  optDescription : string;
  optLocation : string;
  optCollection : string;
  optLink : string;
  optActivity : string;
  optSchedule : bool;
  optScheduleTime : string;
  optShortTitle : string;
  optAction : string
}.

(** What the page answers at one moment: for a selector, the result of
    [Locator(sel).Count()] (0 when the call fails), of
    [Locator(sel).First().IsVisible()] and [IsEnabled()] (false when the
    call fails), and of [Locator(sel).TextContent()]. *)
Record PageView : Type := mkView {
  count : string -> Z;
  isVisible : string -> bool;
  isEnabled : string -> bool;
  textContent : string -> res string
}.

(** The page over time (milliseconds), and the time one of the
    predicates below takes to look at it. *)
Record Timeline : Type := mkTimeline {
  pageAt : Z -> PageView;
  latency : Z
}.

Definition deleteSelectors : list string :=
  [".finder-tag-wrap .tag-inner:has-text('删除')";
   ".ant-upload-list-item .anticon-delete";
   "button:has-text('删除')";
   "[title*='删除']";
   "[class*='delete'][class*='btn']"].

Definition hasDeleteButton (page : PageView) : bool :=
  existsb (fun selector =>
             (0 <? count page selector)%Z && isVisible page selector
             && isEnabled page selector)
    deleteSelectors.

Definition errorSelectors : list string :=
  [".ant-upload-list-item-error"; ".ant-alert-error"; ".upload-error";
   "text=上传失败"; "text=格式不支持"; "text=文件过大"; "text=网络错误";
   "[class*='error']"].

(** Lines 889-900: the second result of [TextContent()] is the error, and
    it is the one compared with [nil]. *)
Definition hasUploadError (page : PageView) : bool :=
  existsb (fun selector =>
             isVisible page selector &&
             match textContent page "body" with
             | Err _ => true
             | Ok _ => false
             end)
    errorSelectors.

(** The loop of [waitForDeleteButton], with [remaining] iterations to
    go: [Some r] when the loop returns [r], [None] when it runs out. *)
Fixpoint deleteButtonLoop (w : Timeline) (startTime : Z) (remaining : nat)
    (clock : Z) : option (option string) * Z :=
  match remaining with
  | O => (None, clock)
  | S k =>
      let clock := (clock + 2000)%Z in
      let found := hasDeleteButton (pageAt w clock) in
      let clock := (clock + latency w)%Z in
      if found then (Some None, clock) else
      let failed := hasUploadError (pageAt w clock) in
      let clock := (clock + latency w)%Z in
      if failed then (Some (Some "上传过程中出现错误"), clock) else
      if (5 * 60000 <? clock - startTime)%Z
      then (Some (Some "等待删除按钮超时（5分钟）"), clock)
      else deleteButtonLoop w startTime k clock
  end.

Definition waitForDeleteButton (w : Timeline) (clock : Z) : option string * Z :=
  let startTime := clock in
  let maxWait := 120%nat in
  match deleteButtonLoop w startTime maxWait clock with
  | (Some r, clock) => (r, clock)
  | (None, clock) => (Some "等待删除按钮超时", clock)
  end.

Definition isActionSuccessful (page : PageView) (action : string) : bool :=
  if String.eqb action "save_draft" then
    existsb (fun selector => (0 <? count page selector)%Z && isVisible page selector)
      ["text=已保存"; "text=保存成功"; "text=保存完成"; "text=草稿保存成功";
       ".ant-message-success"; ".weui-desktop-message--success";
       "[class*='success']"]
  else if String.eqb action "publish" then
    existsb (fun selector => (0 <? count page selector)%Z && isVisible page selector)
      ["text=已发表"; "text=发表成功"; "text=发布成功"; "text=视频已发布";
       ".ant-message-success"; ".weui-desktop-message--success"]
  else if String.eqb action "preview" then
    isVisible page ".weui-desktop-dialog, [role='dialog'], .preview-dialog"
  else false.

Definition hasActionFailed (page : PageView) (action : string) : bool :=
  existsb (fun selector => (0 <? count page selector)%Z && isVisible page selector)
    ["text=保存失败"; "text=发表失败"; "text=操作失败"; "text=网络错误";
     ".ant-message-error"; ".weui-desktop-message--error"; "[class*='error']"].

Fixpoint actionLoop (w : Timeline) (action actionName : string)
    (remaining : nat) (clock : Z) : option (option string) * Z :=
  match remaining with
  | O => (None, clock)
  | S k =>
      let clock := (clock + 1000)%Z in
      let ok := isActionSuccessful (pageAt w clock) action in
      let clock := (clock + latency w)%Z in
      if ok then (Some None, clock) else
      let failed := hasActionFailed (pageAt w clock) action in
      let clock := (clock + latency w)%Z in
      if failed then (Some (Some (actionName +:+ " 操作失败")), clock)
      else actionLoop w action actionName k clock
  end.

Definition waitForActionCompletion (w : Timeline) (action actionName : string)
    (clock : Z) : option string * Z :=
  let maxWait := 300%nat in
  match actionLoop w action actionName maxWait clock with
  | (Some r, clock) => (r, clock)
  | (None, clock) =>
      let ok := isActionSuccessful (pageAt w clock) action in
      let clock := (clock + latency w)%Z in
      if ok then (None, clock) else (Some (actionName +:+ " 操作超时"), clock)
  end.

End Uploader.

(** ** The date picker (part_002) *)

Module Picker.
Import GoStrings.

Inductive PickerEvent : Type :=
| ReadMonth
| ClickRightArrow
| Sleep (ms : Z).

(** The month panel: the text of every [.weui-desktop-picker__panel__label]
    and the count of the right-arrow locator. *)
Record MonthView : Type := mkMonthView {
  panelLabels : list (res string);
  rightArrowCount : Z
}.

(** A picker is a state of the remote page, what it shows, and what a
    click on the right arrow does to it. *)
Record Calendar (W : Type) : Type := mkCalendar {
  monthView : W -> MonthView;
  clickRightArrow : W -> res W
}.
Arguments mkCalendar {W} monthView clickRightArrow.
Arguments monthView {W} c w.
Arguments clickRightArrow {W} c w.

(** Lines 2160-2186: the queries of the table only feed the log. *)
Definition getCurrentMonthFromTable (page : MonthView) : res Z :=
  Err "无法确定当前月份".

Definition getCurrentMonth (page : MonthView) : res Z :=
  let labelCount := Z.of_nat (length (panelLabels page)) in
  if (2 <=? labelCount)%Z then
    match panelLabels page !! 1%nat with
    | Some (Err e) => Err ("获取月份文本失败: " +:+ e)
    | Some (Ok currentMonthText) =>
        let currentMonthText := TrimSpace currentMonthText in
        let currentMonthText := TrimSuffix currentMonthText "月" in
        let currentMonthText := TrimSpace currentMonthText in
        match Atoi currentMonthText with
        | Err _ => getCurrentMonthFromTable page
        | Ok currentMonth => Ok currentMonth
        end
    | None => getCurrentMonthFromTable page
    end
  else getCurrentMonthFromTable page.

Section Month.
Context {W : Type} (cal : Calendar W).

(** The loop of lines 1474-1488 with [n] iterations to go. *)
Fixpoint clickLoop (n : nat) (w : W) (trace : list PickerEvent)
  : option string * W * list PickerEvent :=
  match n with
  | O => (None, w, trace)
  | S k =>
      match clickRightArrow cal w with
      | Err e => (Some ("点击右箭头失败: " +:+ e), w, trace ++ [ClickRightArrow])
      | Ok w' =>
          let current := getCurrentMonth (monthView cal w') in
          clickLoop k w' (trace ++ [ClickRightArrow; Sleep 1000; ReadMonth])
      end
  end.

Definition selectSpecificMonth (w : W) (targetMonth : Z)
  : option string * W * list PickerEvent :=
  match getCurrentMonth (monthView cal w) with
  | Err e => (Some ("获取当前月份失败: " +:+ e), w, [ReadMonth])
  | Ok currentMonth =>
      if (currentMonth =? targetMonth)%Z then (None, w, [ReadMonth]) else
      let diff := int_sub targetMonth currentMonth in
      let diff := if (diff <? 0)%Z then int_add diff 12 else diff in
      if (rightArrowCount (monthView cal w) =? 0)%Z
      then (Some "未找到右箭头按钮", w, [ReadMonth]) else
      match clickLoop (Z.to_nat diff) w [ReadMonth] with
      | (Some e, w', trace) => (Some e, w', trace)
      | (None, w', trace) =>
          match getCurrentMonth (monthView cal w') with
          | Err e => (Some ("验证最终月份失败: " +:+ e), w', trace ++ [ReadMonth])
          | Ok finalMonth =>
              if (finalMonth =? targetMonth)%Z then (None, w', trace ++ [ReadMonth])
              else (Some ("月份切换失败，当前: " +:+ Itoa finalMonth +:+ ", 目标: "
                          +:+ Itoa targetMonth), w', trace ++ [ReadMonth])
          end
      end
  end.

End Month.

#[global] Instance PickerEvent_eq_dec : EqDecision PickerEvent.
Proof. solve_decision. Defined.

(** The number of clicks on the right arrow in a trace. *)
Definition clicks (trace : list PickerEvent) : nat :=
  length (filter (fun e => e = ClickRightArrow) trace).

(** One [a] element of [.weui-desktop-picker__table]: the result of its
    [TextContent()], its class attribute (empty when [GetAttribute]
    fails) and the error of a [Click] on it. *)
Record DayCell : Type := mkCell {
  cellText : res string;
  cellClass : string;
  cellClick : option string
}.

(** What the page shows once a cell was clicked: the count and the text
    of [.weui-desktop-picker__selected], and the class of the first link
    whose text is a given day. *)
Record Selection : Type := mkSelection {
  selectedCount : res Z;
  selectedText : res string;
  linkClass : string -> string
}.

(** The day panel: the errors of [Count()] on the locator of all links
    and on the locator of the links that are not disabled, the links in
    document order, and the page after a click on the link at a
    position. *)
Record DayGrid : Type := mkGrid {
  countError : option string;
  availableCountError : option string;
  cells : list DayCell;
  afterClick : nat -> Selection
}.

(** The class names of a class attribute, as a CSS class selector sees
    them: the attribute split at ASCII white space. *)
Definition isHtmlSpace (c : ascii) : bool :=
  let n := nat_of_ascii c in
  (n =? 9)%nat || (n =? 10)%nat || (n =? 12)%nat || (n =? 13)%nat || (n =? 32)%nat.

Fixpoint classNames (attribute current : string) : list string :=
  match attribute with
  | EmptyString => if String.eqb current "" then [] else [current]
  | String c rest =>
      if isHtmlSpace c
      then (if String.eqb current "" then classNames rest ""
            else current :: classNames rest "")
      else classNames rest (current +:+ String c "")
  end.

Definition hasClass (attribute name : string) : bool :=
  existsb (String.eqb name) (classNames attribute "").

Definition verifyDaySelection (page : Selection) (expectedDay : string) : option string :=
  match selectedCount page with
  | Err _ => Some "未找到选中的日期"
  | Ok n =>
      if (n =? 0)%Z then Some "未找到选中的日期" else
      match selectedText page with
      | Err e => Some ("获取选中日期文本失败: " +:+ e)
      | Ok actualDay =>
          let actualDay := TrimSpace actualDay in
          if String.eqb actualDay expectedDay then None else
          if Contains (linkClass page expectedDay) "weui-desktop-picker__selected"
          then None
          else Some "日期选择验证失败"
      end
  end.

Definition verifyDaySelectionByNumber (page : Selection) (expectedDay : Z) : option string :=
  match selectedCount page with
  | Err _ => Some "未找到选中的日期"
  | Ok n =>
      if (n =? 0)%Z then Some "未找到选中的日期" else
      match selectedText page with
      | Err e => Some ("获取选中日期文本失败: " +:+ e)
      | Ok selectedText =>
          let selectedText := TrimSpace selectedText in
          match Atoi selectedText with
          | Err e => Some ("解析选中日期失败: '" +:+ selectedText +:+ "', 错误: " +:+ e)
          | Ok selectedDay =>
              if (selectedDay =? expectedDay)%Z then None
              else Some ("日期选择不匹配: 期望=" +:+ Itoa expectedDay +:+ ", 实际="
                         +:+ Itoa selectedDay)
          end
      end
  end.

(** The number a cell shows, when its text can be read and parsed. *)
Definition cellDay (c : DayCell) : option Z :=
  match cellText c with
  | Err _ => None
  | Ok text =>
      match Atoi (TrimSpace text) with
      | Err _ => None
      | Ok currentDay => Some currentDay
      end
  end.

(** The loop of [selectSpecificDay] over the elements left, each with
    its position among all links of the table.  The result is the error
    and the positions [Click] was called on. *)
Fixpoint scanAllDates (page : DayGrid) (day : Z) (elements : list (nat * DayCell))
  : option string * list nat :=
  match elements with
  | [] => (Some ("日期 " +:+ Itoa day +:+ " 未找到"), [])
  | (i, dateElement) :: rest =>
      match cellDay dateElement with
      | None => scanAllDates page day rest
      | Some currentDay =>
          if (currentDay =? day)%Z then
            if Contains (cellClass dateElement) "disabled"
            then scanAllDates page day rest
            else
              match cellClick dateElement with
              | Some e => (Some ("点击日期 " +:+ Itoa day +:+ " 失败: " +:+ e), [i])
              | None =>
                  match verifyDaySelection (afterClick page i) (Itoa day) with
                  | Some e => (Some ("日期选择验证失败: " +:+ e), [i])
                  | None => (None, [i])
                  end
              end
          else scanAllDates page day rest
      end
  end.

Definition allDates (page : DayGrid) : list (nat * DayCell) :=
  imap (fun i dateElement => (i, dateElement)) (cells page).

Definition selectSpecificDay (page : DayGrid) (day : Z) : option string * list nat :=
  match countError page with
  | Some e => (Some ("获取日期元素失败: " +:+ e), [])
  | None => scanAllDates page day (allDates page)
  end.

(** The links [a:not(.weui-desktop-picker__disabled)] of the table. *)
Definition availableDates (page : DayGrid) : list (nat * DayCell) :=
  filter (fun e => hasClass (cellClass e.2) "weui-desktop-picker__disabled" = false)
    (allDates page).

Fixpoint scanAvailableDates (page : DayGrid) (day : Z) (elements : list (nat * DayCell))
  : option string * list nat :=
  match elements with
  | [] => (Some ("日期 " +:+ Itoa day +:+ " 不可选择"), [])
  | (i, dateElement) :: rest =>
      match cellDay dateElement with
      | None => scanAvailableDates page day rest
      | Some currentDay =>
          if (currentDay =? day)%Z then
            match cellClick dateElement with
            | Some e => (Some ("点击日期 " +:+ Itoa day +:+ " 失败: " +:+ e), [i])
            | None =>
                match verifyDaySelectionByNumber (afterClick page i) day with
                | Some e => (Some ("日期选择验证失败: " +:+ e), [i])
                | None => (None, [i])
                end
            end
          else scanAvailableDates page day rest
      end
  end.

Definition selectSpecificDayOptimized (page : DayGrid) (day : Z)
  : option string * list nat :=
  match availableCountError page with
  | Some e => (Some ("获取可用日期失败: " +:+ e), [])
  | None => scanAvailableDates page day (availableDates page)
  end.

(** A cell that carries the class of disabled days. *)
Definition markedDisabled (c : DayCell) : bool :=
  hasClass (cellClass c) "weui-desktop-picker__disabled".

(** The trace of a navigation of [n] clicks: the month is read, then
    every click is followed by a pause and a new reading, then the month
    is read a last time. *)
Definition navigationTrace (n : nat) : list PickerEvent :=
  [ReadMonth] ++ mjoin (replicate n [ClickRightArrow; Sleep 1000; ReadMonth])
  ++ [ReadMonth].

End Picker.

(** ** The dispatcher (video_upload_process.go) *)

Module Dispatch.
Export Task.
Export Uploader(VideoUploadOptions, mkOptions).

(** The ways [GeneratePage(context, false)] leaves (part_002, 174-223),
    with the text of the error it wraps. *)
Inductive GeneratePageExit : Type :=
| NewPageFailed (cause : string)
| NavigationFailed (cause : string)
| PageNotReady (cause : string)
| LoginInvalid (page : PageRef)
| PageReady (page : PageRef) (channelName : string).

(** What the browser does: how the n-th call of [GeneratePage] ends (the
    sequential dispatcher calls it once, call 0; the goroutine of job
    [i] makes call [i]), and how the two phases of a job's pipeline end
    on a given page. *)
Record Browser : Type := mkBrowser {
  pageExit : nat -> GeneratePageExit;
  uploadVideo : PageRef -> string -> option string;
  completeVideoUploadForm : PageRef -> VideoUploadOptions -> option string
}.

Definition GeneratePage (env : Browser) (call : nat)
  : option PageRef * string * option string :=
  match pageExit env call with
  | NewPageFailed e => (None, "", Some ("创建页面失败: " +:+ e))
  | NavigationFailed e => (None, "", Some ("页面创建失败: " +:+ e))
  | PageNotReady e => (None, "", Some ("页面加载失败: " +:+ e))
  | LoginInvalid p => (Some p, "", Some "登录信息失效: <nil>")
  | PageReady p name => (Some p, name, None)
  end.

(** Lines 110-118: the size of the worker pool for [n] jobs. *)
Definition maxConcurrency (n : Z) : Z :=
  let m := 3%Z in
  let m := if (50 <? n)%Z && (n <? 100)%Z then 5%Z else m in
  let m := if (100 <? n)%Z then 10%Z else m in
  m.

Definition createVideo (env : Browser) (page : PageRef)
    (videoCreateTask : VideoCreateTask) : VideoCreateTask :=
  let err := uploadVideo env page (VideoPath videoCreateTask) in
  let err :=
    match err with
    | None =>
        completeVideoUploadForm env page
          (mkOptions (Description videoCreateTask) (Location videoCreateTask)
             (Collection videoCreateTask) (Link videoCreateTask)
             (Activity videoCreateTask) (Schedule videoCreateTask)
             (ScheduleTime videoCreateTask) (ShortTitle videoCreateTask)
             (Action videoCreateTask))
    | Some e => Some e
    end in
  match err with
  | Some e => set_Error (set_Success videoCreateTask false) e
  | None => set_Success videoCreateTask true
  end.

(** One line of the log file; the time stamp is left out. *)
Record LogLine : Type := mkLogLine {
  logSuccess : bool;
  logChannel : string;
  logRow : Z;
  logVideo : string;
  logError : string
}.

Definition writeLogFile (logFile : list LogLine) (t : VideoCreateTask)
    (channelName : string) : list LogLine :=
  if Success t
  then logFile ++ [mkLogLine true channelName (RowIndex t) (VideoPath t) ""]
  else logFile ++ [mkLogLine false channelName (RowIndex t) (VideoPath t) (Error t)].

(** The loop of lines 97-105, over the indices still to visit. *)
Fixpoint sequentialLoop (env : Browser) (page : PageRef) (channelName : string)
    (indices : list nat) (videoCreateTasks : list VideoCreateTask)
    (logFile : list LogLine) : run (list VideoCreateTask * list LogLine) :=
  match indices with
  | [] => Returns (videoCreateTasks, logFile)
  | i :: rest =>
      t ← index_get videoCreateTasks i;
      tasks' ← index_set videoCreateTasks i (createVideo env page t);
      t' ← index_get tasks' i;
      sequentialLoop env page channelName rest tasks' (writeLogFile logFile t' channelName)
  end.

Definition processTaskSequential (env : Browser)
    (videoCreateTasks : list VideoCreateTask) (logFile : list LogLine)
  : run (list VideoCreateTask * list LogLine) :=
  let '(page, channelName, pageError) := GeneratePage env 0 in
  match pageError with
  | Some e =>
      t ← index_get videoCreateTasks 1;
      tasks1 ← index_set videoCreateTasks 1 (set_Success t false);
      t ← index_get tasks1 1;
      tasks2 ← index_set tasks1 1 (set_Error t e);
      t ← index_get tasks2 1;
      Returns (tasks2, writeLogFile logFile t channelName)
  | None =>
      match page with
      | None => Panics NilPointerDereference
      | Some p =>
          sequentialLoop env p channelName (seq 0 (length videoCreateTasks))
            videoCreateTasks logFile
      end
  end.

(** *** The concurrent dispatcher

    The dispatcher loop and its goroutines interleave.  One run is a
    list of events: the loop launches the goroutine of the next index
    (it needs a free slot of the semaphore and copies
    [videoCreateTasks[i]] for the argument), a launched goroutine does
    its work (from [GeneratePage] to the computation of its result; the
    success branch reads [videoCreateTasks[i]] from the shared slice at
    that moment), and a goroutine that has its result writes the log
    line, stores the result at [videoCreateTasks[index]] and gives its
    slot back.  Every iteration of the [range] loop has its own [i]
    (Go 1.22 and later; the Chromium build 1169 the program installs
    belongs to a playwright-go release that needs it), so the [i] the
    goroutine reads is its [index]. *)
Inductive Event : Type :=
| Launch
| Work (index : nat)
| Finish (index : nat).

Record Pool : Type := mkPool {
  shared : list VideoCreateTask;
  launched : nat;
  waiting : gmap nat VideoCreateTask;
  computed : gmap nat (VideoCreateTask * string);
  logFile : list LogLine
}.

Definition inFlight (s : Pool) : nat := size (waiting s) + size (computed s).

(** Lines 132-144 of the goroutine of [index], started with the copy
    [videoCreateTask], on the shared slice as it is now. *)
Definition worker (env : Browser) (videoCreateTasks : list VideoCreateTask)
    (videoCreateTask : VideoCreateTask) (index : nat)
  : run (VideoCreateTask * string) :=
  let '(page, channelName, pageError) := GeneratePage env index in
  let videoCreateTask := set_Page videoCreateTask page in
  let videoCreateTask := set_ChannelName videoCreateTask channelName in
  match page with
  | None => Panics NilPointerDereference
  | Some p =>
      match pageError with
      | None =>
          t ← index_get videoCreateTasks index;
          Returns (createVideo env p t, channelName)
      | Some e =>
          Returns (set_Error (set_Success videoCreateTask false) e, channelName)
      end
  end.

Inductive Dispatched : Type :=
| Completed (videoCreateTasks : list VideoCreateTask) (logFile : list LogLine)
| Crashed (p : GoPanic)
| Stuck.

(** One event; [None] when the event cannot happen in this state. *)
Definition step (env : Browser) (limit : Z) (s : Pool) (e : Event)
  : option (run Pool) :=
  match e with
  | Launch =>
      if decide (launched s < length (shared s))%nat then
        if decide (Z.of_nat (inFlight s) < limit)%Z then
          Some (t ← index_get (shared s) (launched s);
                Returns (mkPool (shared s) (S (launched s))
                           (<[launched s := t]> (waiting s)) (computed s) (logFile s)))
        else None
      else None
  | Work index =>
      match waiting s !! index with
      | Some t =>
          Some (r ← worker env (shared s) t index;
                Returns (mkPool (shared s) (launched s) (delete index (waiting s))
                           (<[index := r]> (computed s)) (logFile s)))
      | None => None
      end
  | Finish index =>
      match computed s !! index with
      | Some (t, channelName) =>
          Some (tasks' ← index_set (shared s) index t;
                Returns (mkPool tasks' (launched s) (waiting s)
                           (delete index (computed s))
                           (writeLogFile (logFile s) t channelName)))
      | None => None
      end
  end.

(** [wg.Wait()] returns once every index was launched and no goroutine
    is left. *)
Definition allDone (s : Pool) : bool :=
  bool_decide (launched s = length (shared s)) &&
  bool_decide (inFlight s = 0%nat).

Fixpoint schedule (env : Browser) (limit : Z) (events : list Event) (s : Pool)
  : Dispatched :=
  match events with
  | [] => if allDone s then Completed (shared s) (logFile s) else Stuck
  | e :: rest =>
      match step env limit s e with
      | None => Stuck
      | Some (Panics p) => Crashed p
      | Some (Returns s') => schedule env limit rest s'
      end
  end.

Definition processTaskConcurrent (env : Browser) (events : list Event)
    (videoCreateTasks : list VideoCreateTask) (logFile : list LogLine)
  : Dispatched :=
  schedule env (maxConcurrency (Z.of_nat (length videoCreateTasks))) events
    (mkPool videoCreateTasks 0 ∅ ∅ logFile).

(** [rc] is what the goroutine of index [i] computes from the job the
    dispatcher was given at [i]. *)
Definition outcomeOf (env : Browser) (tasks : list VideoCreateTask)
    (i : nat) (rc : VideoCreateTask * string) : Prop :=
  exists t, tasks !! i = Some t /\ worker env tasks t i = Returns rc.

(** What holds of the pool all along a run over [tasks]: an index not
    launched yet, one whose goroutine waits to work, one whose result
    waits to be stored, and one that is done. *)
Record poolInv (env : Browser) (tasks : list VideoCreateTask) (s : Pool) : Prop :=
  mkPoolInv {
  inv_length : length (shared s) = length tasks;
  inv_fresh : forall i, (launched s <= i)%nat ->
    waiting s !! i = None /\ computed s !! i = None /\ shared s !! i = tasks !! i;
  inv_waiting : forall i t, waiting s !! i = Some t ->
    computed s !! i = None /\ tasks !! i = Some t /\ shared s !! i = Some t;
  inv_computed : forall i rc, computed s !! i = Some rc ->
    waiting s !! i = None /\ shared s !! i = tasks !! i /\ outcomeOf env tasks i rc;
  inv_stored : forall i, (i < launched s)%nat ->
    waiting s !! i = None -> computed s !! i = None ->
    exists rc, outcomeOf env tasks i rc /\ shared s !! i = Some rc.1
}.

(** The run in which every goroutine finishes before the next is
    launched. *)
Definition inOrder (n : nat) : list Event :=
  flat_map (fun i => [Launch; Work i; Finish i]) (seq 0 n).

End Dispatch.

(** ** Validation of the workbook and the final report (part_000) *)

Module Validate.
Import GoStrings Task.

(** What opening the workbook gives: [os.Stat] says the file is not
    there, [excelize.OpenFile] fails, [GetRows] of Sheet1 fails, or the
    rows of Sheet1. *)
Inductive Workbook : Type :=
| FileMissing
| OpenFailed (e : string)
| SheetFailed (e : string)
| Sheet (rows : list (list string)).

(** Lines 67-70: the header names, trimmed, with their column. *)
Fixpoint headerMapFrom (headers : list string) (i : nat)
    (headerMap : gmap string nat) : gmap string nat :=
  match headers with
  | [] => headerMap
  | header :: rest => headerMapFrom rest (S i) (<[TrimSpace header := i]> headerMap)
  end.

Definition requiredColumns : list (string * string) :=
  [("保存方式", "I"); ("视频位置", "J")].

(** Lines 72-77.  The loop ranges over a Go map, whose order is not
    fixed: [columns] is [requiredColumns] in the order of this run. *)
Fixpoint missingFrom (columns : list (string * string))
    (headerMap : gmap string nat) : list string :=
  match columns with
  | [] => []
  | (name, col) :: rest =>
      match headerMap !! name with
      | Some _ => missingFrom rest headerMap
      | None => (col +:+ "列(" +:+ name +:+ ")") :: missingFrom rest headerMap
      end
  end.

Definition newline : string := bytes [10%nat].

(** [strings.Join]. *)
Fixpoint Join (elems : list string) (sep : string) : string :=
  match elems with
  | [] => ""
  | [e] => e
  | e :: rest => e +:+ sep +:+ Join rest sep
  end.

(** The loop of lines 89-98 over the data rows left, [i] being the
    index of the next one in [rows[1:]]. *)
Fixpoint parseRows (host : Host) (rows : list (list string)) (i : nat)
    (tasks : list VideoCreateTask) (errors : list string)
  : run (list VideoCreateTask * list string) :=
  match rows with
  | [] => Returns (tasks, errors)
  | row :: rest =>
      let rowIndex := int_add (Z.of_nat i) 2 in
      match parseTaskFromRow host row with
      | Abort p => Panics p
      | Reject _ err =>
          parseRows host rest (S i) tasks
            (errors ++ ["第" +:+ Itoa rowIndex +:+ "行: " +:+ err])
      | Next task =>
          parseRows host rest (S i) (tasks ++ [set_RowIndex task rowIndex]) errors
      end
  end.

Definition ValidateExcelFile (host : Host) (reversed : bool) (filePath : string)
    (book : Workbook) : run (res (list VideoCreateTask)) :=
  match book with
  | FileMissing => Returns (Err ("文件不存在: " +:+ filePath))
  | OpenFailed e => Returns (Err ("打开Excel文件失败: " +:+ e))
  | SheetFailed e => Returns (Err ("读取Sheet1失败: " +:+ e))
  | Sheet rows =>
      if (Z.of_nat (length rows) <? 2)%Z then Returns (Err "Excel文件没有数据行") else
      headers ← index_get rows 0;
      let headerMap := headerMapFrom headers 0 ∅ in
      let columns := if reversed then reverse requiredColumns else requiredColumns in
      let missingColumns := missingFrom columns headerMap in
      if (0 <? Z.of_nat (length missingColumns))%Z
      then Returns (Err ("缺少必要的列: [" +:+ Join missingColumns " " +:+ "]"))
      else
        parsed ← parseRows host (drop 1 rows) 0 [] [];
        if (0 <? Z.of_nat (length parsed.2))%Z
        then Returns (Err ("数据行错误:" +:+ newline +:+ Join parsed.2 newline))
        else Returns (Ok parsed.1)
  end.

(** One line of [PrintVideoCreateResults]. *)
Inductive ReportLine : Type :=
| Heading
| RowSucceeded (row : Z) (video : string)
| RowFailed (row : Z) (video : string) (error : string)
| Totals (successCount failCount : Z)
| SeeLog (failCount : Z).

(** The loop of lines 244-254; [base] is [filepath.Base]. *)
Fixpoint countResults (base : string -> string) (results : list VideoCreateTask)
    (successCount failCount : Z) (lines : list ReportLine)
  : Z * Z * list ReportLine :=
  match results with
  | [] => (successCount, failCount, lines)
  | result :: rest =>
      if Success result
      then countResults base rest (int_add successCount 1) failCount
             (lines ++ [RowSucceeded (RowIndex result) (base (VideoPath result))])
      else countResults base rest successCount (int_add failCount 1)
             (lines ++ [RowFailed (RowIndex result) (base (VideoPath result))
                          (Error result)])
  end.

Definition PrintVideoCreateResults (base : string -> string)
    (results : list VideoCreateTask) : list ReportLine :=
  let '(successCount, failCount, lines) := countResults base results 0 0 [Heading] in
  let lines := lines ++ [Totals successCount failCount] in
  if (0 <? failCount)%Z then lines ++ [SeeLog failCount] else lines.

End Validate.

(** ** Opening a page (part_002, lines 37-61 and 174-319, 618-702) *)

Module Session.
Import GoStrings Task Uploader.

(** A page at one moment: its URL, what its locators answer, and for a
    selector what [QuerySelector] finds ([None] when the call fails or
    finds nothing, else the result of [TextContent] on the element). *)
Record PageState : Type := mkPageState {
  pageURL : string;
  pageView : PageView;
  queryText : string -> option (res string)
}.

(** The page over time (milliseconds) and the time one look at it
    takes. *)
Record Navigation : Type := mkNavigation {
  stateAt : Z -> PageState;
  lookTime : Z
}.

(** The loop of [waitUserLogin] with [remaining] iterations to go. *)
Fixpoint loginLoop (w : Navigation) (startTime : Z) (remaining : nat) (clock : Z)
  : option (option string) * Z :=
  match remaining with
  | O => (None, clock)
  | S k =>
      let clock := (clock + 2000)%Z in
      let elapsed := (clock - startTime)%Z in
      let url := pageURL (stateAt w clock) in
      let clock := (clock + lookTime w)%Z in
      if Contains url "https://channels.weixin.qq.com/platform/" then (Some None, clock)
      else if (600 * 1000 <? elapsed)%Z
           then (Some (Some "扫码超时，请在5分钟内完成扫码"), clock)
           else loginLoop w startTime k clock
  end.

Definition waitUserLogin (w : Navigation) (clock : Z) : option string * Z :=
  let startTime := clock in
  let maxWait := 600%nat in
  match loginLoop w startTime maxWait clock with
  | (Some r, clock) => (r, clock)
  | (None, clock) => (Some "登录超时", clock)
  end.

Definition isCorrectPage (page : PageState) : bool :=
  let currentURL := pageURL page in
  if Contains currentURL "channels.weixin.qq.com" &&
     (Contains currentURL "platform/post/create" || Contains currentURL "create")
  then true
  else
    match textContent (pageView page) "body" with
    | Ok bodyText =>
        existsb (fun text => Contains bodyText text)
          ["上传视频"; "保存草稿"; "发表"; "创作"]
    | Err _ => false
    end.

Definition isUploadPageReady (page : PageState) : bool :=
  existsb (fun selector => (0 <? count (pageView page) selector)%Z)
    ["input[type='file']"; ".ant-upload"; "button:has-text('保存草稿')";
     "button:has-text('发表')"; "text=上传视频"; "[class*='upload']"].

Definition isLoggedIn (page : PageState) : bool :=
  if existsb (fun selector => isVisible (pageView page) selector)
       [".ant-upload"; "text=保存草稿"; "text=发表"; "text=上传视频"]
  then true
  else if existsb (fun selector => isVisible (pageView page) selector)
            [".qrcode"; "text=扫码登录"; "text=请使用微信扫码登录"]
       then false
       else true.

(** The loop of [waitForPageReady] with [remaining] iterations to go. *)
Fixpoint pageReadyLoop (w : Navigation) (remaining : nat) (clock : Z)
  : option (option string) * Z :=
  match remaining with
  | O => (None, clock)
  | S k =>
      let correct := isCorrectPage (stateAt w clock) in
      let clock := (clock + lookTime w)%Z in
      if negb correct then (Some (Some "不在正确的上传页面"), clock) else
      let ready := isUploadPageReady (stateAt w clock) in
      let clock := (clock + lookTime w)%Z in
      if ready then (Some None, clock)
      else pageReadyLoop w k (clock + 2000)%Z
  end.

Definition waitForPageReady (w : Navigation) (clock : Z) : option string * Z :=
  let maxWait := 30%nat in
  match pageReadyLoop w maxWait clock with
  | (Some r, clock) => (r, clock)
  | (None, clock) => (Some "页面加载超时", clock)
  end.

Definition getTextFromSelector (page : PageState) (selector : string) : string * bool :=
  match queryText page selector with
  | None => ("", false)
  | Some (Err _) => ("", false)
  | Some (Ok text) =>
      if String.eqb (TrimSpace text) "" then ("", false)
      else (TrimSpace text, true)
  end.

(** The first selector of the list that gives a name. *)
Fixpoint firstName (page : PageState) (selectors : list string) : option string :=
  match selectors with
  | [] => None
  | selector :: rest =>
      match getTextFromSelector page selector with
      | (name, true) => Some name
      | (_, false) => firstName page rest
      end
  end.

Definition getCurrentChannelName (page : PageState) : string :=
  match firstName page
          [".common-menu-item.account-info .account-info .name";
           ".account-info .name"; "[class*='account-info'] .name";
           ".left-part .name"; "[data-v-5271c1f2] .name";
           "[data-v-02b98fb1] .name"] with
  | Some name => name
  | None =>
      match firstName page
              [".common-menu-item.default .account-info .name";
               "[class*='common-menu-item'][class*='account-info'] .name"] with
      | Some name => name
      | None => ""
      end
  end.

Inductive NavEvent : Type :=
| Goto
| Pause (ms : Z)
| Reload.

(** What opening a page meets: the result of [NewPage], the error of
    the i-th [Goto] and the time a [Goto] takes, and the page from then
    on. *)
Record Opening : Type := mkOpening {
  newPage : res PageRef;
  gotoError : nat -> option string;
  gotoTime : Z;
  navigation : Navigation
}.

(** The loop of lines 181-199 at iteration [i], [remaining] to go. *)
Fixpoint gotoLoop (o : Opening) (i remaining : nat) (err : option string)
    (clock : Z) (trace : list NavEvent) : option string * Z * list NavEvent :=
  match remaining with
  | O => (err, clock, trace)
  | S k =>
      let err := gotoError o i in
      let clock := (clock + gotoTime o)%Z in
      let trace := trace ++ [Goto] in
      match err with
      | None => (None, clock, trace)
      | Some e =>
          if (Z.of_nat i <=? 3)%Z then
            let waitTime := ((Z.of_nat i + 1) * 10 * 1000)%Z in
            gotoLoop o (S i) k (Some e) (clock + waitTime)%Z
              (trace ++ [Pause waitTime; Reload])
          else gotoLoop o (S i) k (Some e) clock trace
      end
  end.

#[global] Instance NavEvent_eq_dec : EqDecision NavEvent.
Proof. solve_decision. Defined.

(** The number of navigations in a trace. *)
Definition gotos (trace : list NavEvent) : nat :=
  length (filter (fun e => e = Goto) trace).

Definition GeneratePage (o : Opening) (isLogin : bool) (clock : Z)
  : (option PageRef * string * option string) * Z * list NavEvent :=
  match newPage o with
  | Err e => ((None, "", Some ("创建页面失败: " +:+ e)), clock, [])
  | Ok page =>
      let '(err, clock, trace) := gotoLoop o 0 3 None clock [] in
      match err with
      | Some e => ((None, "", Some ("页面创建失败: " +:+ e)), clock, trace)
      | None =>
          if isLogin then
            match waitUserLogin (navigation o) clock with
            | (Some e, clock) => ((None, "", Some ("登录失败: " +:+ e)), clock, trace)
            | (None, clock) => ((Some page, "", None), clock, trace)
            end
          else
            let clock := (clock + 5000)%Z in
            let trace := trace ++ [Pause 5000] in
            match waitForPageReady (navigation o) clock with
            | (Some e, clock) => ((None, "", Some ("页面加载失败: " +:+ e)), clock, trace)
            | (None, clock) =>
                if negb (isLoggedIn (stateAt (navigation o) clock))
                then ((Some page, "", Some "登录信息失效: <nil>"), clock, trace)
                else ((Some page, getCurrentChannelName (stateAt (navigation o) clock),
                       None), clock, trace)
            end
      end
  end.

End Session.

(** ** Uploading the file and filling the form (part_002, lines 322-401,
    705-812 and 905-940) *)

Module Form.
Import GoStrings Task Uploader.

(** The page during the upload: what it shows over time, and the error
    of [SetInputFiles] on the input a selector finds. *)
Record UploadPage : Type := mkUploadPage {
  timeline : Timeline;
  setInputFiles : string -> string -> option string
}.

Definition fileInputSelectors : list string :=
  ["input[type='file']"; "input[accept*='video']"; "input[accept*='mp4']";
   "input[name='file']"; ".ant-upload input"; "input.ant-upload";
   "[class*='upload'] input[type='file']"; "input[type='file'][accept*='video']"].

(** The loop of lines 772-779: the first selector that finds an input,
    the empty string when none does. *)
Fixpoint findFileInput (page : PageView) (selectors : list string) : string :=
  match selectors with
  | [] => ""
  | selector :: rest =>
      if (0 <? count page selector)%Z then selector else findFileInput page rest
  end.

Definition checkVideoUploadStatus (w : Timeline) (clock : Z) : option string * Z :=
  match waitForDeleteButton w clock with
  | (None, clock) => (None, clock)
  | (Some err, clock) => (Some err, clock)
  end.

Definition uploadVideoBySelector (page : UploadPage) (videoPath : string) (clock : Z)
  : option string * Z :=
  let clock := (clock + 5000)%Z in
  let foundSelector := findFileInput (pageAt (timeline page) clock) fileInputSelectors in
  if String.eqb foundSelector "" then (Some "未找到任何文件输入框", clock) else
  match setInputFiles page foundSelector videoPath with
  | Some e => (Some ("设置文件失败: " +:+ e), clock)
  | None => checkVideoUploadStatus (timeline page) clock
  end.

(** The loop of [uploadVideo] at iteration [i], [remaining] to go. *)
Fixpoint uploadAttempts (page : UploadPage) (videoPath : string) (maxRetries i : Z)
    (remaining : nat) (clock : Z) : option string * Z :=
  match remaining with
  | O => (Some "所有上传方法都失败", clock)
  | S k =>
      match uploadVideoBySelector page videoPath clock with
      | (None, clock) => (None, clock)
      | (Some err, clock) =>
          if (maxRetries - 1 <=? i)%Z then (Some err, clock)
          else
            let clock := if (i <? maxRetries - 1)%Z then (clock + 5000)%Z else clock in
            uploadAttempts page videoPath maxRetries (i + 1) k clock
      end
  end.

Definition uploadVideo (page : UploadPage) (videoPath : string) (clock : Z)
  : option string * Z :=
  let maxRetries := 1%Z in
  uploadAttempts page videoPath maxRetries 0 (Z.to_nat maxRetries) clock.

(** What the form is asked to do, one entry per call the two functions
    below make. *)
Inductive FormStep : Type :=
| ClickDescription
| FillDescription (text : string)
| SelectLocation (location : string)
| HandleCollection (collection : string)
| SelectLink (linkType : string)
| SelectActivity (activity : string)
| SetScheduledPublish (scheduleTime : string)
| FillShortTitle (title : string)
| CancelScheduledPublish
| Pause (ms : Z)
| WaitAndClickButton (selector actionName : string)
| WaitForActionCompletion (action actionName : string).

(** The form page: the error each call answers with. *)
Definition FormPage : Type := FormStep -> option string.

(** Lines 932-939, once the button is chosen. *)
Definition clickAndWait (page : FormPage) (action buttonSelector actionName : string)
    (trace : list FormStep) : option string * list FormStep :=
  let trace := trace ++ [WaitAndClickButton buttonSelector actionName] in
  match page (WaitAndClickButton buttonSelector actionName) with
  | None =>
      (page (WaitForActionCompletion action actionName),
       trace ++ [WaitForActionCompletion action actionName])
  | Some _ =>
      (page (WaitForActionCompletion action actionName),
       trace ++ [WaitForActionCompletion action actionName])
  end.

Definition performFinalAction (page : FormPage) (action : string) (isScheduled : bool)
  : option string * list FormStep :=
  if String.eqb action "save_draft" then
    if isScheduled then
      match page CancelScheduledPublish with
      | Some e => (Some ("取消定时发表失败: " +:+ e), [CancelScheduledPublish])
      | None =>
          clickAndWait page action ".form-btns button:has-text('保存草稿')" "保存草稿"
            [CancelScheduledPublish; Pause 2000]
      end
    else clickAndWait page action ".form-btns button:has-text('保存草稿')" "保存草稿" []
  else if String.eqb action "preview" then
    clickAndWait page action ".form-btns button:has-text('手机预览')" "手机预览" []
  else if String.eqb action "publish" then
    clickAndWait page action ".form-btns button:has-text('发表')" "发表" []
  else (Some ("不支持的操作类型: " +:+ action), []).

(** [if field != "" { if err := step(field); err != nil { log } }] *)
Definition bestEffort (page : FormPage) (field : string) (step : string -> FormStep)
    (trace : list FormStep) : list FormStep :=
  if String.eqb field "" then trace
  else
    match page (step field) with
    | Some _ => trace ++ [step field]
    | None => trace ++ [step field]
    end.

Definition completeVideoUploadForm (page : FormPage) (options : VideoUploadOptions)
  : option string * list FormStep :=
  let describe : option string * list FormStep :=
    if String.eqb (optDescription options) "" then (None, [])
    else
      match page ClickDescription with
      | Some e => (Some ("点击描述输入框失败: " +:+ e), [ClickDescription])
      | None =>
          match page (FillDescription (optDescription options)) with
          | Some e =>
              (Some ("填写描述失败: " +:+ e),
               [ClickDescription; Pause 500; FillDescription (optDescription options)])
          | None =>
              (None,
               [ClickDescription; Pause 500; FillDescription (optDescription options)])
          end
      end in
  match describe with
  | (Some e, trace) => (Some e, trace)
  | (None, trace) =>
      let trace := bestEffort page (optLocation options) SelectLocation trace in
      let trace := bestEffort page (optCollection options) HandleCollection trace in
      let trace := bestEffort page (optLink options) SelectLink trace in
      let trace := bestEffort page (optActivity options) SelectActivity trace in
      let scheduled : option string * list FormStep :=
        if optSchedule options then
          match page (SetScheduledPublish (optScheduleTime options)) with
          | Some e =>
              (Some ("设置定时发表失败: " +:+ e),
               trace ++ [SetScheduledPublish (optScheduleTime options)])
          | None => (None, trace ++ [SetScheduledPublish (optScheduleTime options)])
          end
        else (None, trace) in
      match scheduled with
      | (Some e, trace) => (Some e, trace)
      | (None, trace) =>
          let titled : option string * list FormStep :=
            if String.eqb (optShortTitle options) "" then (None, trace)
            else
              match page (FillShortTitle (optShortTitle options)) with
              | Some e =>
                  (Some ("填写短标题失败: " +:+ e),
                   trace ++ [FillShortTitle (optShortTitle options)])
              | None => (None, trace ++ [FillShortTitle (optShortTitle options)])
              end in
          match titled with
          | (Some e, trace) => (Some e, trace)
          | (None, trace) =>
              if String.eqb (optAction options) "" then (None, trace)
              else
                match performFinalAction page (optAction options) (optSchedule options) with
                | (Some e, steps) => (Some ("执行最终操作失败: " +:+ e), trace ++ steps)
                | (None, steps) => (None, trace ++ steps)
                end
          end
      end
  end.

(** The steps whose failure the two functions only log. *)
Definition tolerated (step : FormStep) : Prop :=
  match step with
  | SelectLocation _ | HandleCollection _ | SelectLink _ | SelectActivity _
  | WaitAndClickButton _ _ => True
  | _ => False
  end.

(** A click on one of the final buttons. *)
Definition isSubmit (step : FormStep) : Prop :=
  match step with
  | WaitAndClickButton _ _ => True
  | _ => False
  end.

End Form.

(** ** The pipeline of a job on the pages of a site *)

Module Pipeline.
Import GoStrings Task Uploader Dispatch.

(** A site: how the calls of [GeneratePage] end, and the upload page
    and the form page behind a page pointer. *)
Record Site : Type := mkSite {
  exits : nat -> GeneratePageExit;
  uploadPageOf : PageRef -> Form.UploadPage;
  formPageOf : PageRef -> Form.FormPage
}.

(** The browser of the dispatcher, with the two phases of [createVideo]
    run on the pages of the site. *)
Definition browserOf (site : Site) : Browser :=
  mkBrowser (exits site)
    (fun page videoPath => (Form.uploadVideo (uploadPageOf site page) videoPath 0).1)
    (fun page options => (Form.completeVideoUploadForm (formPageOf site page) options).1).

(** The outcome fields of a job are in one of the two final states. *)
Definition determinate (t : VideoCreateTask) : Prop :=
  (Success t = true /\ Error t = "") \/ (Success t = false /\ Error t <> "").

End Pipeline.

(** ** The log file and the pool of the concurrent dispatcher *)

Module Ledger.
Import GoStrings Task Dispatch.

(** The line [writeLogFile] writes for a job (lines 209-216). *)
Definition logLineOf (t : VideoCreateTask) (channelName : string) : LogLine :=
  if Success t then mkLogLine true channelName (RowIndex t) (VideoPath t) ""
  else mkLogLine false channelName (RowIndex t) (VideoPath t) (Error t).

(** The channel name a call of [GeneratePage] returns. *)
Definition channelOf (env : Browser) (call : nat) : string :=
  (GeneratePage env call).1.2.

(** The pool after a list of events, when each of them can happen and
    none of them panics. *)
Fixpoint poolAfter (env : Browser) (limit : Z) (events : list Event) (s : Pool)
  : option Pool :=
  match events with
  | [] => Some s
  | e :: rest =>
      match step env limit s e with
      | Some (Returns s') => poolAfter env limit rest s'
      | Some (Panics _) => None
      | None => None
      end
  end.




End Ledger.

(** ** The final report, line by line *)

Module Report.
Import GoStrings Task Validate.

(** The line of one result (lines 245-253); [base] is [filepath.Base]. *)
Definition reportLineOf (base : string -> string) (result : VideoCreateTask)
  : ReportLine :=
  if Success result
  then RowSucceeded (RowIndex result) (base (VideoPath result))
  else RowFailed (RowIndex result) (base (VideoPath result)) (Error result).

End Report.

(** ** The day step of the full date setting (part_002, 1724-1757) *)

Module DayStep.
Import GoStrings Picker.

(** Step 2 of [setFullDateTime] (lines 1738-1746): the optimized
    selection, and the standard one when it fails.  [after] is the
    table as the clicks of the first selection leave it.  The result is
    the error and the positions clicked, in order. *)
Definition selectDayWithFallback (page : DayGrid) (after : list nat -> DayGrid)
    (day : Z) : option string * list nat :=
  match selectSpecificDayOptimized page day with
  | (None, clicked) => (None, clicked)
  | (Some _, clicked) =>
      match selectSpecificDay (after clicked) day with
      | (Some e, clicked') => (Some ("选择日期失败: " +:+ e), clicked ++ clicked')
      | (None, clicked') => (None, clicked ++ clicked')
      end
  end.

End DayStep.

(** ** Concrete jobs, browsers and pages used in the statements below *)

Module Examples.
Import GoStrings Task Uploader Picker Dispatch.

(** A job as [ValidateExcelFile] hands it over: outcome fields at their
    zero values. *)
Definition job (row : Z) (video : string) : VideoCreateTask :=
  mkTask "新视频" "" "" "" "" false "" "" "publish" video row None "" false "".

(** Every page opens, every upload and every form goes through. *)
Definition healthy : Browser :=
  mkBrowser (fun call => PageReady call "视频号") (fun _ _ => None) (fun _ _ => None).

(** The login stored in the context is no longer valid. *)
Definition loggedOut : Browser :=
  mkBrowser (fun call => LoginInvalid call) (fun _ _ => None) (fun _ _ => None).

(** The upload page cannot be reached. *)
Definition offline : Browser :=
  mkBrowser (fun call => NavigationFailed "net::ERR_INTERNET_DISCONNECTED")
    (fun _ _ => None) (fun _ _ => None).

(** A page on which nothing the pollers look for is there. *)
Definition blankPage : PageView :=
  mkView (fun _ => 0%Z) (fun _ => false) (fun _ => false) (fun _ => Ok "").

(** An upload that neither completes nor fails; one look at the page
    takes 50 ms. *)
Definition stalledUpload : Timeline := mkTimeline (fun _ => blankPage) 50.

(** The page shows the upload-error element and its body can be read. *)
Definition errorPage : PageView :=
  mkView (fun _ => 1%Z) (fun selector => String.eqb selector ".upload-error")
    (fun _ => true) (fun _ => Ok "上传失败").

Definition failedUpload : Timeline := mkTimeline (fun _ => errorPage) 50.

(** The page shows an enabled delete button. *)
Definition uploadedPage : PageView :=
  mkView (fun _ => 1%Z) (fun selector => String.eqb selector "button:has-text('删除')")
    (fun _ => true) (fun _ => Ok "").

(** The delete button appears 242.39 s after the wait began, while the
    120th poll is looking for upload errors; one look takes 10 ms. *)
Definition lateDelete : Timeline :=
  mkTimeline (fun t => if (242390 <=? t)%Z then uploadedPage else blankPage) 10.

(** The page shows a success message. *)
Definition publishedPage : PageView :=
  mkView (fun _ => 1%Z) (fun selector => String.eqb selector "text=发表成功")
    (fun _ => true) (fun _ => Ok "").

(** The success message appears 305.99 s after the wait began, while
    the 300th poll is looking for failures. *)
Definition latePublish : Timeline :=
  mkTimeline (fun t => if (305990 <=? t)%Z then publishedPage else blankPage) 10.

(** The last days of September and the first of October as the panel
    of October shows them: the 30 of September and the 1 of October lie
    in the past and are disabled, the 2 and the 3 can be chosen; the
    page marks the link that was clicked as selected. *)
Definition octoberGrid : DayGrid :=
  mkGrid None None
    [mkCell (Ok "30") "weui-desktop-picker__faded weui-desktop-picker__disabled" None;
     mkCell (Ok "1") "weui-desktop-picker__disabled" None;
     mkCell (Ok "2") "" None;
     mkCell (Ok " 3 ") "weui-desktop-picker__current" None]
    (fun i => mkSelection (Ok 1%Z) (Ok (Itoa (Z.of_nat i))) (fun _ => "")).

(** A calendar that shows a month and moves to the next one, December
    to January, at every click. *)
Definition wheel : Calendar Z :=
  mkCalendar
    (fun m => mkMonthView [Ok "2025年"; Ok (Itoa m +:+ "月")] 1)
    (fun m => Ok (if (m =? 12)%Z then 1%Z else (m + 1)%Z)).

(** A machine on which every time parses to one instant in the window
    and every file is there. *)
Definition localHost : Host :=
  mkHost (fun _ => Some 1000%Z) 0%Z (fun _ => None).

End Examples.

(** ** More concrete rows, workbooks and pages *)

Module MoreExamples.
Import GoStrings Task Uploader Picker Dispatch Validate Examples.

(** A row that asks for an immediate publication of a video. *)
Definition publishRow : list string :=
  ["新视频"; ""; ""; ""; ""; ""; ""; "短标题"; "发表"; "a.mp4"].

(** A row that asks for a scheduled publication. *)
Definition scheduledRow : list string :=
  ["新视频"; ""; ""; ""; ""; "定时"; "2025/11/1 10:00"; ""; "发表"; "b.mp4"].

Definition headerRow : list string :=
  ["视频描述"; "位置"; "添加到合集"; "链接"; "活动"; "定时发表"; "定时时间";
   "短标题"; " 保存方式"; "视频位置 "].

Definition workbook : list (list string) := [headerRow; publishRow; scheduledRow].

(** The header of a sheet whose column of the save mode was renamed. *)
Definition renamedHeaderRow : list string :=
  ["视频描述"; "位置"; "添加到合集"; "链接"; "活动"; "定时发表"; "定时时间";
   "短标题"; "保存"; "视频位置"].

(** The login page, which the user leaves for the platform 90 s after
    the wait began; a look at the page takes 20 ms. *)
Definition loginPage : Session.PageState :=
  Session.mkPageState "https://channels.weixin.qq.com/login.html" blankPage (fun _ => None).

Definition platformPage : Session.PageState :=
  Session.mkPageState "https://channels.weixin.qq.com/platform/post/create"
    (mkView (fun _ => 1%Z) (fun selector => String.eqb selector "text=发表")
       (fun _ => true) (fun _ => Ok "发表"))
    (fun selector =>
       if String.eqb selector ".account-info .name" then Some (Ok " 我的视频号 ") else None).

Definition scanning : Session.Navigation :=
  Session.mkNavigation (fun t => if (90000 <=? t)%Z then platformPage else loginPage) 20.

(** Nobody scans the code. *)
Definition idle : Session.Navigation := Session.mkNavigation (fun _ => loginPage) 20.

(** The site cannot be reached: every navigation fails. *)
Definition unreachable : Session.Opening :=
  Session.mkOpening (Ok 7%nat)
    (fun i => Some ("net::ERR_TIMED_OUT " +:+ Itoa (Z.of_nat i))) 60000 idle.

(** The site opens at once on the upload page. *)
Definition reachable : Session.Opening :=
  Session.mkOpening (Ok 7%nat) (fun _ => None) 800
    (Session.mkNavigation (fun _ => platformPage) 20).

(** A form on which the optional fields and the click on the final
    button fail and everything else goes through. *)
Definition stubbornForm : Form.FormPage :=
  fun step =>
    match step with
    | Form.SelectLocation _ | Form.HandleCollection _ | Form.SelectLink _
    | Form.SelectActivity _ | Form.WaitAndClickButton _ _ => Some "Timeout 30000ms exceeded"
    | _ => None
    end.

(** A form on which every call goes through. *)
Definition smoothForm : Form.FormPage := fun _ => None.

(** A form on which the switch to a scheduled publication fails. *)
Definition noScheduleForm : Form.FormPage :=
  fun step =>
    match step with
    | Form.SetScheduledPublish _ => Some "未找到定时发表按钮"
    | _ => None
    end.

Definition fullOptions : VideoUploadOptions :=
  mkOptions "新视频" "北京" "创建新合集" "小程序" "不参与活动" true "2025/11/1 10:00"
    "短标题" "publish".

(** A site whose pages show the delete button from the start and whose
    forms go through. *)
Definition easySite : Pipeline.Site :=
  Pipeline.mkSite (fun call => PageReady call "视频号")
    (fun _ => Form.mkUploadPage (mkTimeline (fun _ => uploadedPage) 50) (fun _ _ => None))
    (fun _ => smoothForm).

(** An upload that is complete when the wait begins; one look at the
    page takes 50 ms. *)
Definition finishedUpload : Timeline := mkTimeline (fun _ => uploadedPage) 50.

(** An upload that completes 10 s after the wait began; one look takes
    10 ms. *)
Definition slowUpload : Timeline :=
  mkTimeline (fun t => if (10000 <=? t)%Z then uploadedPage else blankPage) 10.



End MoreExamples.

(** * Properties *)

(** ** The dispatcher *)

Module DispatchFacts.
Import GoStrings Task Dispatch Examples.

Lemma maxConcurrency_tiers (n : Z) :
  ((n <= 50)%Z -> maxConcurrency n = 3%Z) /\
  ((50 < n < 100)%Z -> maxConcurrency n = 5%Z) /\
  ((100 < n)%Z -> maxConcurrency n = 10%Z).
Proof.
  unfold maxConcurrency.
  repeat split; intros H;
    destruct (Z.ltb_spec 50 n), (Z.ltb_spec n 100), (Z.ltb_spec 100 n);
    simpl; lia.
Qed.

Lemma maxConcurrency_positive (n : Z) : (1 <= maxConcurrency n)%Z.
Proof.
  unfold maxConcurrency.
  destruct (Z.ltb_spec 50 n), (Z.ltb_spec n 100), (Z.ltb_spec 100 n); simpl; lia.
Qed.

(** C1. The pool for a list of exactly 100 jobs has 3 workers, not the 5
    of the tier "51 to 100": the test for that tier is [50 < n < 100]. *)
Theorem maxConcurrency_hundred_jobs :
  maxConcurrency (Z.of_nat (length (replicate 100 (job 2 "a.mp4")))) = 3%Z.
Proof. reflexivity. Qed.

Lemma index_get_Some {A} (s : list A) (i : nat) (x : A) :
  s !! i = Some x -> index_get s i = Returns x.
Proof. unfold index_get. intros ->. reflexivity. Qed.

Lemma index_get_None {A} (s : list A) (i : nat) :
  s !! i = None ->
  index_get s i = Panics (IndexOutOfRange (Z.of_nat i) (Z.of_nat (length s))).
Proof. unfold index_get. intros ->. reflexivity. Qed.

Lemma index_set_lt {A} (s : list A) (i : nat) (x : A) :
  (i < length s)%nat -> index_set s i x = Returns (<[i:=x]> s).
Proof. unfold index_set. intros H. destruct (decide _); [reflexivity | lia]. Qed.

Lemma index_set_ge {A} (s : list A) (i : nat) (x : A) :
  (length s <= i)%nat ->
  index_set s i x = Panics (IndexOutOfRange (Z.of_nat i) (Z.of_nat (length s))).
Proof. unfold index_set. intros H. destruct (decide _); [lia | reflexivity]. Qed.

Lemma createVideo_RowIndex env p t : RowIndex (createVideo env p t) = RowIndex t.
Proof.
  unfold createVideo.
  destruct (uploadVideo env p _); [reflexivity |].
  destruct (completeVideoUploadForm env p _); reflexivity.
Qed.

(** Once the page is there, the loop replaces every job from position
    [k] on by its outcome and leaves the slice as long as it was. *)
Lemma sequentialLoop_spec env p channelName (n : nat) :
  forall (k : nat) (tasks : list VideoCreateTask) (log : list LogLine),
    (k + n)%nat = length tasks ->
    exists log',
      sequentialLoop env p channelName (seq k n) tasks log =
      Returns (take k tasks ++ (createVideo env p <$> drop k tasks), log').
Proof.
  induction n as [| n IH]; intros k tasks log Hlen; simpl.
  - exists log. rewrite take_ge, drop_ge by lia. simpl. by rewrite app_nil_r.
  - destruct (lookup_lt_is_Some_2 tasks k) as [t Ht]; [lia |].
    rewrite (index_get_Some _ _ _ Ht). simpl.
    rewrite index_set_lt by lia. simpl.
    rewrite (index_get_Some _ _ (createVideo env p t))
      by (apply list_lookup_insert_eq; lia).
    simpl.
    destruct (IH (S k) (<[k:=createVideo env p t]> tasks)
                (writeLogFile log (createVideo env p t) channelName))
      as [log' Hrun].
    { rewrite length_insert. lia. }
    exists log'. rewrite Hrun. f_equal. f_equal.
    rewrite (take_S_r _ _ (createVideo env p t))
      by (apply list_lookup_insert_eq; lia).
    rewrite take_insert_ge by lia.
    rewrite drop_insert_lt by lia.
    rewrite (drop_S _ _ _ Ht). simpl.
    by rewrite <- app_assoc.
Qed.

(** Sequential mode with a page: the result is the list of outcomes, in
    the order of the jobs. *)
Lemma sequential_with_page env tasks log p channelName :
  GeneratePage env 0 = (Some p, channelName, None) ->
  exists log',
    processTaskSequential env tasks log =
    Returns (createVideo env p <$> tasks, log').
Proof.
  intros Hpage. unfold processTaskSequential. rewrite Hpage.
  destruct (sequentialLoop_spec env p channelName (length tasks) 0 tasks log)
    as [log' Hrun]; [lia |].
  exists log'. rewrite Hrun. reflexivity.
Qed.

(** Sequential mode without a page: only index 1 is touched. *)
Lemma sequential_page_error env tasks log page channelName e :
  GeneratePage env 0 = (page, channelName, Some e) ->
  processTaskSequential env tasks log =
  match tasks !! 1%nat with
  | Some t =>
      Returns (<[1%nat := set_Error (set_Success t false) e]> tasks,
               writeLogFile log (set_Error (set_Success t false) e) channelName)
  | None => Panics (IndexOutOfRange 1 (Z.of_nat (length tasks)))
  end.
Proof.
  intros Hpage. unfold processTaskSequential. rewrite Hpage.
  destruct tasks as [| a [| b l]]; reflexivity.
Qed.

(** C2. Two jobs, sequential mode, the stored login is rejected when the
    page is opened: the error is written to the job at index 1, the
    second one, and the first job keeps the outcome it came with. *)
Theorem sequential_page_error_lands_on_index_one :
  processTaskSequential loggedOut [job 2 "a.mp4"; job 3 "b.mp4"] [] =
  Returns ([job 2 "a.mp4"; set_Error (job 3 "b.mp4") "登录信息失效: <nil>"],
           [mkLogLine false "" 3 "b.mp4" "登录信息失效: <nil>"]).
Proof. reflexivity. Qed.

(** C3. In the same run the first job ends with success false and an
    empty error text. *)
Theorem sequential_page_error_leaves_job_undetermined :
  exists res log,
    processTaskSequential loggedOut [job 2 "a.mp4"; job 3 "b.mp4"] [] =
    Returns (res, log) /\
    Success <$> res !! 0%nat = Some false /\
    Error <$> res !! 0%nat = Some "".
Proof. eexists _, _. split; [reflexivity |]. split; reflexivity. Qed.

(** C9. A single job, sequential mode, no page: the branch reads
    [videoCreateTasks[1]] of a slice of length 1. *)
Theorem sequential_page_error_single_job :
  processTaskSequential loggedOut [job 2 "a.mp4"] [] =
  Panics (IndexOutOfRange 1 1).
Proof. reflexivity. Qed.

(** *** Concurrent mode: every run that completes gives the same slice *)

Lemma worker_shared env (l1 l2 : list VideoCreateTask) c i t :
  l1 !! i = Some t -> l2 !! i = Some t -> worker env l1 c i = worker env l2 c i.
Proof.
  intros H1 H2. unfold worker.
  destruct (GeneratePage env i) as [[[p |] channelName] [e |]]; try reflexivity.
  by rewrite (index_get_Some _ _ _ H1), (index_get_Some _ _ _ H2).
Qed.

Lemma worker_RowIndex env (l : list VideoCreateTask) c i rc :
  l !! i = Some c -> worker env l c i = Returns rc -> RowIndex rc.1 = RowIndex c.
Proof.
  intros Hl. unfold worker.
  destruct (GeneratePage env i) as [[[p |] channelName] [e |]]; try discriminate.
  - intros [= <-]. reflexivity.
  - rewrite (index_get_Some _ _ _ Hl). simpl. intros [= <-]. simpl.
    apply createVideo_RowIndex.
Qed.

Section PoolInvariant.
Context (env : Browser) (tasks : list VideoCreateTask).

Lemma poolInv_initial log : poolInv env tasks (mkPool tasks 0 ∅ ∅ log).
Proof.
  split; simpl; try done.
  - intros i Hi. lia.
Qed.

Lemma poolInv_step limit s e s' :
  poolInv env tasks s -> step env limit s e = Some (Returns s') ->
  poolInv env tasks s'.
Proof.
  intros [Hlen Hfresh Hwait Hcomp Hstored] Hstep.
  destruct e as [| i | i]; simpl in Hstep.
  - (* Launch *)
    destruct (decide _) as [Hlt |]; [| done].
    destruct (decide _); [| done].
    destruct (lookup_lt_is_Some_2 (shared s) (launched s) Hlt) as [t Ht].
    rewrite (index_get_Some _ _ _ Ht) in Hstep. simpl in Hstep.
    injection Hstep as <-.
    destruct (Hfresh (launched s)) as (Hw & Hc & Hs); [lia |].
    split; simpl; [done | | | |].
    + intros j Hj. destruct (Hfresh j) as (? & ? & ?); [lia |].
      rewrite lookup_insert_ne by lia. done.
    + intros j t' Hj. destruct (decide (j = launched s)) as [-> | Hne].
      * rewrite lookup_insert_eq in Hj. injection Hj as <-.
        rewrite <- Hs. done.
      * rewrite lookup_insert_ne in Hj by done. by apply Hwait.
    + intros j rc Hj. destruct (Hcomp j rc Hj) as (? & ? & ?).
      rewrite lookup_insert_ne by congruence. done.
    + intros j Hj Hwj Hcj. destruct (decide (j = launched s)) as [-> | Hne].
      * by rewrite lookup_insert_eq in Hwj.
      * rewrite lookup_insert_ne in Hwj by done. apply Hstored; [lia | done..].
  - (* Work i *)
    destruct (waiting s !! i) as [t |] eqn:Hwi; [| done].
    destruct (Hwait i t Hwi) as (Hci & Hti & Hsi).
    rewrite (worker_shared env (shared s) tasks t i t Hsi Hti) in Hstep.
    destruct (worker env tasks t i) as [rc |] eqn:Hrc; [| done].
    simpl in Hstep. injection Hstep as <-.
    split; simpl; [done | | | |].
    + intros j Hj. destruct (Hfresh j Hj) as (? & ? & ?).
      assert (j <> i) by congruence.
      rewrite lookup_delete_ne, lookup_insert_ne by done. done.
    + intros j t' Hj. destruct (decide (j = i)) as [-> | Hne].
      * by rewrite lookup_delete_eq in Hj.
      * rewrite lookup_delete_ne in Hj by done.
        rewrite lookup_insert_ne by done. by apply Hwait.
    + intros j rc' Hj. destruct (decide (j = i)) as [-> | Hne].
      * rewrite lookup_insert_eq in Hj. injection Hj as <-.
        rewrite lookup_delete_eq. split; [done |]. split; [congruence |].
        by exists t.
      * rewrite lookup_insert_ne in Hj by done.
        rewrite lookup_delete_ne by done. by apply Hcomp.
    + intros j Hj Hwj Hcj. destruct (decide (j = i)) as [-> | Hne].
      * by rewrite lookup_insert_eq in Hcj.
      * rewrite lookup_delete_ne in Hwj by done.
        rewrite lookup_insert_ne in Hcj by done. by apply Hstored.
  - (* Finish i *)
    destruct (computed s !! i) as [[r channelName] |] eqn:Hci; [| done].
    destruct (Hcomp i _ Hci) as (Hwi & Hsi & Hout).
    unfold index_set in Hstep. destruct (decide _) as [Hlt |]; [| done].
    simpl in Hstep. injection Hstep as <-.
    split; simpl.
    + by rewrite length_insert.
    + intros j Hj. destruct (Hfresh j Hj) as (? & ? & ?).
      assert (j <> i) by congruence.
      rewrite lookup_delete_ne, list_lookup_insert_ne by done. done.
    + intros j t' Hj. destruct (Hwait j t' Hj) as (? & ? & ?).
      assert (j <> i) by congruence.
      rewrite lookup_delete_ne, list_lookup_insert_ne by done. done.
    + intros j rc' Hj. destruct (decide (j = i)) as [-> | Hne].
      * by rewrite lookup_delete_eq in Hj.
      * rewrite lookup_delete_ne in Hj by done.
        rewrite list_lookup_insert_ne by done. by apply Hcomp.
    + intros j Hj Hwj Hcj. destruct (decide (j = i)) as [-> | Hne].
      * exists (r, channelName). split; [done |].
        by apply list_lookup_insert_eq.
      * rewrite lookup_delete_ne in Hcj by done.
        rewrite list_lookup_insert_ne by done. by apply Hstored.
Qed.

Lemma poolInv_completed limit events s res log :
  poolInv env tasks s -> schedule env limit events s = Completed res log ->
  length res = length tasks /\
  forall i t, tasks !! i = Some t ->
    exists rc, worker env tasks t i = Returns rc /\ res !! i = Some rc.1.
Proof.
  revert s. induction events as [| e events IH]; intros s Hinv; simpl.
  - destruct (allDone s) eqn:Hdone; [| done]. intros [= <- <-].
    apply andb_prop in Hdone as [Hl Hf].
    apply bool_decide_eq_true in Hl, Hf. unfold inFlight in Hf.
    assert (waiting s = ∅) as Hw by (apply map_size_empty_inv; lia).
    assert (computed s = ∅) as Hc by (apply map_size_empty_inv; lia).
    destruct Hinv as [Hlen _ _ _ Hstored]. split; [done |].
    intros i t Ht.
    destruct (Hstored i) as (rc & (t' & Ht' & Hrc) & Hs).
    { rewrite Hl, Hlen. by apply lookup_lt_Some in Ht. }
    { by rewrite Hw. }
    { by rewrite Hc. }
    exists rc. split; [congruence | done].
  - destruct (step env limit s e) as [[s' | p] |] eqn:Hstep; try done.
    apply IH. by eapply poolInv_step.
Qed.

End PoolInvariant.

(** Concurrent mode, any interleaving: a run that completes returns, at
    every index, what the goroutine of that index computes from the job
    at that index, and the job's row index with it. *)
Lemma concurrent_order_preserved env events tasks log res log' :
  processTaskConcurrent env events tasks log = Completed res log' ->
  length res = length tasks /\
  forall i t, tasks !! i = Some t ->
    exists r channelName,
      worker env tasks t i = Returns (r, channelName) /\
      res !! i = Some r /\ RowIndex r = RowIndex t.
Proof.
  intros Hrun.
  destruct (poolInv_completed env tasks _ _ _ _ _ (poolInv_initial env tasks log) Hrun)
    as [Hlen Hall].
  split; [done |]. intros i t Ht.
  destruct (Hall i t Ht) as ([r channelName] & Hw & Hr).
  exists r, channelName. split; [done |]. split; [done |].
  by apply (worker_RowIndex env tasks t i (r, channelName)).
Qed.

(** The in-order run completes as soon as every goroutine gets a page
    pointer from [GeneratePage]. *)
Lemma inOrder_from env limit (n : nat) :
  forall (k : nat) (sh : list VideoCreateTask) (log : list LogLine),
    (1 <= limit)%Z ->
    (k + n)%nat = length sh ->
    (forall i, (GeneratePage env i).1.1 <> None) ->
    exists res log',
      schedule env limit (flat_map (fun i => [Launch; Work i; Finish i]) (seq k n))
        (mkPool sh k ∅ ∅ log) = Completed res log'.
Proof.
  induction n as [| n IH]; intros k sh log Hlimit Hlen Hpage.
  - simpl. unfold allDone, inFlight. simpl.
    rewrite !bool_decide_eq_true_2; [by eauto | | lia].
    by rewrite !map_size_empty.
  - destruct (lookup_lt_is_Some_2 sh k) as [t Ht]; [lia |].
    cbn [seq flat_map app schedule step launched shared waiting computed logFile].
    rewrite decide_True by lia.
    rewrite decide_True by (unfold inFlight; simpl; rewrite !map_size_empty; lia).
    rewrite (index_get_Some _ _ _ Ht).
    cbn [mbind run_bind schedule step launched shared waiting computed logFile].
    rewrite lookup_insert_eq.
    assert (exists rc, worker env sh t k = Returns rc) as [[r channelName] Hrc].
    { unfold worker. specialize (Hpage k).
      destruct (GeneratePage env k) as [[[p |] c] [e |]]; simpl in Hpage;
        try done; [by eauto |].
      rewrite (index_get_Some _ _ _ Ht). by eauto. }
    rewrite Hrc.
    cbn [mbind run_bind schedule step launched shared waiting computed logFile].
    rewrite lookup_insert_eq. rewrite index_set_lt by lia.
    cbn [mbind run_bind].
    rewrite !delete_insert_eq, !delete_empty.
    apply IH; [done | rewrite length_insert; lia | done].
Qed.

Lemma inOrder_completes env tasks log :
  (forall i, (GeneratePage env i).1.1 <> None) ->
  exists res log',
    processTaskConcurrent env (inOrder (length tasks)) tasks log = Completed res log'.
Proof.
  intros Hpage. unfold processTaskConcurrent, inOrder.
  apply inOrder_from; [apply maxConcurrency_positive | lia | done].
Qed.

(** A goroutine that gets no page pointer brings the process down: no
    run of a non-empty job list completes when [GeneratePage] returns
    nil pages only. *)
Lemma schedule_without_pages env limit events :
  (forall i, (GeneratePage env i).1.1 = None) ->
  forall s, computed s = ∅ ->
    (forall i, (i < launched s)%nat -> is_Some (waiting s !! i)) ->
    shared s <> [] ->
    forall res log, schedule env limit events s <> Completed res log.
Proof.
  intros Hpage. induction events as [| e events IH]; intros s Hc Hw Hne res log.
  - simpl. unfold allDone, inFlight.
    destruct (bool_decide (launched s = length (shared s))) eqn:Hl; [| done].
    apply bool_decide_eq_true in Hl.
    destruct (bool_decide (size (waiting s) + size (computed s) = 0)%nat) eqn:Hf;
      [| done].
    apply bool_decide_eq_true in Hf. exfalso.
    assert (waiting s = ∅) as Hempty by (apply map_size_empty_inv; lia).
    destruct (Hw 0%nat) as [t Ht].
    { rewrite Hl. destruct (shared s); [done | simpl; lia]. }
    by rewrite Hempty in Ht.
  - simpl. destruct e as [| i | i]; simpl.
    + destruct (decide _) as [Hlt |]; [| done].
      destruct (decide _); [| done].
      destruct (lookup_lt_is_Some_2 _ _ Hlt) as [t Ht].
      rewrite (index_get_Some _ _ _ Ht). simpl.
      apply IH; simpl; [done | | done].
      intros i Hi. destruct (decide (i = launched s)) as [-> | Hne'].
      * rewrite lookup_insert_eq. by eauto.
      * rewrite lookup_insert_ne by done. apply Hw. lia.
    + destruct (waiting s !! i) as [t |]; [| done].
      unfold worker. specialize (Hpage i).
      destruct (GeneratePage env i) as [[[p |] c] [e |]]; simpl in Hpage; done.
    + rewrite Hc, lookup_empty. done.
Qed.

(** C4. Concurrent mode, one job, the upload page cannot be reached:
    [GeneratePage] returns a nil page, the goroutine dereferences it for
    the deferred [Close] of line 137, and no interleaving returns a
    result list. *)
Theorem concurrent_dispatch_without_page :
  processTaskConcurrent offline (inOrder 1) [job 2 "a.mp4"] [] =
    Crashed NilPointerDereference /\
  forall events res log,
    processTaskConcurrent offline events [job 2 "a.mp4"] [] <> Completed res log.
Proof.
  split; [reflexivity |].
  intros events res log. unfold processTaskConcurrent.
  apply schedule_without_pages; simpl; [done | done | intros i Hi; lia | done].
Qed.

End DispatchFacts.

(** ** Validation of a spreadsheet row *)

Module TaskFacts.
Import GoStrings Task Examples.

(** A row of six cells whose sixth cell asks for a scheduled
    publication: the test of the seventh cell reads [row[6]]. *)
Lemma parseTaskFromRow_scheduled_six_cells host a b c d e :
  parseTaskFromRow host [a; b; c; d; e; "定时"] = Abort (IndexOutOfRange 6 6).
Proof. reflexivity. Qed.

(** C10. A row of five cells or fewer never reaches a verdict: the test
    [row[5] == ...] of line 144 is outside every length check and reads
    past the end of the row. *)
Theorem parseTaskFromRow_short_row_panics host (row : list string) :
  (length row <= 5)%nat ->
  parseTaskFromRow host row = Abort (IndexOutOfRange 5 (Z.of_nat (length row))).
Proof.
  intros Hlen.
  destruct row as [| c0 [| c1 [| c2 [| c3 [| c4 [| c5 row]]]]]];
    simpl in Hlen; try lia; reflexivity.
Qed.

Lemma parseTaskFromRow_short_row_panics_witness :
  (length ["新视频"] <= 5)%nat /\
  parseTaskFromRow localHost ["新视频"] = Abort (IndexOutOfRange 5 1).
Proof.
  split; [simpl; lia |].
  apply (parseTaskFromRow_short_row_panics localHost ["新视频"]). simpl; lia.
Defined.

End TaskFacts.

(** ** Waiting for the upload and for the final action *)

Module UploaderFacts.
Import GoStrings Uploader Examples.

(** The poll that finds the delete button ends the wait with success,
    whatever else the page shows. *)
Lemma deleteButtonLoop_found w startTime k clock :
  hasDeleteButton (pageAt w (clock + 2000)) = true ->
  deleteButtonLoop w startTime (S k) clock = (Some None, (clock + 2000 + latency w)%Z).
Proof. intros H. simpl. rewrite H. reflexivity. Qed.

(** The poll for which [hasUploadError] answers true ends the wait with
    the upload error. *)
Lemma deleteButtonLoop_failed w startTime k clock :
  hasDeleteButton (pageAt w (clock + 2000)) = false ->
  hasUploadError (pageAt w (clock + 2000 + latency w)) = true ->
  deleteButtonLoop w startTime (S k) clock =
  (Some (Some "上传过程中出现错误"), (clock + 2000 + latency w + latency w)%Z).
Proof. intros H1 H2. simpl. rewrite H1, H2. reflexivity. Qed.

(** [hasUploadError] is true only when the text of the body cannot be
    read. *)
Lemma hasUploadError_needs_unreadable_body page text :
  textContent page "body" = Ok text -> hasUploadError page = false.
Proof.
  intros H. unfold hasUploadError. rewrite H.
  unfold errorSelectors. simpl. by rewrite !andb_false_r.
Qed.

(** A loop that runs out has slept 2 s and looked at the page twice in
    each of its iterations. *)
Lemma deleteButtonLoop_exhausted w startTime (n : nat) :
  forall clock t,
    deleteButtonLoop w startTime n clock = (None, t) ->
    t = (clock + Z.of_nat n * (2000 + 2 * latency w))%Z.
Proof.
  induction n as [| n IH]; intros clock t; simpl.
  - intros [= <-]. lia.
  - destruct (hasDeleteButton _); [done |].
    destruct (hasUploadError _); [done |].
    destruct (_ <? _)%Z; [done |].
    intros H. apply IH in H. lia.
Qed.

(** C5. An upload that shows neither marker, polled with 50 ms per look
    at the page: the wait reports its timeout after 120 polls, 252 s,
    short of the 5 minutes.  And with the upload-error element on the
    page from the start the wait does not fail at the first poll: it
    runs to the same timeout. *)
Theorem upload_wait_times_out_before_five_minutes :
  waitForDeleteButton stalledUpload 0 = (Some "等待删除按钮超时", 252000%Z) /\
  (252000 < 5 * 60000)%Z /\
  isVisible (pageAt failedUpload 2000) ".upload-error" = true /\
  waitForDeleteButton failedUpload 0 = (Some "等待删除按钮超时", 252000%Z).
Proof. repeat split; vm_compute; reflexivity. Qed.

(** The final check of [waitForActionCompletion]: when the loop runs out
    and the success marker is on the page at that moment, the wait
    succeeds. *)
Lemma action_wait_final_check w action actionName clock t :
  actionLoop w action actionName 300 clock = (None, t) ->
  isActionSuccessful (pageAt w t) action = true ->
  waitForActionCompletion w action actionName clock = (None, (t + latency w)%Z).
Proof.
  intros Hloop Hok. unfold waitForActionCompletion. rewrite Hloop, Hok.
  reflexivity.
Qed.

Lemma action_wait_final_check_example :
  actionLoop latePublish "publish" "发表" 300 0 = (None, 306000%Z) /\
  waitForActionCompletion latePublish "publish" "发表" 0 = (None, 306010%Z).
Proof. split; vm_compute; reflexivity. Qed.

(** [waitForDeleteButton] returns its timeout as soon as the loop runs
    out, whatever the page shows then. *)
Lemma upload_wait_no_final_check w clock t :
  deleteButtonLoop w clock 120 clock = (None, t) ->
  waitForDeleteButton w clock = (Some "等待删除按钮超时", t).
Proof. intros H. unfold waitForDeleteButton. rewrite H. reflexivity. Qed.

(** C6. The delete button appears after the last look for it and before
    the loop of [waitForDeleteButton] runs out: the button is on the
    page when the wait returns, and the wait returns its timeout.  The
    same timing of the success message in [waitForActionCompletion] is
    caught by its final check. *)
Theorem upload_wait_misses_late_delete_button :
  deleteButtonLoop lateDelete 0 120 0 = (None, 242400%Z) /\
  hasDeleteButton (pageAt lateDelete 242400) = true /\
  waitForDeleteButton lateDelete 0 = (Some "等待删除按钮超时", 242400%Z) /\
  waitForActionCompletion latePublish "publish" "发表" 0 = (None, 306010%Z).
Proof. repeat split; vm_compute; reflexivity. Qed.

End UploaderFacts.

(** ** The date picker *)

Module PickerFacts.
Import GoStrings Picker Examples.

(** *** Substrings and class names *)

Lemma append_cons c s t : String c s +:+ t = String c (s +:+ t).
Proof. reflexivity. Qed.

Lemma append_nil_r s : s +:+ "" = s.
Proof. induction s as [| c s IH]; [done |]. by rewrite append_cons, IH. Qed.

Lemma append_assoc s t u : (s +:+ t) +:+ u = s +:+ t +:+ u.
Proof. induction s as [| c s IH]; [done |]. by rewrite !append_cons, IH. Qed.

Lemma prefix_append p r : String.prefix p (p +:+ r) = true.
Proof.
  induction p as [| c p IH]; [by destruct r |].
  rewrite append_cons. simpl. by destruct (ascii_dec c c).
Qed.

Lemma Contains_unfold s t :
  Contains s t =
  String.prefix t s ||
  match s with
  | EmptyString => false
  | String _ rest => Contains rest t
  end.
Proof. by destruct s. Qed.

Lemma Contains_infix a t b : Contains (a +:+ t +:+ b) t = true.
Proof.
  induction a as [| c a IH].
  - rewrite Contains_unfold.
    change ("" +:+ t +:+ b) with (t +:+ b). by rewrite prefix_append.
  - rewrite append_cons, Contains_unfold, IH. apply orb_true_r.
Qed.

(** Every class name is a piece of the attribute it is taken from. *)
Lemma classNames_infix attribute :
  forall current name,
    In name (classNames attribute current) ->
    exists a b, current +:+ attribute = a +:+ name +:+ b.
Proof.
  induction attribute as [| c rest IH]; intros current name; simpl.
  - destruct (String.eqb_spec current ""); [done |].
    intros [<- | []]. exists "", "". by rewrite append_nil_r.
  - destruct (isHtmlSpace c).
    + destruct (String.eqb_spec current "") as [-> | Hne].
      * intros H. destruct (IH _ _ H) as (a & b & Heq).
        exists (String c a), b.
        change ("" +:+ String c rest) with (String c ("" +:+ rest)).
        by rewrite Heq.
      * intros [<- | H].
        -- exists "", (String c rest). done.
        -- destruct (IH _ _ H) as (a & b & Heq).
           exists (current +:+ String c a), b.
           change ("" +:+ rest) with rest in Heq. rewrite Heq.
           by rewrite append_assoc.
    + intros H. destruct (IH _ _ H) as (a & b & Heq).
      exists a, b. rewrite <- Heq. by rewrite append_assoc.
Qed.

Lemma hasClass_Contains attribute name before piece after :
  name = before +:+ piece +:+ after ->
  hasClass attribute name = true -> Contains attribute piece = true.
Proof.
  intros Hname H. unfold hasClass in H.
  apply existsb_exists in H as (x & Hin & Heq).
  apply String.eqb_eq in Heq as <-.
  destruct (classNames_infix _ _ _ Hin) as (a & b & Hattr).
  change ("" +:+ attribute) with attribute in Hattr.
  rewrite Hattr, Hname.
  replace (a +:+ (before +:+ piece +:+ after) +:+ b)
    with ((a +:+ before) +:+ piece +:+ (after +:+ b))
    by (by rewrite !append_assoc).
  apply Contains_infix.
Qed.

(** A cell marked disabled has the word the standard scan looks for in
    its class attribute. *)
Lemma markedDisabled_Contains c :
  markedDisabled c = true -> Contains (cellClass c) "disabled" = true.
Proof.
  apply (hasClass_Contains _ _ "weui-desktop-picker__" "disabled" "").
  reflexivity.
Qed.

(** *** Choosing the day *)

Lemma allDates_lookup page i c : (i, c) ∈ allDates page <-> cells page !! i = Some c.
Proof.
  unfold allDates. rewrite elem_of_lookup_imap. split.
  - intros (j & y & [= -> ->] & H). done.
  - intros H. by exists i, c.
Qed.

Lemma scanAllDates_clicks page day elements j :
  j ∈ (scanAllDates page day elements).2 ->
  exists c, (j, c) ∈ elements /\ cellDay c = Some day /\
            Contains (cellClass c) "disabled" = false.
Proof.
  induction elements as [| [i c] rest IH]; simpl; [by intros ?%elem_of_nil |].
  assert (j ∈ (scanAllDates page day rest).2 ->
          exists c0, (j, c0) ∈ (i, c) :: rest /\ cellDay c0 = Some day /\
                     Contains (cellClass c0) "disabled" = false) as Hrest.
  { intros H. destruct (IH H) as (c0 & ? & ? & ?). exists c0.
    split; [by apply list_elem_of_further | done]. }
  destruct (cellDay c) as [d |] eqn:Hd; [| done].
  destruct (Z.eqb_spec d day) as [-> | Hne]; [| done].
  destruct (Contains (cellClass c) "disabled") eqn:Hc; [done |].
  assert (j ∈ [i] -> exists c0, (j, c0) ∈ (i, c) :: rest /\ cellDay c0 = Some day /\
                                Contains (cellClass c0) "disabled" = false) as Hhere.
  { intros ->%list_elem_of_singleton. exists c. split; [apply list_elem_of_here | done]. }
  destruct (cellClick c); [done |].
  destruct (verifyDaySelection _ _); done.
Qed.

Lemma scanAllDates_none page day elements :
  (forall i c, (i, c) ∈ elements -> cellDay c = Some day ->
               Contains (cellClass c) "disabled" = true) ->
  scanAllDates page day elements = (Some ("日期 " +:+ Itoa day +:+ " 未找到"), []).
Proof.
  induction elements as [| [i c] rest IH]; intros H; simpl; [done |].
  assert (scanAllDates page day rest = (Some ("日期 " +:+ Itoa day +:+ " 未找到"), []))
    as Hrest.
  { apply IH. intros i' c' Hin. apply (H i'). by apply list_elem_of_further. }
  destruct (cellDay c) as [d |] eqn:Hd; [| done].
  destruct (Z.eqb_spec d day) as [-> | Hne]; [| done].
  rewrite (H i c); [done | apply list_elem_of_here | done].
Qed.

Lemma scanAvailableDates_clicks page day elements j :
  j ∈ (scanAvailableDates page day elements).2 ->
  exists c, (j, c) ∈ elements /\ cellDay c = Some day.
Proof.
  induction elements as [| [i c] rest IH]; simpl; [by intros ?%elem_of_nil |].
  assert (j ∈ (scanAvailableDates page day rest).2 ->
          exists c0, (j, c0) ∈ (i, c) :: rest /\ cellDay c0 = Some day) as Hrest.
  { intros H. destruct (IH H) as (c0 & ? & ?). exists c0.
    split; [by apply list_elem_of_further | done]. }
  destruct (cellDay c) as [d |] eqn:Hd; [| done].
  destruct (Z.eqb_spec d day) as [-> | Hne]; [| done].
  assert (j ∈ [i] -> exists c0, (j, c0) ∈ (i, c) :: rest /\ cellDay c0 = Some day)
    as Hhere.
  { intros ->%list_elem_of_singleton. exists c. split; [apply list_elem_of_here | done]. }
  destruct (cellClick c); [done |].
  destruct (verifyDaySelectionByNumber _ _); done.
Qed.

Lemma scanAvailableDates_none page day elements :
  (forall i c, (i, c) ∈ elements -> cellDay c <> Some day) ->
  scanAvailableDates page day elements =
  (Some ("日期 " +:+ Itoa day +:+ " 不可选择"), []).
Proof.
  induction elements as [| [i c] rest IH]; intros H; simpl; [done |].
  assert (scanAvailableDates page day rest =
          (Some ("日期 " +:+ Itoa day +:+ " 不可选择"), [])) as Hrest.
  { apply IH. intros i' c' Hin. apply (H i'). by apply list_elem_of_further. }
  destruct (cellDay c) as [d |] eqn:Hd; [| done].
  destruct (Z.eqb_spec d day) as [-> | Hne]; [| done].
  destruct (H i c); [apply list_elem_of_here | done].
Qed.

(** C7. Both day selections call [Click] only on a link of the table
    whose text parses to the target day and that is not marked disabled;
    and when every link that shows the target day is marked disabled (or
    none shows it), they click nothing and fail with an error that names
    the day. *)
Theorem day_selection_only_enabled_target (page : DayGrid) (day : Z) :
  (forall i,
     i ∈ (selectSpecificDay page day).2 \/ i ∈ (selectSpecificDayOptimized page day).2 ->
     exists c, cells page !! i = Some c /\ cellDay c = Some day /\
               markedDisabled c = false) /\
  ((forall c, c ∈ cells page -> cellDay c = Some day -> markedDisabled c = true) ->
   (countError page = None ->
    selectSpecificDay page day = (Some ("日期 " +:+ Itoa day +:+ " 未找到"), [])) /\
   (availableCountError page = None ->
    selectSpecificDayOptimized page day =
    (Some ("日期 " +:+ Itoa day +:+ " 不可选择"), []))).
Proof.
  split.
  - intros i [Hi | Hi].
    + unfold selectSpecificDay in Hi.
      destruct (countError page); [by apply elem_of_nil in Hi |].
      apply scanAllDates_clicks in Hi as (c & Hin & Hday & Hclass).
      exists c. split; [by apply allDates_lookup |]. split; [done |].
      destruct (markedDisabled c) eqn:Hm; [| done].
      apply markedDisabled_Contains in Hm. congruence.
    + unfold selectSpecificDayOptimized in Hi.
      destruct (availableCountError page); [by apply elem_of_nil in Hi |].
      apply scanAvailableDates_clicks in Hi as (c & Hin & Hday).
      unfold availableDates in Hin.
      apply list_elem_of_filter in Hin as [Hclass Hin].
      exists c. split; [by apply allDates_lookup |]. done.
  - intros Hall. split; intros Hcount.
    + unfold selectSpecificDay. rewrite Hcount.
      apply scanAllDates_none. intros i c Hin Hday.
      apply markedDisabled_Contains, Hall; [| done].
      apply allDates_lookup in Hin. by eapply list_elem_of_lookup_2.
    + unfold selectSpecificDayOptimized. rewrite Hcount.
      apply scanAvailableDates_none. intros i c Hin Hday.
      unfold availableDates in Hin.
      apply list_elem_of_filter in Hin as [Hclass Hin]. simpl in Hclass.
      apply allDates_lookup in Hin.
      assert (markedDisabled c = true) as Hm
        by (apply Hall; [by eapply list_elem_of_lookup_2 | done]).
      unfold markedDisabled in Hm. congruence.
Qed.

Lemma day_selection_only_enabled_target_witness :
  selectSpecificDay octoberGrid 1 = (Some "日期 1 未找到", []) /\
  selectSpecificDayOptimized octoberGrid 1 = (Some "日期 1 不可选择", []).
Proof.
  destruct (proj2 (day_selection_only_enabled_target octoberGrid 1)) as [Hstd Hopt].
  - intros c Hin Hday.
    apply elem_of_cons in Hin as [-> | Hin]; [vm_compute in Hday; discriminate |].
    apply elem_of_cons in Hin as [-> | Hin]; [reflexivity |].
    apply elem_of_cons in Hin as [-> | Hin]; [vm_compute in Hday; discriminate |].
    apply elem_of_cons in Hin as [-> | Hin]; [vm_compute in Hday; discriminate |].
    by apply elem_of_nil in Hin.
  - split; [apply Hstd | apply Hopt]; reflexivity.
Defined.

(** *** Moving to the month *)

Lemma wrap_small z : (minInt <= z <= maxInt)%Z -> wrap z = z.
Proof.
  unfold wrap, minInt, maxInt. intros H.
  rewrite Z.mod_small; lia.
Qed.

(** For months of the calendar the distance the code computes is the
    forward distance modulo 12. *)
Lemma forward_distance currentMonth targetMonth :
  (1 <= currentMonth <= 12)%Z -> (1 <= targetMonth <= 12)%Z ->
  (let diff := int_sub targetMonth currentMonth in
   if (diff <? 0)%Z then int_add diff 12 else diff) =
  ((targetMonth - currentMonth) mod 12)%Z.
Proof.
  intros Hc Ht. unfold int_sub, int_add. simpl.
  rewrite (wrap_small (targetMonth - currentMonth))
    by (unfold minInt, maxInt; lia).
  destruct (Z.ltb_spec (targetMonth - currentMonth) 0).
  - rewrite wrap_small by (unfold minInt, maxInt; lia).
    apply (Z.mod_unique _ _ (-1)); lia.
  - symmetry. apply Z.mod_small. lia.
Qed.

Lemma clicks_app t1 t2 : clicks (t1 ++ t2) = (clicks t1 + clicks t2)%nat.
Proof. unfold clicks. by rewrite filter_app, length_app. Qed.

Lemma clicks_rounds (n : nat) :
  clicks (mjoin (replicate n [ClickRightArrow; Sleep 1000; ReadMonth])) = n.
Proof.
  induction n as [| n IH]; [done |].
  change (clicks ([ClickRightArrow; Sleep 1000; ReadMonth]
                  ++ mjoin (replicate n [ClickRightArrow; Sleep 1000; ReadMonth]))
          = S n).
  rewrite clicks_app, IH. reflexivity.
Qed.

Lemma clicks_navigationTrace (n : nat) : clicks (navigationTrace n) = n.
Proof.
  unfold navigationTrace. rewrite !clicks_app, clicks_rounds.
  change (clicks [ReadMonth]) with 0%nat. lia.
Qed.

Section MonthFacts.
Context {W : Type} (cal : Calendar W).

(** When every click goes through, the loop clicks [n] times and reads
    the month after each click. *)
Lemma clickLoop_all_clicks (n : nat) :
  (forall w0, exists w1, clickRightArrow cal w0 = Ok w1) ->
  forall w trace,
    exists w',
      clickLoop cal n w trace =
      (None, w', trace ++ mjoin (replicate n [ClickRightArrow; Sleep 1000; ReadMonth])).
Proof.
  intros Hclick. induction n as [| n IH]; intros w trace; simpl.
  - exists w. by rewrite app_nil_r.
  - destruct (Hclick w) as [w1 Hw1]. rewrite Hw1.
    destruct (IH w1 (trace ++ [ClickRightArrow; Sleep 1000; ReadMonth]))
      as [w' Hrun].
    exists w'. rewrite Hrun. by rewrite <- app_assoc.
Qed.

(** Whatever the page does, the loop never calls [Click] more than [n]
    times. *)
Lemma clickLoop_at_most (n : nat) :
  forall w trace,
    (clicks (clickLoop cal n w trace).2 <= clicks trace + n)%nat.
Proof.
  induction n as [| n IH]; intros w trace; simpl; [lia |].
  destruct (clickRightArrow cal w) as [w1 | e]; simpl.
  - specialize (IH w1 (trace ++ [ClickRightArrow; Sleep 1000; ReadMonth])).
    rewrite clicks_app in IH.
    change (clicks [ClickRightArrow; Sleep 1000; ReadMonth]) with 1%nat in IH. lia.
  - rewrite clicks_app. change (clicks [ClickRightArrow]) with 1%nat. lia.
Qed.

(** C8. The panel shows the month [currentMonth] and the target is
    [targetMonth], both months of the calendar.  When they are equal
    nothing is clicked and the page is left as it is.  When the right
    arrow is there and every click on it goes through, the arrow is
    clicked (targetMonth - currentMonth) mod 12 times, each click
    followed by a new reading of the month.  And in no case is the arrow
    clicked more often than that. *)
Theorem month_navigation_clicks (w : W) (currentMonth targetMonth : Z) :
  getCurrentMonth (monthView cal w) = Ok currentMonth ->
  (1 <= currentMonth <= 12)%Z ->
  (1 <= targetMonth <= 12)%Z ->
  let delta := Z.to_nat ((targetMonth - currentMonth) mod 12) in
  (currentMonth = targetMonth ->
   selectSpecificMonth cal w targetMonth = (None, w, [ReadMonth])) /\
  (currentMonth <> targetMonth ->
   rightArrowCount (monthView cal w) <> 0%Z ->
   (forall w0, exists w1, clickRightArrow cal w0 = Ok w1) ->
   exists err w',
     selectSpecificMonth cal w targetMonth = (err, w', navigationTrace delta) /\
     clicks (navigationTrace delta) = delta) /\
  (clicks (selectSpecificMonth cal w targetMonth).2 <= delta)%nat.
Proof.
  intros Hcur Hc Ht delta. unfold selectSpecificMonth. rewrite Hcur.
  pose proof (forward_distance currentMonth targetMonth Hc Ht) as Hdiff.
  simpl in Hdiff. rewrite Hdiff. fold delta.
  split; [| split].
  - intros ->. by rewrite Z.eqb_refl.
  - intros Hne Harrow Hclick.
    destruct (Z.eqb_spec currentMonth targetMonth); [done |].
    destruct (Z.eqb_spec (rightArrowCount (monthView cal w)) 0); [done |].
    destruct (clickLoop_all_clicks delta Hclick w [ReadMonth]) as [w' Hrun].
    rewrite Hrun.
    destruct (getCurrentMonth (monthView cal w')) as [finalMonth | e].
    + destruct (finalMonth =? targetMonth)%Z; eexists _, w';
        (split; [| apply clicks_navigationTrace]);
        unfold navigationTrace; by rewrite <- !app_assoc.
    + eexists _, w'. split; [| apply clicks_navigationTrace].
      unfold navigationTrace. by rewrite <- !app_assoc.
  - destruct (currentMonth =? targetMonth)%Z; [simpl; unfold clicks; simpl; lia |].
    destruct (rightArrowCount (monthView cal w) =? 0)%Z;
      [simpl; unfold clicks; simpl; lia |].
    pose proof (clickLoop_at_most delta w [ReadMonth]) as Hle.
    change (clicks [ReadMonth]) with 0%nat in Hle.
    destruct (clickLoop cal delta w [ReadMonth]) as [[[e |] w'] trace]; simpl in *;
      [lia |].
    assert (clicks (trace ++ [ReadMonth]) = clicks trace) as Hlast.
    { rewrite clicks_app. change (clicks [ReadMonth]) with 0%nat. lia. }
    destruct (getCurrentMonth (monthView cal w')) as [finalMonth | e].
    + destruct (finalMonth =? targetMonth)%Z; simpl; lia.
    + simpl. lia.
Qed.

End MonthFacts.

Lemma month_navigation_clicks_witness :
  selectSpecificMonth wheel 11%Z 2%Z = (None, 2%Z, navigationTrace 3) /\
  selectSpecificMonth wheel 7%Z 7%Z = (None, 7%Z, [ReadMonth]) /\
  (clicks (selectSpecificMonth wheel 11%Z 2%Z).2 <= 3)%nat.
Proof.
  destruct (month_navigation_clicks wheel 11%Z 11%Z 2%Z) as (_ & _ & Hmost);
    [reflexivity | lia | lia |].
  destruct (month_navigation_clicks wheel 7%Z 7%Z 7%Z) as (Hstay & _ & _);
    [reflexivity | lia | lia |].
  split; [vm_compute; reflexivity |].
  split; [apply Hstay; reflexivity | apply Hmost].
Defined.

End PickerFacts.

(** ** Validation of the workbook *)

Module ValidateFacts.
Import GoStrings Task Validate Examples MoreExamples.

(** One step of the reading of [parseTaskFromRow] on a row whose first
    cells are known: a length test is decided, or the binds and matches
    that are ready are reduced. *)
Ltac row_step H :=
  first [ rewrite decide_True in H by (simpl; lia)
        | rewrite decide_False in H by (simpl; lia)
        | progress cbn -[TrimSpace String.eqb] in H ].

(** One case distinction on a test the row decides. *)
Ltac row_case H :=
  match type of H with
  | Reject _ _ = Next _ => discriminate H
  | Abort _ = Next _ => discriminate H
  | context [if ?b then _ else _] => destruct b eqn:?
  | context [match parseTime ?h ?x with _ => _ end] => destruct (parseTime h x) eqn:?
  | context [match checkFileExists ?h ?x with _ => _ end] =>
      destruct (checkFileExists h x) eqn:?
  end.

(** What is known of a row that [parseTaskFromRow] accepts and of the
    job it gives. *)
Lemma parseTaskFromRow_fields host (row : list string) task :
  parseTaskFromRow host row = Next task ->
  (10 <= length row)%nat /\
  (Action task = "save_draft" \/ Action task = "preview" \/ Action task = "publish") /\
  VideoPath task <> "" /\
  checkFileExists host (VideoPath task) = None /\
  Success task = false /\ Error task = "" /\ Page task = None /\
  RowIndex task = 0%Z.
Proof.
  intros H. unfold parseTaskFromRow, optionalColumn in H.
  destruct row as [| c0 [| c1 [| c2 [| c3 [| c4 [| c5 [| c6 [| c7 [| c8 [| c9 rest]]]]]]]]]].
  all: repeat first [row_step H | row_case H].
  all: unfold mret, flow_ret in H; injection H as <-.
  all: cbn -[TrimSpace String.eqb].
  all: repeat split; try (simpl; lia); auto.
  all: try (apply String.eqb_neq; assumption).
Qed.

(** X1. A row that [parseTaskFromRow] accepts has at least ten cells;
    the job it gives has one of the three save modes, a video path that
    is not empty and names a file that is there, and outcome fields at
    their zero values. *)
Theorem parseTaskFromRow_accepted host (row : list string) task :
  parseTaskFromRow host row = Next task ->
  (10 <= length row)%nat /\
  (Action task = "save_draft" \/ Action task = "preview" \/ Action task = "publish") /\
  VideoPath task <> "" /\
  checkFileExists host (VideoPath task) = None /\
  Success task = false /\ Error task = "" /\ Page task = None /\
  RowIndex task = 0%Z.
Proof. apply parseTaskFromRow_fields. Qed.

Lemma parseTaskFromRow_accepted_witness :
  (10 <= length publishRow)%nat /\
  Action (set_VideoPath (set_Action (set_ShortTitle (set_Description zeroTask "新视频")
            "短标题") "publish") "a.mp4") = "publish".
Proof.
  assert (parseTaskFromRow localHost publishRow =
          Next (set_VideoPath (set_Action (set_ShortTitle
                  (set_Description zeroTask "新视频") "短标题") "publish") "a.mp4"))
    as H by (vm_compute; reflexivity).
  destruct (parseTaskFromRow_accepted localHost publishRow _ H) as (Hlen & _).
  split; [exact Hlen | reflexivity].
Defined.

(** X2. A row accepted with the exact word for a scheduled publication
    in its sixth cell gives a scheduled job that is not saved as a draft
    through the exact word for it, with a seventh cell that is not
    empty; and unless that cell is blank, the time it holds parses to an
    instant between now and thirty days from now. *)
Theorem parseTaskFromRow_scheduled host (row : list string) task :
  parseTaskFromRow host row = Next task ->
  row !! 5%nat = Some "定时" ->
  Schedule task = true /\
  row !! 6%nat <> Some "" /\
  row !! 8%nat <> Some "保存草稿" /\
  (ScheduleTime task = "" \/
   exists targetTime,
     parseTime host (ScheduleTime task) = Some targetTime /\
     (now host <= targetTime <= now host + thirtyDays)%Z).
Proof.
  intros H H5. unfold parseTaskFromRow, optionalColumn in H.
  destruct row as [| c0 [| c1 [| c2 [| c3 [| c4 [| c5 [| c6 [| c7 [| c8 [| c9 rest]]]]]]]]]];
    try discriminate H5.
  all: injection H5 as ->.
  all: repeat first [row_step H | row_case H].
  all: unfold mret, flow_ret in H; injection H as <-.
  all: cbn -[TrimSpace String.eqb].
  all: repeat match goal with
         | Hb : (_ =? _)%string = false |- _ => apply String.eqb_neq in Hb
         | Hb : (_ =? _)%string = true |- _ => apply String.eqb_eq in Hb
         | Hb : negb _ = false |- _ => apply negb_false_iff in Hb
         | Hb : negb _ = true |- _ => apply negb_true_iff in Hb
         | Hb : (_ || _) = false |- _ => apply orb_false_iff in Hb as [? ?]
         | Hb : (_ <? _)%Z = false |- _ => apply Z.ltb_ge in Hb
         end.
  all: try (exfalso; simpl in *; lia).
  all: repeat split; try congruence; try (simpl; congruence).
  all: first [ by left | right; eexists; split; [eassumption | simpl; lia] ].
Qed.

Lemma parseTaskFromRow_scheduled_witness :
  exists task,
    parseTaskFromRow localHost scheduledRow = Next task /\
    Schedule task = true /\ scheduledRow !! 8%nat <> Some "保存草稿".
Proof.
  eexists. split; [vm_compute; reflexivity |].
  edestruct (parseTaskFromRow_scheduled localHost scheduledRow) as (Hs & _ & Hd & _);
    [vm_compute; reflexivity | reflexivity |].
  split; [exact Hs | exact Hd].
Defined.

(** The error list of [parseRows] only grows. *)
Lemma parseRows_errors_grow host rows :
  forall i tasks errors res errs,
    parseRows host rows i tasks errors = Returns (res, errs) ->
    (length errors <= length errs)%nat.
Proof.
  induction rows as [| row rest IH]; intros i tasks errors res errs; simpl.
  - intros [= <- <-]. lia.
  - destruct (parseTaskFromRow host row) as [t | t e | p]; [| | done].
    + apply IH.
    + intros H. apply IH in H. rewrite length_app in H. simpl in H. lia.
Qed.

(** A run of [parseRows] that ends without errors accepted every row
    and appended one job per row, in the order of the rows. *)
Lemma parseRows_accepts host rows :
  forall i tasks res,
    parseRows host rows i tasks [] = Returns (res, []) ->
    exists parsed,
      res = tasks ++ parsed /\ length parsed = length rows /\
      forall k row, rows !! k = Some row ->
        exists t0, parseTaskFromRow host row = Next t0 /\
                   parsed !! k = Some (set_RowIndex t0 (int_add (Z.of_nat (i + k)) 2)).
Proof.
  induction rows as [| row rest IH]; intros i tasks res; simpl.
  - intros [= <-]. exists []. rewrite app_nil_r. repeat split. intros k row. done.
  - destruct (parseTaskFromRow host row) as [t | t e | p] eqn:Hrow; [| | done].
    + intros H. destruct (IH _ _ _ H) as (parsed & -> & Hlen & Hall).
      exists (set_RowIndex t (int_add (Z.of_nat i) 2) :: parsed).
      split; [by rewrite <- app_assoc |]. split; [simpl; lia |].
      intros [| k] r Hk; simpl in Hk.
      * injection Hk as <-. exists t. rewrite Nat.add_0_r. done.
      * destruct (Hall k r Hk) as (t0 & Ht0 & Hp). exists t0.
        replace (i + S k)%nat with (S i + k)%nat by lia. done.
    + intros H. apply parseRows_errors_grow in H. simpl in H. lia.
Qed.

(** X3. When [ValidateExcelFile] returns jobs, every row after the
    header was accepted by [parseTaskFromRow], there is one job per such
    row in the order of the sheet, and the job of the k-th data row
    (from 0) carries the row index k+2, its line in the sheet. *)
Theorem ValidateExcelFile_jobs host reversed filePath rows tasks :
  (Z.of_nat (length rows) <= maxInt)%Z ->
  ValidateExcelFile host reversed filePath (Sheet rows) = Returns (Ok tasks) ->
  S (length tasks) = length rows /\
  forall k row, rows !! S k = Some row ->
    exists t0, parseTaskFromRow host row = Next t0 /\
               tasks !! k = Some (set_RowIndex t0 (Z.of_nat k + 2)).
Proof.
  intros Hbound H. unfold ValidateExcelFile in H.
  destruct (Z.ltb_spec (Z.of_nat (length rows)) 2) as [| Hlen]; [done |].
  destruct rows as [| headers data]; [simpl in Hlen; lia |].
  simpl in H.
  destruct (0 <? _)%Z; [done |].
  rewrite drop_0 in H.
  destruct (parseRows host data 0 [] []) as [[res errs] | p] eqn:Hrows; [| done].
  simpl in H.
  destruct (Z.ltb_spec 0 (Z.of_nat (length errs))) as [| Herrs]; [done |].
  injection H as <-.
  destruct errs as [| e errs]; [| simpl in Herrs; lia].
  destruct (parseRows_accepts _ _ _ _ _ Hrows) as (parsed & -> & Hplen & Hall).
  simpl. split; [lia |].
  intros k row Hk. destruct (Hall k row Hk) as (t0 & Ht0 & Hp).
  exists t0. split; [done |]. rewrite Hp. do 2 f_equal.
  unfold int_add. simpl in Hbound.
  apply lookup_lt_Some in Hk.
  apply PickerFacts.wrap_small. unfold minInt, maxInt in *. lia.
Qed.

Lemma ValidateExcelFile_jobs_witness :
  exists tasks,
    ValidateExcelFile localHost false "jobs.xlsx" (Sheet workbook) = Returns (Ok tasks) /\
    S (length tasks) = length workbook.
Proof.
  eexists. split; [vm_compute; reflexivity |].
  refine (proj1 (ValidateExcelFile_jobs localHost false "jobs.xlsx" workbook _ _ _)).
  - vm_compute. discriminate.
  - vm_compute. reflexivity.
Defined.

Lemma headerMapFrom_None (headers : list string) (name : string) :
  forall i (m : gmap string nat),
    m !! name = None ->
    (forall h, h ∈ headers -> TrimSpace h <> name) ->
    headerMapFrom headers i m !! name = None.
Proof.
  induction headers as [| h rest IH]; intros i m Hm Hall; simpl; [done |].
  apply IH.
  - rewrite lookup_insert_ne; [done |]. apply Hall, list_elem_of_here.
  - intros h' Hin. apply Hall. by apply list_elem_of_further.
Qed.

Lemma missingFrom_cons columns (m : gmap string nat) name col :
  (name, col) ∈ columns -> m !! name = None -> missingFrom columns m <> [].
Proof.
  induction columns as [| [n c] rest IH]; intros Hin Hm; [by apply elem_of_nil in Hin |].
  simpl. apply elem_of_cons in Hin as [[= <- <-] | Hin].
  - by rewrite Hm.
  - destruct (m !! n); [by apply IH | done].
Qed.

(** X4. A sheet of two rows or more whose header has no cell that
    trims to the name of the column of the save mode, or none that
    trims to the name of the column of the video, is refused with the
    missing-columns error, and none of its data rows is parsed. *)
Theorem ValidateExcelFile_missing_header host reversed filePath headers data name col :
  data <> [] ->
  (name, col) ∈ requiredColumns ->
  (forall h, h ∈ headers -> TrimSpace h <> name) ->
  exists missing,
    ValidateExcelFile host reversed filePath (Sheet (headers :: data)) =
    Returns (Err ("缺少必要的列: [" +:+ missing +:+ "]")).
Proof.
  intros Hdata Hin Hall. unfold ValidateExcelFile.
  destruct data as [| row data]; [done |].
  change (Z.of_nat (length (headers :: row :: data)) <? 2)%Z
    with (Z.of_nat (S (S (length data))) <? 2)%Z.
  destruct (Z.ltb_spec (Z.of_nat (S (S (length data)))) 2) as [| _]; [lia |].
  cbn [index_get lookup list_lookup mbind run_bind].
  set (m := headerMapFrom headers 0 ∅).
  assert (m !! name = None) as Hm by (by apply headerMapFrom_None).
  set (columns := if reversed then reverse requiredColumns else requiredColumns).
  assert ((name, col) ∈ columns) as Hcol.
  { unfold columns. destruct reversed; [by apply elem_of_reverse | done]. }
  pose proof (missingFrom_cons columns m name col Hcol Hm) as Hmiss.
  destruct (missingFrom columns m) as [| x l] eqn:Heq; [done |].
  eexists. reflexivity.
Qed.

Lemma ValidateExcelFile_missing_header_witness :
  exists missing,
    ValidateExcelFile localHost true "jobs.xlsx" (Sheet [renamedHeaderRow; []]) =
    Returns (Err ("缺少必要的列: [" +:+ missing +:+ "]")).
Proof.
  apply (ValidateExcelFile_missing_header localHost true "jobs.xlsx"
           renamedHeaderRow [[]] "保存方式" "I").
  - discriminate.
  - apply list_elem_of_here.
  - intros h Hin. unfold renamedHeaderRow in Hin.
    repeat (apply elem_of_cons in Hin as [-> | Hin]; [vm_compute; discriminate |]).
    by apply elem_of_nil in Hin.
Defined.

End ValidateFacts.

(** ** Opening a page *)

Module SessionFacts.
Import GoStrings Task Uploader Session Examples MoreExamples.

(** What a run of the login loop ends with: the URL of the platform was
    seen at the last look, or more than 600 s had passed at the last
    look, or the iterations ran out. *)
Lemma loginLoop_outcomes w startTime (n : nat) :
  forall clock r t,
    (0 <= lookTime w)%Z -> (startTime <= clock)%Z ->
    loginLoop w startTime n clock = (r, t) ->
    (r = Some None /\
     Contains (pageURL (stateAt w (t - lookTime w)))
       "https://channels.weixin.qq.com/platform/" = true) \/
    (r = Some (Some "扫码超时，请在5分钟内完成扫码") /\ (600 * 1000 < t - startTime)%Z) \/
    (r = None /\
     (n = 0%nat \/ (clock - startTime + 2000 * Z.of_nat n <= 600 * 1000)%Z)).
Proof.
  induction n as [| n IH]; intros clock r t Hlook Hstart; simpl.
  - intros [= <- <-]. right. right. split; [done | by left].
  - destruct (Contains _ _) eqn:Hurl.
    + intros [= <- <-]. left. split; [done |].
      replace (clock + 2000 + lookTime w - lookTime w)%Z with (clock + 2000)%Z by lia.
      done.
    + destruct (Z.ltb_spec (600 * 1000) (clock + 2000 - startTime)) as [Hlate | Hearly].
      * intros [= <- <-]. right. left. split; [done | lia].
      * intros H. apply IH in H; [| done | lia].
        destruct H as [H | [H | [-> H]]]; [by left | by right; left |].
        right. right. split; [done |]. right. lia.
Qed.

(** X5. With looks at the page that take no negative time,
    [waitUserLogin] ends in one of two ways: with success, the URL seen
    at the last look being one of the platform; or with the scan
    timeout, returned more than 600 s after the wait began.  The final
    return of the function, the login timeout, is never reached. *)
Theorem waitUserLogin_outcomes w clock :
  (0 <= lookTime w)%Z ->
  exists t,
    (waitUserLogin w clock = (None, t) /\
     Contains (pageURL (stateAt w (t - lookTime w)))
       "https://channels.weixin.qq.com/platform/" = true) \/
    (waitUserLogin w clock = (Some "扫码超时，请在5分钟内完成扫码", t) /\
     (600 * 1000 < t - clock)%Z).
Proof.
  intros Hlook. unfold waitUserLogin.
  destruct (loginLoop w clock 600 clock) as [r t] eqn:Hloop. exists t.
  destruct (loginLoop_outcomes w clock 600 clock r t Hlook ltac:(lia) Hloop)
    as [[-> H] | [[-> H] | [-> H]]].
  - by left.
  - by right.
  - exfalso. destruct H as [H | H]; [done |].
    change (Z.of_nat 600) with 600%Z in H. lia.
Qed.

Lemma waitUserLogin_outcomes_witness :
  waitUserLogin scanning 0 = (None, 90900%Z) /\
  waitUserLogin idle 0 = (Some "扫码超时，请在5分钟内完成扫码", 601960%Z).
Proof.
  destruct (waitUserLogin_outcomes scanning 0) as [t Ht]; [simpl; lia |].
  split; vm_compute; reflexivity.
Defined.

(** What a run of the page-ready loop ends with. *)
Lemma pageReadyLoop_outcomes w (n : nat) :
  forall clock r t,
    pageReadyLoop w n clock = (r, t) ->
    (r = Some None /\
     isCorrectPage (stateAt w (t - lookTime w - lookTime w)) = true /\
     isUploadPageReady (stateAt w (t - lookTime w)) = true) \/
    (r = Some (Some "不在正确的上传页面") /\
     isCorrectPage (stateAt w (t - lookTime w)) = false) \/
    (r = None /\ t = (clock + Z.of_nat n * (2000 + 2 * lookTime w))%Z).
Proof.
  induction n as [| n IH]; intros clock r t; simpl.
  - intros [= <- <-]. right. right. split; [done | lia].
  - destruct (isCorrectPage (stateAt w clock)) eqn:Hc; simpl.
    + destruct (isUploadPageReady _) eqn:Hr.
      * intros [= <- <-]. left. split; [done |].
        replace (clock + lookTime w + lookTime w - lookTime w - lookTime w)%Z
          with clock by lia.
        replace (clock + lookTime w + lookTime w - lookTime w)%Z
          with (clock + lookTime w)%Z by lia.
        done.
      * intros H. apply IH in H.
        destruct H as [H | [H | [-> ->]]]; [by left | by right; left |].
        right. right. split; [done | lia].
    + intros [= <- <-]. right. left. split; [done |].
      replace (clock + lookTime w - lookTime w)%Z with clock by lia. done.
Qed.

(** X6. [waitForPageReady] ends in one of three ways: with success,
    the last two looks having found the right page and an upload
    element; with the wrong-page error, the last look having found a
    page that is not the upload page; or with the load timeout, returned
    after thirty rounds of two looks and a pause of 2 s. *)
Theorem waitForPageReady_outcomes w clock :
  exists t,
    (waitForPageReady w clock = (None, t) /\
     isCorrectPage (stateAt w (t - lookTime w - lookTime w)) = true /\
     isUploadPageReady (stateAt w (t - lookTime w)) = true) \/
    (waitForPageReady w clock = (Some "不在正确的上传页面", t) /\
     isCorrectPage (stateAt w (t - lookTime w)) = false) \/
    (waitForPageReady w clock = (Some "页面加载超时", t) /\
     t = (clock + 30 * (2000 + 2 * lookTime w))%Z).
Proof.
  unfold waitForPageReady.
  destruct (pageReadyLoop w 30 clock) as [r t] eqn:Hloop. exists t.
  destruct (pageReadyLoop_outcomes w 30 clock r t Hloop)
    as [[-> H] | [[-> H] | [-> H]]].
  - by left.
  - by right; left.
  - right. right. split; [done |]. change (Z.of_nat 30) with 30%Z in H. done.
Qed.

(** X7. [GeneratePage] for an upload page returns a triple of one of
    the five shapes the dispatcher model knows: a nil page with one of
    three errors, a page with the login-invalid error, or a page with
    the name of the channel and no error.  So a nil error comes with a
    page, and an error comes with a page only when the login is
    invalid. *)
Theorem GeneratePage_shapes (o : Opening) clock :
  exists exit,
    (GeneratePage o false clock).1.1 =
    Dispatch.GeneratePage
      (Dispatch.mkBrowser (fun _ => exit) (fun _ _ => None) (fun _ _ => None)) 0.
Proof.
  unfold GeneratePage.
  destruct (newPage o) as [page | e].
  - destruct (gotoLoop o 0 3 None clock []) as [[[e |] t] trace].
    + by exists (Dispatch.NavigationFailed e).
    + destruct (waitForPageReady (navigation o) (t + 5000)) as [[e |] t'].
      * by exists (Dispatch.PageNotReady e).
      * destruct (isLoggedIn _).
        -- by eexists (Dispatch.PageReady page _).
        -- by exists (Dispatch.LoginInvalid page).
  - by exists (Dispatch.NewPageFailed e).
Qed.

Lemma gotos_app t1 t2 : gotos (t1 ++ t2) = (gotos t1 + gotos t2)%nat.
Proof. unfold gotos. by rewrite filter_app, length_app. Qed.

(** X8. [GeneratePage] navigates at most three times.  When the three
    navigations fail it has paused 10 s, 20 s and 30 s and reloaded
    after each of them, the last pause and reload included, and it
    returns a nil page with the error of the third navigation. *)
Theorem GeneratePage_navigation (o : Opening) isLogin clock :
  (gotos (GeneratePage o isLogin clock).2 <= 3)%nat /\
  forall page e0 e1 e2,
    newPage o = Ok page ->
    gotoError o 0%nat = Some e0 -> gotoError o 1%nat = Some e1 ->
    gotoError o 2%nat = Some e2 ->
    GeneratePage o isLogin clock =
    ((None, "", Some ("页面创建失败: " +:+ e2)),
     (clock + 3 * gotoTime o + 60000)%Z,
     [Goto; Pause 10000; Reload; Goto; Pause 20000; Reload;
      Goto; Pause 30000; Reload]).
Proof.
  split.
  - unfold GeneratePage.
    destruct (newPage o) as [page | e]; [| simpl; unfold gotos; simpl; lia].
    assert (gotos (gotoLoop o 0 3 None clock []).2 <= 3)%nat as Hloop.
    { simpl. destruct (gotoError o 0%nat); [| unfold gotos; simpl; lia]. simpl.
      destruct (gotoError o 1%nat); [| unfold gotos; simpl; lia]. simpl.
      destruct (gotoError o 2%nat); unfold gotos; simpl; lia. }
    destruct (gotoLoop o 0 3 None clock []) as [[[e |] t] trace]; simpl in *; [done |].
    destruct isLogin.
    + destruct (waitUserLogin _ _) as [[e |] t']; done.
    + assert (gotos (trace ++ [Pause 5000]) <= 3)%nat as Hpause.
      { rewrite gotos_app. change (gotos [Pause 5000]) with 0%nat. lia. }
      destruct (waitForPageReady _ _) as [[e |] t']; [done |].
      destruct (isLoggedIn _); done.
  - intros page e0 e1 e2 Hpage H0 H1 H2. unfold GeneratePage. rewrite Hpage.
    simpl. rewrite H0. simpl. rewrite H1. simpl. rewrite H2. simpl.
    do 2 f_equal. lia.
Qed.

Lemma GeneratePage_navigation_witness :
  GeneratePage unreachable false 0 =
  ((None, "", Some "页面创建失败: net::ERR_TIMED_OUT 2"), 240000%Z,
   [Goto; Pause 10000; Reload; Goto; Pause 20000; Reload; Goto; Pause 30000; Reload]).
Proof.
  apply (proj2 (GeneratePage_navigation unreachable false 0) 7%nat
           "net::ERR_TIMED_OUT 0" "net::ERR_TIMED_OUT 1" "net::ERR_TIMED_OUT 2");
    reflexivity.
Defined.

End SessionFacts.

(** ** Filling the form *)

Module FormFacts.
Import GoStrings Task Uploader Form Examples MoreExamples.

Lemma bestEffort_steps page field step trace :
  bestEffort page field step trace =
  if String.eqb field "" then trace else trace ++ [step field].
Proof. unfold bestEffort. destruct (String.eqb field ""); [done |]. by destruct (page _). Qed.

Lemma clickAndWait_steps page action buttonSelector actionName trace :
  clickAndWait page action buttonSelector actionName trace =
  (page (WaitForActionCompletion action actionName),
   trace ++ [WaitAndClickButton buttonSelector actionName;
             WaitForActionCompletion action actionName]).
Proof.
  unfold clickAndWait. rewrite <- app_assoc. by destruct (page (WaitAndClickButton _ _)).
Qed.

(** What [performFinalAction] returns and does is the same on two
    pages that answer alike to every call but the click on the button
    and the optional fields: the error of [waitAndClickButton] is not
    reported, the wait for the completion runs all the same. *)
Lemma performFinalAction_ignores_click (page page' : FormPage) action isScheduled :
  (forall step, ~ tolerated step -> page step = page' step) ->
  performFinalAction page action isScheduled =
  performFinalAction page' action isScheduled.
Proof.
  intros H. unfold performFinalAction. rewrite !clickAndWait_steps.
  rewrite (H CancelScheduledPublish) by (simpl; tauto).
  rewrite !(H (WaitForActionCompletion _ _)) by (simpl; tauto).
  reflexivity.
Qed.

(** X9. What [completeVideoUploadForm] returns and does is the same on
    two pages that answer alike to every call but the selection of the
    location, of the collection, of the link and of the activity and
    the click on the final button: a failure of one of these never
    fails the form nor changes what is done next. *)
Theorem completeVideoUploadForm_best_effort (page page' : FormPage) options :
  (forall step, ~ tolerated step -> page step = page' step) ->
  completeVideoUploadForm page options = completeVideoUploadForm page' options.
Proof.
  intros H. unfold completeVideoUploadForm.
  rewrite (H ClickDescription) by (simpl; tauto).
  rewrite (H (FillDescription _)) by (simpl; tauto).
  destruct (String.eqb (optDescription options) "");
    [| destruct (page' ClickDescription);
       [| destruct (page' (FillDescription _))]]; simpl; try reflexivity.
  all: rewrite !bestEffort_steps.
  all: rewrite (H (SetScheduledPublish _)) by (simpl; tauto).
  all: destruct (optSchedule options);
         [destruct (page' (SetScheduledPublish _)) |]; simpl; try reflexivity.
  all: rewrite (H (FillShortTitle _)) by (simpl; tauto).
  all: destruct (String.eqb (optShortTitle options) "");
         [| destruct (page' (FillShortTitle _))]; simpl; try reflexivity.
  all: by rewrite (performFinalAction_ignores_click page page' _ _ H).
Qed.

Lemma completeVideoUploadForm_best_effort_witness :
  completeVideoUploadForm stubbornForm fullOptions =
  completeVideoUploadForm smoothForm fullOptions /\
  (completeVideoUploadForm stubbornForm fullOptions).1 = None.
Proof.
  split; [| reflexivity].
  apply (completeVideoUploadForm_best_effort stubbornForm smoothForm fullOptions).
  intros step Hstep. destruct step; simpl in *; tauto.
Defined.

Lemma performFinalAction_submit page action isScheduled step :
  step ∈ (performFinalAction page action isScheduled).2 -> isSubmit step ->
  isScheduled = true -> action = "save_draft" -> page CancelScheduledPublish = None.
Proof.
  intros Hin Hsub -> ->. unfold performFinalAction in Hin. simpl in Hin.
  destruct (page CancelScheduledPublish) as [e |]; [| done].
  simpl in Hin. apply list_elem_of_singleton in Hin as ->. done.
Qed.

(** X10. The click on a final button comes only after the steps before
    it went through: when [completeVideoUploadForm] clicks the button of
    a job that asks for scheduling, the switch to the scheduled
    publication had succeeded, and for a draft the scheduling had been
    cancelled again with success. *)
Theorem completeVideoUploadForm_submit (page : FormPage) options step :
  step ∈ (completeVideoUploadForm page options).2 -> isSubmit step ->
  optSchedule options = true ->
  page (SetScheduledPublish (optScheduleTime options)) = None /\
  (optAction options = "save_draft" -> page CancelScheduledPublish = None).
Proof.
  intros Hin Hsub Hsched. unfold completeVideoUploadForm in Hin.
  rewrite Hsched in Hin.
  assert (forall l : list FormStep,
            step ∈ l -> Forall (fun s => ~ isSubmit s) l -> False) as Hnot.
  { intros l Hl' Hl. rewrite Forall_forall in Hl. by apply (Hl step). }
  destruct (String.eqb (optDescription options) "");
    [| destruct (page ClickDescription);
       [| destruct (page (FillDescription _))]].
  all: simpl in Hin.
  all: try (exfalso; apply (Hnot _ Hin); repeat constructor; simpl; tauto).
  all: rewrite !bestEffort_steps in Hin.
  all: destruct (String.eqb (optLocation options) ""),
         (String.eqb (optCollection options) ""),
         (String.eqb (optLink options) ""),
         (String.eqb (optActivity options) "").
  all: destruct (page (SetScheduledPublish _)) as [e |] eqn:Hset; simpl in Hin.
  all: try (exfalso; apply (Hnot _ Hin); repeat constructor; simpl; tauto).
  all: split; [done |].
  all: intros Haction.
  all: destruct (String.eqb (optShortTitle options) "");
         [| destruct (page (FillShortTitle _))]; simpl in Hin.
  all: try (exfalso; apply (Hnot _ Hin); repeat constructor; simpl; tauto).
  all: rewrite Haction in Hin; simpl in Hin.
  all: destruct (performFinalAction page "save_draft" true) as [err steps] eqn:Hfinal.
  all: assert (step ∈ steps) as Hsteps
         by (destruct err; simpl in Hin;
             repeat (apply elem_of_cons in Hin as [-> | Hin]; [by simpl in Hsub |]);
             done).
  all: apply (performFinalAction_submit page "save_draft" true step);
         [by rewrite Hfinal | done..].
Qed.

Lemma completeVideoUploadForm_submit_witness :
  WaitAndClickButton ".form-btns button:has-text('发表')" "发表"
    ∈ (completeVideoUploadForm smoothForm fullOptions).2 /\
  smoothForm (SetScheduledPublish "2025/11/1 10:00") = None /\
  (completeVideoUploadForm noScheduleForm fullOptions).1 =
    Some "设置定时发表失败: 未找到定时发表按钮".
Proof.
  assert (WaitAndClickButton ".form-btns button:has-text('发表')" "发表"
            ∈ (completeVideoUploadForm smoothForm fullOptions).2) as Hin.
  { vm_compute. do 9 apply list_elem_of_further. apply list_elem_of_here. }
  destruct (completeVideoUploadForm_submit smoothForm fullOptions _ Hin I eq_refl)
    as [Hset _].
  split; [exact Hin |]. split; [exact Hset | reflexivity].
Defined.

(** An error [completeVideoUploadForm] returns is never the empty
    text. *)
Lemma completeVideoUploadForm_error_text (page : FormPage) options :
  (completeVideoUploadForm page options).1 <> Some "".
Proof.
  unfold completeVideoUploadForm.
  destruct (String.eqb (optDescription options) "");
    [| destruct (page ClickDescription);
       [| destruct (page (FillDescription _))]]; simpl; try discriminate.
  all: destruct (optSchedule options);
         [destruct (page (SetScheduledPublish _)) |]; simpl; try discriminate.
  all: destruct (String.eqb (optShortTitle options) "");
         [| destruct (page (FillShortTitle _))]; simpl; try discriminate.
  all: destruct (String.eqb (optAction options) ""); simpl; try discriminate.
  all: destruct (performFinalAction page _ _) as [[e |] steps]; simpl; discriminate.
Qed.

End FormFacts.

(** ** The two polling waits and the upload *)

Module PollingFacts.
Import GoStrings Uploader Form Examples MoreExamples.

(** [hasUploadError] answers true only for a page that shows one of
    the error markers and whose body text cannot be read. *)
Lemma hasUploadError_true page :
  hasUploadError page = true ->
  (exists selector, selector ∈ errorSelectors /\ isVisible page selector = true) /\
  exists e, textContent page "body" = Err e.
Proof.
  unfold hasUploadError. intros H.
  apply existsb_exists in H as (selector & Hin & H).
  apply andb_prop in H as [Hvis Hbody].
  split.
  - exists selector. split; [by apply list_elem_of_In | done].
  - destruct (textContent page "body") as [text | e]; [done | by exists e].
Qed.

(** What a run of the loop of [waitForDeleteButton] ends with, and
    when. *)
Lemma deleteButtonLoop_outcomes w startTime (n : nat) :
  forall clock r t,
    (0 <= latency w)%Z ->
    deleteButtonLoop w startTime n clock = (r, t) ->
    (clock <= t <= clock + Z.of_nat n * (2000 + 2 * latency w))%Z /\
    ((r = Some None /\ hasDeleteButton (pageAt w (t - latency w)) = true) \/
     (r = Some (Some "上传过程中出现错误") /\
      hasUploadError (pageAt w (t - latency w)) = true) \/
     (r = Some (Some "等待删除按钮超时（5分钟）") /\ (5 * 60000 < t - startTime)%Z) \/
     (r = None /\ t = (clock + Z.of_nat n * (2000 + 2 * latency w))%Z /\
      (n = 0%nat \/ (t - startTime <= 5 * 60000)%Z))).
Proof.
  induction n as [| n IH]; intros clock r t Hlat; simpl deleteButtonLoop.
  - intros [= <- <-]. split; [lia |]. do 3 right. split; [done |]. split; [lia | by left].
  - assert (0 <= Z.of_nat n * (2000 + 2 * latency w))%Z as Hpos
      by (apply Z.mul_nonneg_nonneg; lia).
    destruct (hasDeleteButton _) eqn:Hfound.
    { intros [= <- <-]. split; [lia |]. left. split; [done |].
      by replace (clock + 2000 + latency w - latency w)%Z with (clock + 2000)%Z by lia. }
    destruct (hasUploadError _) eqn:Hfailed.
    { intros [= <- <-]. split; [lia |]. right. left. split; [done |].
      by replace (clock + 2000 + latency w + latency w - latency w)%Z
        with (clock + 2000 + latency w)%Z by lia. }
    destruct (Z.ltb_spec (5 * 60000) (clock + 2000 + latency w + latency w - startTime))
      as [Hlate | Hearly].
    { intros [= <- <-]. split; [lia |]. right. right. left. done. }
    intros H. apply IH in H as [Hbound H]; [| done].
    split; [lia |].
    destruct H as [H | [H | [H | (-> & -> & H)]]];
      [by left | by right; left | by right; right; left |].
    do 3 right. split; [done |]. split; [lia |]. right.
    destruct H as [-> | H]; [simpl; lia | done].
Qed.

(** X11. With looks at the page that take no negative time,
    [waitForDeleteButton] returns within 120 rounds of a pause of 2 s
    and two looks, in one of four ways: with success, the delete button
    having been seen at the last look; with the upload error, the last
    look having found an error marker on a page whose body text could
    not be read; with the 5-minute timeout, which needs looks of more
    than 250 ms; or with the plain timeout after exactly 120 rounds,
    which needs looks of 250 ms at most. *)
Theorem waitForDeleteButton_outcomes w clock :
  (0 <= latency w)%Z ->
  exists r t,
    waitForDeleteButton w clock = (r, t) /\
    (clock <= t <= clock + 120 * (2000 + 2 * latency w))%Z /\
    ((r = None /\ hasDeleteButton (pageAt w (t - latency w)) = true) \/
     (r = Some "上传过程中出现错误" /\
      (exists selector, selector ∈ errorSelectors /\
         isVisible (pageAt w (t - latency w)) selector = true) /\
      exists e, textContent (pageAt w (t - latency w)) "body" = Err e) \/
     (r = Some "等待删除按钮超时（5分钟）" /\
      (250 < latency w)%Z /\ (5 * 60000 < t - clock)%Z) \/
     (r = Some "等待删除按钮超时" /\
      (latency w <= 250)%Z /\ t = (clock + 120 * (2000 + 2 * latency w))%Z)).
Proof.
  intros Hlat. unfold waitForDeleteButton.
  destruct (deleteButtonLoop w clock 120 clock) as [r t] eqn:Hloop.
  destruct (deleteButtonLoop_outcomes w clock 120 clock r t Hlat Hloop) as [Hbound H].
  change (Z.of_nat 120) with 120%Z in *.
  destruct H as [[-> H] | [[-> H] | [[-> H] | (-> & -> & H)]]].
  - exists None, t. split; [done |]. split; [done |]. by left.
  - eexists _, t. split; [done |]. split; [done |]. right. left.
    split; [done |]. by apply hasUploadError_true.
  - eexists _, t. split; [done |]. split; [done |]. right. right. left.
    split; [done |]. split; lia.
  - eexists _, _. split; [done |]. split; [lia |]. do 3 right.
    split; [done |]. split; [| done]. destruct H as [H | H]; [done | lia].
Qed.

Lemma waitForDeleteButton_outcomes_witness :
  waitForDeleteButton stalledUpload 0 = (Some "等待删除按钮超时", 252000%Z) /\
  waitForDeleteButton finishedUpload 0 = (None, 2050%Z).
Proof.
  destruct (waitForDeleteButton_outcomes stalledUpload 0) as (r & t & Hrun & _);
    [simpl; lia |].
  split; vm_compute; reflexivity.
Defined.

(** The loop of [waitForDeleteButton] ends at the first round whose
    first look finds the delete button, when no round before it found
    an upload error or was late. *)
Lemma deleteButtonLoop_first w startTime (k : nat) :
  forall (n : nat) clock,
    (0 <= latency w)%Z -> (k < n)%nat ->
    (clock + Z.of_nat k * (2000 + 2 * latency w) - startTime <= 5 * 60000)%Z ->
    (forall (j : nat) tj, (j < k)%nat ->
       tj = (clock + Z.of_nat j * (2000 + 2 * latency w) + 2000)%Z ->
       hasDeleteButton (pageAt w tj) = false /\
       hasUploadError (pageAt w (tj + latency w)) = false) ->
    hasDeleteButton (pageAt w (clock + Z.of_nat k * (2000 + 2 * latency w) + 2000)) = true ->
    deleteButtonLoop w startTime n clock =
    (Some None, (clock + Z.of_nat k * (2000 + 2 * latency w) + 2000 + latency w)%Z).
Proof.
  induction k as [| k IH]; intros n clock Hlat Hk Hearly Hbefore Hnow;
    (destruct n as [| n]; [lia |]); simpl deleteButtonLoop.
  - replace (clock + Z.of_nat 0 * (2000 + 2 * latency w) + 2000)%Z
      with (clock + 2000)%Z in * by lia.
    rewrite Hnow. f_equal.
  - assert (0 <= Z.of_nat k * (2000 + 2 * latency w))%Z as Hpos
      by (apply Z.mul_nonneg_nonneg; lia).
    destruct (Hbefore 0%nat (clock + 2000)%Z) as [H1 H2]; [lia | lia |].
    rewrite H1, H2.
    destruct (Z.ltb_spec (5 * 60000) (clock + 2000 + latency w + latency w - startTime));
      [lia |].
    rewrite (IH n (clock + 2000 + latency w + latency w)%Z); [f_equal; lia | done | lia | lia | |].
    + intros j tj Hj ->. apply (Hbefore (S j)); lia.
    + replace (clock + 2000 + latency w + latency w
               + Z.of_nat k * (2000 + 2 * latency w) + 2000)%Z
        with (clock + Z.of_nat (S k) * (2000 + 2 * latency w) + 2000)%Z by lia.
      done.
Qed.

(** X12. With looks of 250 ms at most, [waitForDeleteButton] succeeds
    at the first of its 120 rounds whose first look finds the delete
    button, provided no earlier round found an upload error: round [k]
    (from 0) looks for the button 2 s after its start, the rounds before
    it having taken 2 s and two looks each. *)
Theorem waitForDeleteButton_first_button w clock (k : nat) :
  (0 <= latency w <= 250)%Z -> (k < 120)%nat ->
  (forall j : nat, (j < k)%nat ->
     hasDeleteButton
       (pageAt w (clock + Z.of_nat j * (2000 + 2 * latency w) + 2000)) = false /\
     hasUploadError
       (pageAt w (clock + Z.of_nat j * (2000 + 2 * latency w) + 2000 + latency w)) = false) ->
  hasDeleteButton (pageAt w (clock + Z.of_nat k * (2000 + 2 * latency w) + 2000)) = true ->
  waitForDeleteButton w clock =
  (None, (clock + Z.of_nat k * (2000 + 2 * latency w) + 2000 + latency w)%Z).
Proof.
  intros Hlat Hk Hbefore Hnow. unfold waitForDeleteButton.
  rewrite (deleteButtonLoop_first w clock k 120 clock); [done | lia | done | nia | | done].
  intros j tj Hj ->. by apply Hbefore.
Qed.

Lemma waitForDeleteButton_first_button_witness :
  waitForDeleteButton slowUpload 0 = (None, 10090%Z).
Proof.
  apply (waitForDeleteButton_first_button slowUpload 0 4).
  - simpl. lia.
  - lia.
  - intros j Hj.
    destruct j as [| [| [| [| j]]]]; [split; vm_compute; reflexivity.. | lia].
  - vm_compute. reflexivity.
Defined.

(** What a run of the loop of [waitForActionCompletion] ends with. *)
Lemma actionLoop_outcomes w action actionName (n : nat) :
  forall clock r t,
    (0 <= latency w)%Z ->
    actionLoop w action actionName n clock = (r, t) ->
    (clock <= t <= clock + Z.of_nat n * (1000 + 2 * latency w))%Z /\
    ((r = Some None /\ isActionSuccessful (pageAt w (t - latency w)) action = true) \/
     (r = Some (Some (actionName +:+ " 操作失败")) /\
      hasActionFailed (pageAt w (t - latency w)) action = true) \/
     (r = None /\ t = (clock + Z.of_nat n * (1000 + 2 * latency w))%Z)).
Proof.
  induction n as [| n IH]; intros clock r t Hlat; simpl actionLoop.
  - intros [= <- <-]. split; [lia |]. right. right. split; [done | lia].
  - assert (0 <= Z.of_nat n * (1000 + 2 * latency w))%Z as Hpos
      by (apply Z.mul_nonneg_nonneg; lia).
    destruct (isActionSuccessful _ _) eqn:Hok.
    { intros [= <- <-]. split; [lia |]. left. split; [done |].
      by replace (clock + 1000 + latency w - latency w)%Z with (clock + 1000)%Z by lia. }
    destruct (hasActionFailed _ _) eqn:Hfailed.
    { intros [= <- <-]. split; [lia |]. right. left. split; [done |].
      by replace (clock + 1000 + latency w + latency w - latency w)%Z
        with (clock + 1000 + latency w)%Z by lia. }
    intros H. apply IH in H as [Hbound H]; [| done].
    split; [lia |].
    destruct H as [H | [H | [-> ->]]]; [by left | by right; left |].
    right. right. split; [done | lia].
Qed.

(** X13. With looks at the page that take no negative time,
    [waitForActionCompletion] returns within 300 rounds of a pause of
    1 s and two looks, and one more look, in one of three ways: with
    success, the last look having found the success marker of the
    action; with the failure of the action, the last look having found a
    failure marker; or with the timeout, after exactly 300 rounds and a
    last look that did not find the success marker either. *)
Theorem waitForActionCompletion_outcomes w action actionName clock :
  (0 <= latency w)%Z ->
  exists r t,
    waitForActionCompletion w action actionName clock = (r, t) /\
    (clock <= t <= clock + 300 * (1000 + 2 * latency w) + latency w)%Z /\
    ((r = None /\ isActionSuccessful (pageAt w (t - latency w)) action = true) \/
     (r = Some (actionName +:+ " 操作失败") /\
      hasActionFailed (pageAt w (t - latency w)) action = true) \/
     (r = Some (actionName +:+ " 操作超时") /\
      t = (clock + 300 * (1000 + 2 * latency w) + latency w)%Z /\
      isActionSuccessful (pageAt w (t - latency w)) action = false)).
Proof.
  intros Hlat. unfold waitForActionCompletion.
  destruct (actionLoop w action actionName 300 clock) as [r t] eqn:Hloop.
  destruct (actionLoop_outcomes w action actionName 300 clock r t Hlat Hloop)
    as [Hbound H].
  change (Z.of_nat 300) with 300%Z in *.
  destruct H as [[-> H] | [[-> H] | [-> ->]]].
  - exists None, t. split; [done |]. split; [lia |]. by left.
  - eexists _, t. split; [done |]. split; [lia |]. right. by left.
  - destruct (isActionSuccessful _ _) eqn:Hok; eexists _, _; (split; [done |]);
      (split; [lia |]).
    + left. split; [done |].
      by replace (clock + 300 * (1000 + 2 * latency w) + latency w - latency w)%Z
        with (clock + 300 * (1000 + 2 * latency w))%Z by lia.
    + right. right. split; [done |]. split; [done |].
      by replace (clock + 300 * (1000 + 2 * latency w) + latency w - latency w)%Z
        with (clock + 300 * (1000 + 2 * latency w))%Z by lia.
Qed.

Lemma waitForActionCompletion_outcomes_witness :
  waitForActionCompletion latePublish "publish" "发表" 0 = (None, 306010%Z) /\
  waitForActionCompletion stalledUpload "publish" "发表" 0 =
    (Some "发表 操作超时", 330050%Z).
Proof.
  destruct (waitForActionCompletion_outcomes latePublish "publish" "发表" 0)
    as (r & t & Hrun & _); [simpl; lia |].
  split; vm_compute; reflexivity.
Defined.

(** The selector [findFileInput] returns, when it is not the empty one,
    is one of the list and finds an input. *)
Lemma findFileInput_found page selectors :
  findFileInput page selectors <> "" ->
  findFileInput page selectors ∈ selectors /\
  (0 < count page (findFileInput page selectors))%Z.
Proof.
  induction selectors as [| selector rest IH]; simpl; [done |].
  destruct (Z.ltb_spec 0 (count page selector)) as [Hpos | Hzero].
  - intros _. split; [apply list_elem_of_here | done].
  - intros H. destruct (IH H) as [Hin Hcount].
    split; [by apply list_elem_of_further | done].
Qed.

(** X14. With looks at the page that take no negative time:
    [uploadVideo] makes one attempt, that of [uploadVideoBySelector],
    and never returns its closing error.  When it succeeds, one of the
    selectors of the file input found an input 5 s after the start, the
    file was set on it without error, and the delete button was seen at
    the last look at the page. *)
Theorem uploadVideo_single_attempt (page : UploadPage) videoPath clock :
  (0 <= latency (timeline page))%Z ->
  uploadVideo page videoPath clock = uploadVideoBySelector page videoPath clock /\
  (uploadVideo page videoPath clock).1 <> Some "所有上传方法都失败" /\
  forall t,
    uploadVideo page videoPath clock = (None, t) ->
    (clock + 5000 <= t)%Z /\
    hasDeleteButton (pageAt (timeline page) (t - latency (timeline page))) = true /\
    exists selector,
      selector ∈ fileInputSelectors /\
      (0 < count (pageAt (timeline page) (clock + 5000)) selector)%Z /\
      setInputFiles page selector videoPath = None.
Proof.
  intros Hlat.
  assert (uploadVideo page videoPath clock = uploadVideoBySelector page videoPath clock)
    as Hone.
  { unfold uploadVideo. simpl.
    by destruct (uploadVideoBySelector page videoPath clock) as [[e |] t]. }
  rewrite Hone. unfold uploadVideoBySelector, checkVideoUploadStatus, waitForDeleteButton.
  set (found := findFileInput (pageAt (timeline page) (clock + 5000)) fileInputSelectors).
  pose proof (findFileInput_found (pageAt (timeline page) (clock + 5000))
                fileInputSelectors) as Hfound.
  fold found in Hfound.
  destruct (deleteButtonLoop (timeline page) (clock + 5000) 120 (clock + 5000))
    as [r t'] eqn:Hloop.
  destruct (deleteButtonLoop_outcomes _ _ _ _ _ _ Hlat Hloop) as [Hbound Hcases].
  split; [done |]. split.
  - destruct (String.eqb_spec found ""); [done |].
    destruct (setInputFiles page found videoPath); [done |].
    destruct Hcases as [[-> _] | [[-> _] | [[-> _] | [-> _]]]]; done.
  - intros t. destruct (String.eqb_spec found "") as [| Hne]; [done |].
    destruct (setInputFiles page found videoPath) eqn:Hset; [done |].
    destruct Hcases as [[-> Hbutton] | [[-> _] | [[-> _] | [-> _]]]]; try done.
    intros [= <-]. split; [lia |]. split; [done |].
    exists found. destruct (Hfound Hne). done.
Qed.

Lemma uploadVideo_single_attempt_witness :
  uploadVideo (mkUploadPage finishedUpload (fun _ _ => None)) "a.mp4" 0 = (None, 7050%Z) /\
  hasDeleteButton (pageAt finishedUpload (7050 - 50)) = true.
Proof.
  destruct (uploadVideo_single_attempt (mkUploadPage finishedUpload (fun _ _ => None))
              "a.mp4" 0) as (_ & _ & Hok); [simpl; lia |].
  assert (uploadVideo (mkUploadPage finishedUpload (fun _ _ => None)) "a.mp4" 0 =
          (None, 7050%Z)) as Hrun by (vm_compute; reflexivity).
  split; [exact Hrun |]. by destruct (Hok _ Hrun) as (_ & Hbutton & _).
Defined.

End PollingFacts.

(** ** The dispatchers, whatever the browser does *)

Module DispatchMore.
Import GoStrings Task Dispatch Ledger Examples MoreExamples.
Import DispatchFacts.

Lemma writeLogFile_line log t channelName :
  writeLogFile log t channelName = log ++ [logLineOf t channelName].
Proof. unfold writeLogFile, logLineOf. by destruct (Success t). Qed.

(** The loop from position [k] on, with the log file. *)
Lemma sequentialLoop_log env p channelName (n : nat) :
  forall (k : nat) (tasks : list VideoCreateTask) (log : list LogLine),
    (k + n)%nat = length tasks ->
    sequentialLoop env p channelName (seq k n) tasks log =
    Returns (take k tasks ++ (createVideo env p <$> drop k tasks),
             log ++ ((fun t => logLineOf (createVideo env p t) channelName)
                       <$> drop k tasks)).
Proof.
  induction n as [| n IH]; intros k tasks log Hlen; simpl.
  - rewrite take_ge, drop_ge by lia. simpl. by rewrite !app_nil_r.
  - destruct (lookup_lt_is_Some_2 tasks k) as [t Ht]; [lia |].
    rewrite (index_get_Some _ _ _ Ht). simpl.
    rewrite index_set_lt by lia. simpl.
    rewrite (index_get_Some _ _ (createVideo env p t))
      by (apply list_lookup_insert_eq; lia).
    simpl.
    rewrite IH by (rewrite length_insert; lia).
    rewrite (take_S_r _ _ (createVideo env p t))
      by (apply list_lookup_insert_eq; lia).
    rewrite take_insert_ge by lia.
    rewrite drop_insert_lt by lia.
    rewrite (drop_S _ _ _ Ht). simpl.
    rewrite writeLogFile_line.
    by rewrite <- !app_assoc.
Qed.

(** X15. Sequential mode, once [GeneratePage] gave a page: the
    dispatcher returns, without a panic, the outcome of [createVideo] on
    that one page for every job, in the order of the jobs, and appends
    to the log file the line of every outcome, in the same order and
    under the channel name of the page. *)
Theorem sequential_dispatch_on_page env tasks log p channelName :
  GeneratePage env 0 = (Some p, channelName, None) ->
  processTaskSequential env tasks log =
  Returns (createVideo env p <$> tasks,
           log ++ ((fun t => logLineOf (createVideo env p t) channelName) <$> tasks)).
Proof.
  intros Hpage. unfold processTaskSequential. rewrite Hpage.
  by rewrite (sequentialLoop_log env p channelName (length tasks) 0 tasks log).
Qed.

Lemma sequential_dispatch_on_page_witness :
  processTaskSequential healthy [job 2 "a.mp4"; job 3 "b.mp4"] [] =
  Returns ([set_Success (job 2 "a.mp4") true; set_Success (job 3 "b.mp4") true],
           [mkLogLine true "视频号" 2 "a.mp4" ""; mkLogLine true "视频号" 3 "b.mp4" ""]).
Proof.
  apply (sequential_dispatch_on_page healthy [job 2 "a.mp4"; job 3 "b.mp4"] []
           0%nat "视频号").
  reflexivity.
Defined.

(** *** The pool *)

Section PoolFacts.
Context (env : Browser) (tasks : list VideoCreateTask).

Lemma poolInv_after limit events s s' :
  poolInv env tasks s -> poolAfter env limit events s = Some s' ->
  poolInv env tasks s'.
Proof.
  revert s. induction events as [| e events IH]; intros s Hinv; simpl.
  - by intros [= <-].
  - destruct (step env limit s e) as [[s1 | p] |] eqn:Hstep; try done.
    apply IH. by eapply poolInv_step.
Qed.

(** One event keeps the goroutines that hold a slot within the
    limit. *)
Lemma inFlight_step limit s e s' :
  poolInv env tasks s -> step env limit s e = Some (Returns s') ->
  (Z.of_nat (inFlight s) <= limit)%Z -> (Z.of_nat (inFlight s') <= limit)%Z.
Proof.
  intros [Hlen Hfresh Hwait Hcomp Hstored] Hstep Hle.
  destruct e as [| i | i]; simpl in Hstep.
  - destruct (decide _) as [Hlt |]; [| done].
    destruct (decide _) as [Hfree |]; [| done].
    destruct (lookup_lt_is_Some_2 (shared s) (launched s) Hlt) as [t Ht].
    rewrite (index_get_Some _ _ _ Ht) in Hstep. simpl in Hstep.
    injection Hstep as <-.
    destruct (Hfresh (launched s)) as (Hw & _); [lia |].
    unfold inFlight in *. simpl.
    rewrite map_size_insert_None by done. lia.
  - destruct (waiting s !! i) as [t |] eqn:Hwi; [| done].
    destruct (Hwait i t Hwi) as (Hci & _).
    destruct (worker env (shared s) t i) as [rc |]; [| done].
    simpl in Hstep. injection Hstep as <-.
    unfold inFlight in *. simpl.
    rewrite map_size_delete_Some by (by rewrite Hwi).
    rewrite map_size_insert_None by done.
    assert (size (waiting s) <> 0)%nat
      by (apply map_size_ne_0_lookup_2 with i; by rewrite Hwi).
    lia.
  - destruct (computed s !! i) as [[r channelName] |] eqn:Hci; [| done].
    destruct (index_set (shared s) i r) as [tasks' |]; [| done].
    simpl in Hstep. injection Hstep as <-.
    unfold inFlight in *. simpl.
    rewrite map_size_delete_Some by (by rewrite Hci). lia.
Qed.

Lemma inFlight_after limit events s s' :
  poolInv env tasks s -> poolAfter env limit events s = Some s' ->
  (Z.of_nat (inFlight s) <= limit)%Z -> (Z.of_nat (inFlight s') <= limit)%Z.
Proof.
  revert s. induction events as [| e events IH]; intros s Hinv; simpl.
  - by intros [= <-].
  - destruct (step env limit s e) as [[s1 | p] |] eqn:Hstep; try done.
    intros Hafter Hle. apply (IH s1); [by eapply poolInv_step | done |].
    by eapply inFlight_step.
Qed.

(** The channel name a goroutine returns is the one its call of
    [GeneratePage] gave. *)
Lemma worker_channel l c i rc :
  worker env l c i = Returns rc ->
  rc.2 = channelOf env i /\ (GeneratePage env i).1.1 <> None.
Proof.
  unfold worker, channelOf.
  destruct (GeneratePage env i) as [[[p |] channelName] [e |]]; try discriminate.
  - by intros [= <-].
  - destruct (index_get l i); [| done]. by intros [= <-].
Qed.




End PoolFacts.

(** X16. Concurrent mode, any interleaving: the goroutines that hold
    a slot of the semaphore (launched, and not yet done with their
    result) are never more than [maxConcurrency], which is 10 at
    most. *)
Theorem concurrent_pool_bounded env events tasks log s :
  poolAfter env (maxConcurrency (Z.of_nat (length tasks))) events
    (mkPool tasks 0 ∅ ∅ log) = Some s ->
  (Z.of_nat (inFlight s) <= maxConcurrency (Z.of_nat (length tasks)) <= 10)%Z.
Proof.
  intros Hafter. split.
  - apply (inFlight_after env tasks _ events (mkPool tasks 0 ∅ ∅ log) s);
      [apply poolInv_initial | done |].
    unfold inFlight. simpl. rewrite !map_size_empty.
    pose proof (maxConcurrency_positive (Z.of_nat (length tasks))). lia.
  - unfold maxConcurrency.
    destruct (_ && _), (_ <? _)%Z; lia.
Qed.

Lemma concurrent_pool_bounded_witness :
  exists s,
    poolAfter healthy 3 [Launch; Launch; Launch; Work 1%nat]
      (mkPool (replicate 4 (job 2 "a.mp4")) 0 ∅ ∅ []) = Some s /\
    (Z.of_nat (inFlight s) <= 3)%Z /\
    poolAfter healthy 3 [Launch; Launch; Launch; Work 1%nat; Launch]
      (mkPool (replicate 4 (job 2 "a.mp4")) 0 ∅ ∅ []) = None.
Proof.
  eexists. split; [vm_compute; reflexivity |]. split; [| vm_compute; reflexivity].
  refine (proj1 (concurrent_pool_bounded healthy [Launch; Launch; Launch; Work 1%nat]
                   (replicate 4 (job 2 "a.mp4")) [] _ _)).
  vm_compute. reflexivity.
Defined.



(** The in-order run completes as soon as the goroutine of every job
    gets a page pointer from [GeneratePage]. *)
Lemma inOrder_pages env limit (n : nat) :
  forall (k : nat) (sh : list VideoCreateTask) (log : list LogLine),
    (1 <= limit)%Z ->
    (k + n)%nat = length sh ->
    (forall i, (i < length sh)%nat -> (GeneratePage env i).1.1 <> None) ->
    exists res log',
      schedule env limit (flat_map (fun i => [Launch; Work i; Finish i]) (seq k n))
        (mkPool sh k ∅ ∅ log) = Completed res log'.
Proof.
  induction n as [| n IH]; intros k sh log Hlimit Hlen Hpage.
  - simpl. unfold allDone, inFlight. simpl.
    rewrite !bool_decide_eq_true_2; [by eauto | | lia].
    by rewrite !map_size_empty.
  - destruct (lookup_lt_is_Some_2 sh k) as [t Ht]; [lia |].
    cbn [seq flat_map app schedule step launched shared waiting computed logFile].
    rewrite decide_True by lia.
    rewrite decide_True by (unfold inFlight; simpl; rewrite !map_size_empty; lia).
    rewrite (index_get_Some _ _ _ Ht).
    cbn [mbind run_bind schedule step launched shared waiting computed logFile].
    rewrite lookup_insert_eq.
    assert (exists rc, worker env sh t k = Returns rc) as [[r channelName] Hrc].
    { unfold worker. specialize (Hpage k ltac:(lia)).
      destruct (GeneratePage env k) as [[[p |] c] [e |]]; simpl in Hpage;
        try done; [by eauto |].
      rewrite (index_get_Some _ _ _ Ht). by eauto. }
    rewrite Hrc.
    cbn [mbind run_bind schedule step launched shared waiting computed logFile].
    rewrite lookup_insert_eq. rewrite index_set_lt by lia.
    cbn [mbind run_bind].
    rewrite !delete_insert_eq, !delete_empty.
    apply IH; [done | rewrite length_insert; lia |].
    intros i Hi. apply Hpage. by rewrite length_insert in Hi.
Qed.

(** X18. Concurrent mode: the dispatcher can return its results, in
    some interleaving, exactly when the call of [GeneratePage] of every
    job returns a page pointer; one call that returns a nil page stops
    every run before its end. *)
Theorem concurrent_completes_iff_pages env tasks log :
  (exists events res log',
     processTaskConcurrent env events tasks log = Completed res log') <->
  (forall i, (i < length tasks)%nat -> (GeneratePage env i).1.1 <> None).
Proof.
  split.
  - intros (events & res & log' & Hrun) i Hi. unfold processTaskConcurrent in Hrun.
    destruct (poolInv_completed env tasks _ _ _ _ _ (poolInv_initial env tasks log) Hrun)
      as [_ Hall].
    destruct (lookup_lt_is_Some_2 tasks i Hi) as [t Ht].
    destruct (Hall i t Ht) as (rc & Hw & _).
    by destruct (worker_channel env tasks t i rc Hw).
  - intros Hpage. exists (inOrder (length tasks)).
    unfold processTaskConcurrent, inOrder.
    apply inOrder_pages; [apply maxConcurrency_positive | lia | done].
Qed.

End DispatchMore.

(** ** From the workbook to the results *)

Module PipelineFacts.
Import GoStrings Task Uploader Dispatch Pipeline Validate Examples MoreExamples.
Import DispatchFacts.

(** An error the loop of [waitForDeleteButton] returns is never the
    empty text. *)
Lemma deleteButtonLoop_error_text w startTime (n : nat) :
  forall clock e t,
    deleteButtonLoop w startTime n clock = (Some (Some e), t) -> e <> "".
Proof.
  induction n as [| n IH]; intros clock e t; simpl; [done |].
  destruct (hasDeleteButton _); [done |].
  destruct (hasUploadError _); [by intros [= <- <-] |].
  destruct (_ <? _)%Z; [by intros [= <- <-] |].
  apply IH.
Qed.

Lemma uploadVideo_error_text page videoPath clock :
  (Form.uploadVideo page videoPath clock).1 <> Some "".
Proof.
  unfold Form.uploadVideo. simpl.
  assert ((Form.uploadVideoBySelector page videoPath clock).1 <> Some "") as H.
  { unfold Form.uploadVideoBySelector, Form.checkVideoUploadStatus.
    destruct (String.eqb _ ""); [done |].
    destruct (Form.setInputFiles page _ videoPath); [done |].
    unfold waitForDeleteButton.
    destruct (deleteButtonLoop _ _ _ _) as [[[e |] |] t] eqn:Hloop; simpl; [| done..].
    intros [= ->]. by apply deleteButtonLoop_error_text in Hloop. }
  by destruct (Form.uploadVideoBySelector page videoPath clock) as [[e |] t].
Qed.

(** On the pages of a site [createVideo] leaves a job that came with
    an empty error text in one of the two final states. *)
Lemma createVideo_determinate site p t :
  Error t = "" -> determinate (createVideo (browserOf site) p t).
Proof.
  intros Herr. unfold createVideo, determinate.
  pose proof (uploadVideo_error_text (uploadPageOf site p) (VideoPath t) 0) as Hup.
  pose proof (FormFacts.completeVideoUploadForm_error_text (formPageOf site p)
                (mkOptions (Description t) (Location t) (Collection t) (Link t)
                   (Activity t) (Schedule t) (ScheduleTime t) (ShortTitle t)
                   (Action t))) as Hform.
  unfold browserOf. cbn [uploadVideo completeVideoUploadForm].
  destruct (Form.uploadVideo _ _ _).1 as [e |];
    [right; split; [done | simpl; congruence] |].
  destruct (Form.completeVideoUploadForm _ _).1 as [e |];
    [right; split; [done | simpl; congruence] |].
  by left.
Qed.

(** X19. On the pages of a site, [createVideo] leaves a job that came
    with an empty error text in one of the two final states: success
    with an empty error text, exactly when the upload and the form both
    returned no error, or failure with an error text that is not
    empty. *)
Theorem createVideo_outcome (site : Site) (p : PageRef) (t : VideoCreateTask) :
  Error t = "" ->
  determinate (createVideo (browserOf site) p t) /\
  (Success (createVideo (browserOf site) p t) = true <->
   uploadVideo (browserOf site) p (VideoPath t) = None /\
   completeVideoUploadForm (browserOf site) p
     (mkOptions (Description t) (Location t) (Collection t) (Link t) (Activity t)
        (Schedule t) (ScheduleTime t) (ShortTitle t) (Action t)) = None).
Proof.
  intros Herr. split; [by apply createVideo_determinate |].
  unfold createVideo.
  destruct (uploadVideo (browserOf site) p (VideoPath t)) as [e |];
    [simpl; split; [done | by intros []] |].
  destruct (completeVideoUploadForm (browserOf site) p _) as [e |];
    [simpl; split; [done | by intros []] |].
  done.
Qed.

Lemma createVideo_outcome_witness :
  determinate (createVideo (browserOf easySite) 0%nat (job 2 "a.mp4")) /\
  Success (createVideo (browserOf easySite) 0%nat (job 2 "a.mp4")) = true.
Proof.
  destruct (createVideo_outcome easySite 0%nat (job 2 "a.mp4")) as [Hdet Hiff];
    [reflexivity |].
  split; [exact Hdet |]. apply Hiff. split; vm_compute; reflexivity.
Defined.

(** What a goroutine computes from a job that came with an empty error
    text is in one of the two final states. *)
Lemma worker_determinate site (tasks : list VideoCreateTask) t i rc :
  tasks !! i = Some t -> Error t = "" ->
  worker (browserOf site) tasks t i = Returns rc -> determinate rc.1.
Proof.
  intros Ht Herr. unfold worker, GeneratePage.
  destruct (pageExit (browserOf site) i) as [e | e | e | p | p channelName]; try done.
  - intros [= <-]. right. done.
  - rewrite (index_get_Some _ _ _ Ht). simpl. intros [= <-].
    by apply createVideo_determinate.
Qed.

(** The jobs [ValidateExcelFile] returns are jobs [parseTaskFromRow]
    gave, with their row index set. *)
Lemma ValidateExcelFile_parsed host reversed filePath rows tasks :
  ValidateExcelFile host reversed filePath (Sheet rows) = Returns (Ok tasks) ->
  forall t, t ∈ tasks ->
    exists row t0 rowIndex,
      row ∈ rows /\ parseTaskFromRow host row = Next t0 /\ t = set_RowIndex t0 rowIndex.
Proof.
  intros H. unfold ValidateExcelFile in H.
  destruct (Z.ltb_spec (Z.of_nat (length rows)) 2) as [| Hlen]; [done |].
  destruct rows as [| headers data]; [simpl in Hlen; lia |].
  simpl in H.
  destruct (0 <? _)%Z; [done |].
  rewrite drop_0 in H.
  destruct (parseRows host data 0 [] []) as [[res errs] | p] eqn:Hrows; [| done].
  simpl in H.
  destruct (Z.ltb_spec 0 (Z.of_nat (length errs))) as [| Herrs]; [done |].
  injection H as <-.
  destruct errs as [| e errs]; [| simpl in Herrs; lia].
  destruct (ValidateFacts.parseRows_accepts _ _ _ _ _ Hrows) as (parsed & -> & Hplen & Hall).
  simpl. intros t Hin.
  apply list_elem_of_lookup_1 in Hin as [k Hk].
  destruct (lookup_lt_is_Some_2 data k) as [row Hrow];
    [rewrite <- Hplen; by eapply lookup_lt_Some |].
  destruct (Hall k row Hrow) as (t0 & Ht0 & Hp).
  exists row, t0, (int_add (Z.of_nat (0 + k)) 2).
  split; [apply list_elem_of_further; by eapply list_elem_of_lookup_2 |].
  split; [done | congruence].
Qed.

(** X20. The jobs [ValidateExcelFile] returns, run on the pages of a
    site: in sequential mode, once [GeneratePage] gave a page, and in
    concurrent mode, in every run that completes, every result is in
    one of the two final states, success with an empty error text or
    failure with an error text. *)
Theorem validated_jobs_end_determinate host reversed filePath rows tasks site log :
  ValidateExcelFile host reversed filePath (Sheet rows) = Returns (Ok tasks) ->
  (forall p channelName,
     GeneratePage (browserOf site) 0 = (Some p, channelName, None) ->
     exists res log',
       processTaskSequential (browserOf site) tasks log = Returns (res, log') /\
       Forall determinate res) /\
  (forall events res log',
     processTaskConcurrent (browserOf site) events tasks log = Completed res log' ->
     Forall determinate res).
Proof.
  intros Hvalid.
  assert (forall t, t ∈ tasks -> Error t = "") as Herr.
  { intros t Hin.
    destruct (ValidateExcelFile_parsed _ _ _ _ _ Hvalid t Hin)
      as (row & t0 & rowIndex & _ & Hrow & ->).
    by destruct (ValidateFacts.parseTaskFromRow_fields _ _ _ Hrow)
      as (_ & _ & _ & _ & _ & He & _). }
  split.
  - intros p channelName Hpage.
    destruct (sequential_with_page (browserOf site) tasks log p channelName Hpage)
      as [log' Hrun].
    exists (createVideo (browserOf site) p <$> tasks), log'. split; [done |].
    apply Forall_fmap, Forall_forall. intros t Hin. simpl.
    by apply createVideo_determinate, Herr.
  - intros events res log' Hrun. unfold processTaskConcurrent in Hrun.
    destruct (poolInv_completed _ tasks _ _ _ _ _
                (poolInv_initial (browserOf site) tasks log) Hrun) as [Hlen Hall].
    apply Forall_forall. intros r Hin.
    apply list_elem_of_lookup_1 in Hin as [i Hi].
    destruct (lookup_lt_is_Some_2 tasks i) as [t Ht];
      [rewrite <- Hlen; by eapply lookup_lt_Some |].
    destruct (Hall i t Ht) as (rc & Hw & Hr).
    assert (r = rc.1) as -> by congruence.
    apply (worker_determinate site tasks t i rc Ht); [| done].
    apply Herr. by eapply list_elem_of_lookup_2.
Qed.

Lemma validated_jobs_end_determinate_witness :
  exists tasks res log',
    ValidateExcelFile localHost false "jobs.xlsx" (Sheet workbook) = Returns (Ok tasks) /\
    processTaskConcurrent (browserOf easySite) (inOrder 2) tasks [] = Completed res log' /\
    Forall determinate res.
Proof.
  eexists _, _, _. split; [vm_compute; reflexivity |].
  split; [vm_compute; reflexivity |].
  refine (proj2 (validated_jobs_end_determinate localHost false "jobs.xlsx" workbook
                   _ easySite [] _) (inOrder 2) _ _ _);
    vm_compute; reflexivity.
Defined.

End PipelineFacts.

(** ** The date picker, once more *)

Module PickerMore.
Import GoStrings Picker DayStep Examples.

Section MonthMore.
Context {W : Type} (cal : Calendar W).

(** X21. When [selectSpecificMonth] returns no error, the panel it
    leaves shows the target month: the month it read last, from that
    page, is the target. *)
Theorem selectSpecificMonth_success (w w' : W) (targetMonth : Z) trace :
  selectSpecificMonth cal w targetMonth = (None, w', trace) ->
  getCurrentMonth (monthView cal w') = Ok targetMonth.
Proof.
  unfold selectSpecificMonth.
  destruct (getCurrentMonth (monthView cal w)) as [currentMonth | e] eqn:Hcur; [| done].
  destruct (Z.eqb_spec currentMonth targetMonth) as [-> | Hne].
  { by intros [= <- <-]. }
  destruct (rightArrowCount (monthView cal w) =? 0)%Z; [done |].
  destruct (clickLoop cal _ w [ReadMonth]) as [[[e |] w1] trace1]; [done |].
  destruct (getCurrentMonth (monthView cal w1)) as [finalMonth | e] eqn:Hfinal; [| done].
  destruct (Z.eqb_spec finalMonth targetMonth) as [-> | Hne']; [| done].
  by intros [= <- <-].
Qed.

End MonthMore.

Lemma selectSpecificMonth_success_witness :
  getCurrentMonth (monthView wheel 2%Z) = Ok 2%Z.
Proof.
  apply (selectSpecificMonth_success wheel 11%Z 2%Z 2%Z (navigationTrace 3)).
  vm_compute. reflexivity.
Defined.

(** X22. [getCurrentMonth] reads the month from the second label of
    the panel: a panel with fewer than two labels gives the error of
    [getCurrentMonthFromTable], a second label whose text cannot be read
    gives that error wrapped, and a second label that is the number of
    one of the twelve months followed by the month sign gives that
    month. *)
Theorem getCurrentMonth_label (page : MonthView) :
  ((length (panelLabels page) < 2)%nat ->
   getCurrentMonth page = Err "无法确定当前月份") /\
  (forall e, panelLabels page !! 1%nat = Some (Err e) ->
   getCurrentMonth page = Err ("获取月份文本失败: " +:+ e)) /\
  (forall m, (1 <= m <= 12)%Z ->
   panelLabels page !! 1%nat = Some (Ok (Itoa m +:+ "月")) ->
   getCurrentMonth page = Ok m).
Proof.
  unfold getCurrentMonth, getCurrentMonthFromTable.
  split; [| split].
  - intros Hlen. destruct (Z.leb_spec 2 (Z.of_nat (length (panelLabels page)))); [lia | done].
  - intros e He. pose proof (lookup_lt_Some _ _ _ He) as Hlen.
    destruct (Z.leb_spec 2 (Z.of_nat (length (panelLabels page)))); [| lia].
    by rewrite He.
  - intros m Hm Hlabel. pose proof (lookup_lt_Some _ _ _ Hlabel) as Hlen.
    destruct (Z.leb_spec 2 (Z.of_nat (length (panelLabels page)))); [| lia].
    rewrite Hlabel.
    assert (m = 1 \/ m = 2 \/ m = 3 \/ m = 4 \/ m = 5 \/ m = 6 \/ m = 7 \/ m = 8 \/
            m = 9 \/ m = 10 \/ m = 11 \/ m = 12)%Z as Hcases by lia.
    repeat (destruct Hcases as [-> | Hcases]; [vm_compute; reflexivity |]).
    subst m. vm_compute. reflexivity.
Qed.

Lemma getCurrentMonth_label_witness :
  getCurrentMonth (monthView wheel 9%Z) = Ok 9%Z /\
  getCurrentMonth (mkMonthView [Ok "2025年"] 1) = Err "无法确定当前月份".
Proof.
  destruct (getCurrentMonth_label (monthView wheel 9%Z)) as (_ & _ & Hread).
  destruct (getCurrentMonth_label (mkMonthView [Ok "2025年"] 1)) as (Hfew & _).
  split; [apply Hread; [lia | reflexivity] | apply Hfew; simpl; lia].
Defined.

(** The position of an element of [allDates] is its place in the
    list. *)
Lemma allDates_split page pre i c post :
  allDates page = pre ++ (i, c) :: post ->
  i = length pre /\ cells page !! i = Some c /\
  forall j c', (j < i)%nat -> cells page !! j = Some c' -> (j, c') ∈ pre.
Proof.
  unfold allDates. intros Hsplit.
  assert (forall k, imap (fun i0 d => (i0, d)) (cells page) !! k =
                    (pre ++ (i, c) :: post) !! k) as Hlookup
    by (intros k; by rewrite Hsplit).
  assert (i = length pre /\ cells page !! i = Some c) as [-> Hc].
  { specialize (Hlookup (length pre)).
    rewrite list_lookup_imap, list_lookup_middle in Hlookup by done.
    destruct (cells page !! length pre) as [d |] eqn:Hd; [| done].
    simpl in Hlookup. injection Hlookup as <- <-. done. }
  split; [done |]. split; [done |].
  intros j c' Hj Hc'. specialize (Hlookup j).
  rewrite list_lookup_imap, Hc', lookup_app_l in Hlookup by done.
  simpl in Hlookup. symmetry in Hlookup. by eapply list_elem_of_lookup_2.
Qed.

(** The scan of [selectSpecificDay] clicks nothing and fails, no
    element being eligible, or clicks the first element that shows the
    day without the word for disabled days in its class. *)
Lemma scanAllDates_first page day elements :
  ((scanAllDates page day elements).2 = [] /\
   (scanAllDates page day elements).1 <> None /\
   forall j c', (j, c') ∈ elements -> cellDay c' = Some day ->
                Contains (cellClass c') "disabled" = true) \/
  exists pre i c post,
    elements = pre ++ (i, c) :: post /\
    (scanAllDates page day elements).2 = [i] /\
    cellDay c = Some day /\ Contains (cellClass c) "disabled" = false /\
    (forall j c', (j, c') ∈ pre -> cellDay c' = Some day ->
                  Contains (cellClass c') "disabled" = true) /\
    ((scanAllDates page day elements).1 = None <->
     cellClick c = None /\ verifyDaySelection (afterClick page i) (Itoa day) = None).
Proof.
  induction elements as [| [i c] rest IH]; simpl.
  { left. split; [done |]. split; [done |]. by intros ? ? ?%elem_of_nil. }
  assert ((cellDay c = Some day -> Contains (cellClass c) "disabled" = true) ->
          ((scanAllDates page day rest).2 = [] /\
           (scanAllDates page day rest).1 <> None /\
           forall j c', (j, c') ∈ (i, c) :: rest -> cellDay c' = Some day ->
                        Contains (cellClass c') "disabled" = true) \/
          exists pre i0 c0 post,
            (i, c) :: rest = pre ++ (i0, c0) :: post /\
            (scanAllDates page day rest).2 = [i0] /\
            cellDay c0 = Some day /\ Contains (cellClass c0) "disabled" = false /\
            (forall j c', (j, c') ∈ pre -> cellDay c' = Some day ->
                          Contains (cellClass c') "disabled" = true) /\
            ((scanAllDates page day rest).1 = None <->
             cellClick c0 = None /\
             verifyDaySelection (afterClick page i0) (Itoa day) = None)) as Hskip.
  { intros Hc.
    destruct IH as [(H1 & H2 & H3) | (pre & i0 & c0 & post & -> & H1 & H2 & H3 & H4 & H5)];
      [left | right].
    - do 2 (split; [done |]). intros j c' Hin Hday.
      apply elem_of_cons in Hin as [[= -> ->] | Hin]; [by apply Hc | by apply (H3 j)].
    - exists ((i, c) :: pre), i0, c0, post.
      do 4 (split; [done |]). split; [| done].
      intros j c' Hin Hday.
      apply elem_of_cons in Hin as [[= -> ->] | Hin]; [by apply Hc | by apply (H4 j)]. }
  destruct (cellDay c) as [d |] eqn:Hd; [| by apply Hskip].
  destruct (Z.eqb_spec d day) as [-> | Hne]; [| apply Hskip; congruence].
  destruct (Contains (cellClass c) "disabled") eqn:Hclass; [by apply Hskip |].
  right. exists [], i, c, rest.
  split; [done |].
  destruct (cellClick c) as [e |] eqn:Hclick; simpl.
  { do 3 (split; [done |]). split; [by intros ? ? ?%elem_of_nil |].
    split; [done | by intros [? _]]. }
  destruct (verifyDaySelection _ _) as [e |] eqn:Hverify; simpl.
  { do 3 (split; [done |]). split; [by intros ? ? ?%elem_of_nil |].
    split; [done | by intros [_ ?]]. }
  do 3 (split; [done |]). split; [by intros ? ? ?%elem_of_nil | done].
Qed.

(** [selectSpecificDay] clicks one link at most. *)
Lemma selectSpecificDay_one_click page day :
  (length (selectSpecificDay page day).2 <= 1)%nat.
Proof.
  unfold selectSpecificDay.
  destruct (countError page) as [e |]; [simpl; lia |].
  destruct (scanAllDates_first page day (allDates page))
    as [(-> & _) | (pre & i & c & post & _ & -> & _)]; simpl; lia.
Qed.

(** X23. [selectSpecificDay] clicks one link at most.  Either it
    clicks nothing and fails, or it clicks the first link of the table,
    in document order, that shows the target day and has not the word
    for disabled days in its class, whatever comes after it; and then it
    succeeds exactly when that click went through and
    [verifyDaySelection] accepted the page the click left. *)
Theorem selectSpecificDay_first_match (page : DayGrid) (day : Z) :
  ((selectSpecificDay page day).2 = [] /\ (selectSpecificDay page day).1 <> None) \/
  exists i c,
    cells page !! i = Some c /\
    (selectSpecificDay page day).2 = [i] /\
    cellDay c = Some day /\ Contains (cellClass c) "disabled" = false /\
    (forall j c', (j < i)%nat -> cells page !! j = Some c' -> cellDay c' = Some day ->
                  Contains (cellClass c') "disabled" = true) /\
    ((selectSpecificDay page day).1 = None <->
     cellClick c = None /\ verifyDaySelection (afterClick page i) (Itoa day) = None).
Proof.
  unfold selectSpecificDay.
  destruct (countError page) as [e |]; [by left |].
  destruct (scanAllDates_first page day (allDates page))
    as [(H1 & H2 & _) | (pre & i & c & post & Hsplit & H1 & H2 & H3 & H4 & H5)];
    [by left | right].
  destruct (allDates_split page pre i c post Hsplit) as (Hi & Hc & Hpre).
  exists i, c. do 4 (split; [done |]). split; [| done].
  intros j c' Hj Hc' Hday. apply (H4 j); [by apply Hpre | done].
Qed.

(** The scan of [selectSpecificDayOptimized] over the elements that
    pass the filter of the locator: it clicks nothing and fails, no
    element being eligible, or clicks the first element that shows the
    day and is not marked disabled. *)
Lemma scanAvailableDates_first page day elements :
  let result :=
    scanAvailableDates page day
      (filter (fun e => hasClass (cellClass e.2) "weui-desktop-picker__disabled" = false)
         elements) in
  (result.2 = [] /\ result.1 <> None /\
   forall j c', (j, c') ∈ elements -> cellDay c' = Some day -> markedDisabled c' = true) \/
  exists pre i c post,
    elements = pre ++ (i, c) :: post /\
    result.2 = [i] /\
    cellDay c = Some day /\ markedDisabled c = false /\
    (forall j c', (j, c') ∈ pre -> cellDay c' = Some day -> markedDisabled c' = true) /\
    (result.1 = None <->
     cellClick c = None /\ verifyDaySelectionByNumber (afterClick page i) day = None).
Proof.
  simpl. induction elements as [| [i c] rest IH].
  { left. split; [done |]. split; [done |]. by intros ? ? ?%elem_of_nil. }
  set (P := fun e : nat * DayCell =>
              hasClass (cellClass e.2) "weui-desktop-picker__disabled" = false) in *.
  assert ((cellDay c = Some day -> markedDisabled c = true) ->
          forall result,
            (scanAvailableDates page day (filter P rest)) = result ->
          (result.2 = [] /\ result.1 <> None /\
           forall j c', (j, c') ∈ (i, c) :: rest -> cellDay c' = Some day ->
                        markedDisabled c' = true) \/
          exists pre i0 c0 post,
            (i, c) :: rest = pre ++ (i0, c0) :: post /\
            result.2 = [i0] /\
            cellDay c0 = Some day /\ markedDisabled c0 = false /\
            (forall j c', (j, c') ∈ pre -> cellDay c' = Some day ->
                          markedDisabled c' = true) /\
            (result.1 = None <->
             cellClick c0 = None /\
             verifyDaySelectionByNumber (afterClick page i0) day = None)) as Hskip.
  { intros Hc result <-.
    destruct IH as [(H1 & H2 & H3) | (pre & i0 & c0 & post & -> & H1 & H2 & H3 & H4 & H5)];
      [left | right].
    - do 2 (split; [done |]). intros j c' Hin Hday.
      apply elem_of_cons in Hin as [[= -> ->] | Hin]; [by apply Hc | by apply (H3 j)].
    - exists ((i, c) :: pre), i0, c0, post.
      do 4 (split; [done |]). split; [| done].
      intros j c' Hin Hday.
      apply elem_of_cons in Hin as [[= -> ->] | Hin]; [by apply Hc | by apply (H4 j)]. }
  destruct (markedDisabled c) eqn:Hmarked.
  { rewrite filter_cons_False by (unfold P, markedDisabled in *; simpl; congruence).
    by apply Hskip. }
  rewrite filter_cons_True by (unfold P, markedDisabled in *; simpl; congruence).
  simpl.
  destruct (cellDay c) as [d |] eqn:Hd; [| by apply Hskip].
  destruct (Z.eqb_spec d day) as [-> | Hne]; [| apply Hskip; [congruence | done]].
  right. exists [], i, c, rest.
  split; [done |].
  destruct (cellClick c) as [e |] eqn:Hclick; simpl.
  { do 3 (split; [done |]). split; [by intros ? ? ?%elem_of_nil |].
    split; [done | by intros [? _]]. }
  destruct (verifyDaySelectionByNumber _ _) as [e |] eqn:Hverify; simpl.
  { do 3 (split; [done |]). split; [by intros ? ? ?%elem_of_nil |].
    split; [done | by intros [_ ?]]. }
  do 3 (split; [done |]). split; [by intros ? ? ?%elem_of_nil | done].
Qed.

(** [selectSpecificDayOptimized] clicks one link at most. *)
Lemma selectSpecificDayOptimized_one_click page day :
  (length (selectSpecificDayOptimized page day).2 <= 1)%nat.
Proof.
  unfold selectSpecificDayOptimized, availableDates.
  destruct (availableCountError page) as [e |]; [simpl; lia |].
  destruct (scanAvailableDates_first page day (allDates page))
    as [(-> & _) | (pre & i & c & post & _ & -> & _)]; simpl; lia.
Qed.

(** X24. [selectSpecificDayOptimized] clicks one link at most.  Either
    it clicks nothing and fails, or it clicks the first link of the
    table, in document order, that shows the target day and does not
    carry the class of disabled days; and then it succeeds exactly when
    that click went through and [verifyDaySelectionByNumber] accepted
    the page the click left. *)
Theorem selectSpecificDayOptimized_first_match (page : DayGrid) (day : Z) :
  ((selectSpecificDayOptimized page day).2 = [] /\
   (selectSpecificDayOptimized page day).1 <> None) \/
  exists i c,
    cells page !! i = Some c /\
    (selectSpecificDayOptimized page day).2 = [i] /\
    cellDay c = Some day /\ markedDisabled c = false /\
    (forall j c', (j < i)%nat -> cells page !! j = Some c' -> cellDay c' = Some day ->
                  markedDisabled c' = true) /\
    ((selectSpecificDayOptimized page day).1 = None <->
     cellClick c = None /\ verifyDaySelectionByNumber (afterClick page i) day = None).
Proof.
  unfold selectSpecificDayOptimized, availableDates.
  destruct (availableCountError page) as [e |]; [by left |].
  destruct (scanAvailableDates_first page day (allDates page))
    as [(H1 & H2 & _) | (pre & i & c & post & Hsplit & H1 & H2 & H3 & H4 & H5)];
    [by left | right].
  destruct (allDates_split page pre i c post Hsplit) as (Hi & Hc & Hpre).
  exists i, c. do 4 (split; [done |]). split; [| done].
  intros j c' Hj Hc' Hday. apply (H4 j); [by apply Hpre | done].
Qed.

(** X25. The day step of [setFullDateTime] clicks two links at most.
    And when the links that are not disabled can be counted and the
    optimized selection finds none to click, the standard selection it
    falls back on, on the table as it is, clicks nothing either: the
    step fails. *)
Theorem day_fallback_futile (page : DayGrid) (after : list nat -> DayGrid) (day : Z) :
  (length (selectDayWithFallback page after day).2 <= 2)%nat /\
  (after [] = page -> availableCountError page = None ->
   (selectSpecificDayOptimized page day).2 = [] ->
   exists e, selectDayWithFallback page after day = (Some ("选择日期失败: " +:+ e), [])).
Proof.
  pose proof (fun g => selectSpecificDay_one_click g day) as Hstd.
  pose proof (selectSpecificDayOptimized_one_click page day) as Hopt.
  split.
  - unfold selectDayWithFallback.
    destruct (selectSpecificDayOptimized page day) as [[e |] clicked]; simpl in *; [| lia].
    specialize (Hstd (after clicked)).
    destruct (selectSpecificDay (after clicked) day) as [[e' |] clicked']; simpl in *;
      rewrite length_app; lia.
  - intros Hafter Hcount Hnone. unfold selectDayWithFallback.
    unfold selectSpecificDayOptimized, availableDates in *. rewrite Hcount in *.
    destruct (scanAvailableDates_first page day (allDates page))
      as [(H1 & H2 & H3) | (pre & i & c & post & _ & H1 & _)]; simpl in *;
      [| congruence].
    destruct (scanAvailableDates page day _) as [[e |] clicked]; simpl in *; [| done].
    subst clicked. rewrite Hafter. unfold selectSpecificDay.
    destruct (countError page) as [e' |]; [by eexists |].
    rewrite PickerFacts.scanAllDates_none; [by eexists |].
    intros i c Hin Hday. apply PickerFacts.markedDisabled_Contains. by apply (H3 i).
Qed.

Lemma day_fallback_futile_witness :
  selectDayWithFallback octoberGrid (fun _ => octoberGrid) 1 =
  (Some "选择日期失败: 日期 1 未找到", []).
Proof.
  destruct (proj2 (day_fallback_futile octoberGrid (fun _ => octoberGrid) 1))
    as [e He]; [reflexivity.. |].
  vm_compute. reflexivity.
Defined.

End PickerMore.

(** ** The final report *)

Module ReportFacts.
Import GoStrings Task Validate Report Examples MoreExamples.

Lemma countResults_spec base results :
  forall successCount failCount lines,
    (0 <= successCount)%Z -> (0 <= failCount)%Z ->
    (successCount + failCount + Z.of_nat (length results) <= maxInt)%Z ->
    countResults base results successCount failCount lines =
    ((successCount + Z.of_nat (length (filter (fun r => Success r = true) results)))%Z,
     (failCount + Z.of_nat (length (filter (fun r => Success r = false) results)))%Z,
     lines ++ (reportLineOf base <$> results)).
Proof.
  induction results as [| r rest IH]; intros s f lines Hs Hf Hbound.
  - simpl. by rewrite !Z.add_0_r, app_nil_r.
  - cbn [countResults]. rewrite length_cons in Hbound. rewrite fmap_cons.
    destruct (Success r) eqn:Hr.
    + assert (reportLineOf base r = RowSucceeded (RowIndex r) (base (VideoPath r)))
        as -> by (unfold reportLineOf; by rewrite Hr).
      rewrite filter_cons_True, filter_cons_False by (rewrite ?Hr; done).
      unfold int_add. rewrite PickerFacts.wrap_small by (unfold minInt, maxInt in *; lia).
      rewrite IH by lia. rewrite length_cons, <- app_assoc.
      rewrite Nat2Z.inj_succ. do 2 f_equal; try done. lia.
    + assert (reportLineOf base r =
              RowFailed (RowIndex r) (base (VideoPath r)) (Error r))
        as -> by (unfold reportLineOf; by rewrite Hr).
      rewrite filter_cons_False, filter_cons_True by (rewrite ?Hr; done).
      unfold int_add. rewrite PickerFacts.wrap_small by (unfold minInt, maxInt in *; lia).
      rewrite IH by lia. rewrite length_cons, <- app_assoc.
      rewrite Nat2Z.inj_succ. do 2 f_equal; try done. lia.
Qed.

(** X26. The report of [PrintVideoCreateResults] is its heading, one
    line per result in the order of the results, and the totals: the
    number of results with success and the number of the others, which
    add up to the number of results; the pointer to the log file follows
    exactly when there is a result without success. *)
Theorem PrintVideoCreateResults_report base (results : list VideoCreateTask) :
  (Z.of_nat (length results) <= maxInt)%Z ->
  let successCount := length (filter (fun r => Success r = true) results) in
  let failCount := length (filter (fun r => Success r = false) results) in
  (successCount + failCount = length results)%nat /\
  PrintVideoCreateResults base results =
  [Heading] ++ (reportLineOf base <$> results)
  ++ [Totals (Z.of_nat successCount) (Z.of_nat failCount)]
  ++ (if decide (failCount = 0%nat) then [] else [SeeLog (Z.of_nat failCount)]).
Proof.
  intros Hbound successCount failCount. split.
  - unfold successCount, failCount. clear.
    induction results as [| r rest IH]; [done |].
    destruct (Success r) eqn:Hr.
    + rewrite filter_cons_True, filter_cons_False by (rewrite ?Hr; done). simpl. lia.
    + rewrite filter_cons_False, filter_cons_True by (rewrite ?Hr; done). simpl. lia.
  - unfold PrintVideoCreateResults.
    rewrite countResults_spec by lia. simpl.
    fold successCount failCount. rewrite !Z.add_0_l.
    destruct (Z.ltb_spec 0 (Z.of_nat failCount)), (decide (failCount = 0%nat));
      try lia; by rewrite <- ?app_assoc.
Qed.

Lemma PrintVideoCreateResults_report_witness :
  PrintVideoCreateResults (fun path => path)
    [set_Success (job 2 "a.mp4") true; set_Error (job 3 "b.mp4") "页面加载超时"] =
  [Heading; RowSucceeded 2 "a.mp4"; RowFailed 3 "b.mp4" "页面加载超时";
   Totals 1 1; SeeLog 1].
Proof.
  refine (proj2 (PrintVideoCreateResults_report (fun path => path)
                   [set_Success (job 2 "a.mp4") true;
                    set_Error (job 3 "b.mp4") "页面加载超时"] _)).
  vm_compute. discriminate.
Defined.

End ReportFacts.
